(** * vod_rec: the recommendation pipeline of [dags/vod_rec.py]

    A shallow embedding of the three core stages of the DAG
    ([data_preprocessing], the class [SVDRecommendationModel] of
    [model_running]) and of the routines of pandas, scikit-learn and Surprise
    they call, followed by the properties of the pipeline.

    Conventions.
    - A Python exception is the [Raise] branch of [result].
    - A float64 column is a column of [option]: [None] is NaN, which is also
      pandas' marker of a missing value.  Finite floats are rationals
      ([Q]); rounding is not modelled.  The extraction stage, which divides
      by a runtime that can be zero, works on [fval], the rationals with the
      two infinities.
    - A DataFrame is the list of its rows, each paired with its index label
      where the code uses the label.
    - The pseudo-random permutation drawn by [train_test_split], the
      ordering of ties left by the default (not stable) sort of
      [sort_values], the parameters learned by stochastic gradient descent
      and [numpy.sqrt] are interfaces: a class or a section variable with the
      contract the library documents. *)

From Stdlib Require Import ZArith QArith Qround Qminmax List Permutation Sorted.
From Stdlib Require Import Bool Lia Lqa Morphisms.
Import ListNotations.

Set Implicit Arguments.

(** ** Exceptions *)

Inductive exn : Set := ValueError | KeyError | IndexError.

Inductive result (A : Type) : Type :=
| Ok (a : A)
| Raise (e : exn).

Arguments Ok {A} a.
Arguments Raise {A} e.

Definition bind {A B} (m : result A) (k : A -> result B) : result B :=
  match m with
  | Ok a => k a
  | Raise e => Raise e
  end.

Declare Scope result_scope.
Delimit Scope result_scope with result.
Notation "x <- m ;; k" := (bind m (fun x => k))
  (at level 61, m at next level, right associativity) : result_scope.
Notation "' pat <- m ;; k" := (bind m (fun x => match x with pat => k end))
  (at level 61, pat pattern, m at next level, right associativity) : result_scope.

(** [mapM f l]: the list comprehension [[f(x) for x in l]] when [f] can raise. *)
Fixpoint mapM {A B} (f : A -> result B) (l : list A) : result (list B) :=
  match l with
  | [] => Ok []
  | x :: xs =>
      (y <- f x ;; ys <- mapM f xs ;; Ok (y :: ys))%result
  end.

(** ** Interactions *)

(** A row of [rating], [train] and [test]: the columns [subsr_id],
    [program_id] and [use_tms_ratio]. *)
Record interaction (R : Type) : Type := mkInteraction {
  subsr_id : Z;
  program_id : Z;
  use_tms_ratio : option R
}.

(** ** pandas *)
Module Pandas.

Section Frames.
Variable R : Type.

(** A frame whose index labels matter: label and row. *)
Definition frame := list (nat * interaction R).

Definition notna (r : interaction R) : bool :=
  match use_tms_ratio r with Some _ => true | None => false end.

Definition same_pair (u i : Z) (r : interaction R) : bool :=
  (subsr_id r =? u)%Z && (program_id r =? i)%Z.

(** [reset_index(drop=True)], and the fresh RangeIndex of a [merge]. *)
Definition reset_index (rows : list (interaction R)) : frame :=
  combine (seq 0 (length rows)) rows.

(** [df.dropna()]: the rows without NaN keep their labels. *)
Definition dropna (df : frame) : frame :=
  filter (fun lr => notna (snd lr)) df.

(** [df.iloc[positions]]. *)
Definition iloc (df : frame) (positions : list nat) : result frame :=
  mapM (fun p => match nth_error df p with
                 | Some lr => Ok lr
                 | None => Raise IndexError
                 end) positions.

Definition has_label (df : frame) (l : nat) : bool :=
  existsb (Nat.eqb l) (map fst df).

Definition set_nan (r : interaction R) : interaction R :=
  mkInteraction (subsr_id r) (program_id r) None.

(** The effect of [df.loc[labels, 'use_tms_ratio'] = np.nan] on one row. *)
Definition mask (labels : list nat) (lr : nat * interaction R) : nat * interaction R :=
  if existsb (Nat.eqb (fst lr)) labels then (fst lr, set_nan (snd lr)) else lr.

(** [df.loc[labels, 'use_tms_ratio'] = np.nan]: a label absent from the
    index is a KeyError. *)
Definition loc_set_nan (labels : list nat) (df : frame) : result frame :=
  if forallb (has_label df) labels
  then Ok (map (mask labels) df)
  else Raise KeyError.
End Frames.

(** [Series.unique()] and [drop_duplicates()]: the first occurrence of each
    value, in order of appearance. *)
Section Unique.
Variable A : Type.
Variable eqb : A -> A -> bool.

Fixpoint unique_from (seen : list A) (l : list A) : list A :=
  match l with
  | [] => []
  | x :: xs =>
      if existsb (eqb x) seen then unique_from seen xs
      else x :: unique_from (x :: seen) xs
  end.

Definition unique (l : list A) : list A := unique_from [] l.

Fixpoint duplicated (l : list A) : bool :=
  match l with
  | [] => false
  | x :: xs => existsb (eqb x) xs || duplicated xs
  end.
End Unique.

(** The sorted distinct labels of an axis built by [pivot] and the sorted
    group keys of [groupby]. *)
Section SortedLabels.
Variable A : Type.
Variable cmp : A -> A -> comparison.

Fixpoint insert_label (x : A) (l : list A) : list A :=
  match l with
  | [] => [x]
  | y :: ys =>
      match cmp x y with
      | Lt => x :: y :: ys
      | Eq => y :: ys
      | Gt => y :: insert_label x ys
      end
  end.

Definition sorted_labels (l : list A) : list A :=
  fold_right insert_label [] l.

(** The strict order of the labels. *)
Definition lt_label (x y : A) : Prop := cmp x y = Lt.
End SortedLabels.

Definition pair_eqb (p q : Z * Z) : bool :=
  (fst p =? fst q)%Z && (snd p =? snd q)%Z.

Definition pair_compare (p q : Z * Z) : comparison :=
  match (fst p ?= fst q)%Z with
  | Eq => (snd p ?= snd q)%Z
  | c => c
  end.

(** A Series indexed by item: label and value.  A pivoted frame: for each
    index label (a user) its row, a Series over the columns. *)
Definition series (R : Type) := list (Z * option R).
Definition pivoted (R : Type) := list (Z * series R).

Section Pivot.
Variable R : Type.

Definition pair_of (r : interaction R) : Z * Z := (subsr_id r, program_id r).

Definition cell (rows : list (interaction R)) (u i : Z) : option R :=
  match find (same_pair u i) rows with
  | Some r => use_tms_ratio r
  | None => None
  end.

(** [df.pivot(columns='program_id', index='subsr_id',
    values='use_tms_ratio')]: fails on a repeated (index, column) pair;
    both axes are sorted; a pair absent from [df] is NaN. *)
Definition pivot (df : frame R) : result (pivoted R) :=
  let rows := map snd df in
  if duplicated pair_eqb (map pair_of rows) then Raise ValueError
  else
    let index := sorted_labels Z.compare (map (@subsr_id R) rows) in
    let columns := sorted_labels Z.compare (map (@program_id R) rows) in
    Ok (map (fun u => (u, map (fun i => (i, cell rows u i)) columns)) index).

(** [frame.loc[label]] on a frame with a unique index. *)
Definition loc (m : pivoted R) (label : Z) : result (series R) :=
  match find (fun ur => (fst ur =? label)%Z) m with
  | Some ur => Ok (snd ur)
  | None => Raise KeyError
  end.

(** [s.dropna()]. *)
Definition series_dropna (s : series R) : series R :=
  filter (fun iv => match snd iv with Some _ => true | None => false end) s.

Definition mem (x : Z) (l : list Z) : bool := existsb (Z.eqb x) l.

(** [s.drop(labels)]: every entry under a listed label goes; a label
    absent from the index is a KeyError. *)
Definition series_drop (labels : list Z) (s : series R) : result (series R) :=
  if forallb (fun l => mem l (map fst s)) labels
  then Ok (filter (fun iv => negb (mem (fst iv) labels)) s)
  else Raise KeyError.
End Pivot.

(** [l[:n]] *)
Definition slice_to {A} (n : Z) (l : list A) : list A :=
  if (0 <=? n)%Z then firstn (Z.to_nat n) l
  else firstn (length l - Z.to_nat (- n)) l.

(** [DataFrame.sort_values(by='pred_rating', ascending=False)] with the
    default [kind='quicksort']: the rows come back rearranged so that the key
    does not increase; [quicksort] is not stable, so nothing more is
    promised about rows with equal keys. *)
Class SortValues : Type := {
  sort_values_desc : list (Z * Q) -> list (Z * Q);
  sort_values_perm : forall l, Permutation l (sort_values_desc l);
  sort_values_sorted :
    forall l, StronglySorted (fun a b => snd b <= snd a) (sort_values_desc l)
}.

End Pandas.

(** ** The Interaction Extractor: lines 56 to 66 of [data_preprocessing] *)
Module Extractor.
Import Pandas.

(** The float64 values other than NaN. *)
Inductive fval : Set :=
| NInf
| Fin (q : Q)
| PInf.

Definition fle (a b : fval) : bool :=
  match a, b with
  | NInf, _ => true
  | _, PInf => true
  | Fin x, Fin y => Qle_bool x y
  | _, _ => false
  end.

Definition fmax (a b : fval) : fval := if fle a b then b else a.

(** [a / b] on two numeric columns: no exception, a zero divisor gives an
    infinity of the sign of [a], and NaN for [0 / 0]. *)
Definition true_divide (a b : Z) : option fval :=
  if (b =? 0)%Z then
    if (0 <? a)%Z then Some PInf
    else if (a <? 0)%Z then Some NInf
    else None
  else Some (Fin (inject_Z a / inject_Z b)).

(** The columns of [vods_sumut] and [contlog] that reach the ratings; the
    descriptive columns kept by the projection ([program_name],
    [episode_num], [log_dt], [count_watch]) are not read again. *)
Record vod_row : Set := mkVod {
  v_e_bool : Z;
  v_subsr_id : Z;
  v_program_id : Z;
  use_tms : Z;
  disp_rtm_sec : Z
}.

Record cont_row : Set := mkCont {
  c_e_bool : Z;
  c_subsr_id : Z;
  c_program_id : Z
}.

(** One step of the running maximum of a group: NaN is skipped. *)
Definition nanmax_step (acc x : option fval) : option fval :=
  match acc, x with
  | None, _ => x
  | _, None => acc
  | Some a, Some b => Some (fmax a b)
  end.

(** The maximum of a group, NaN skipped; NaN for a group of NaN. *)
Definition nanmax (l : list (option fval)) : option fval :=
  fold_left nanmax_step l None.

(** [groupby(['subsr_id', 'program_id'])[['use_tms_ratio']].max().reset_index()] *)
Definition groupby_max (rows : list (interaction fval)) : list (interaction fval) :=
  map (fun k =>
         mkInteraction (fst k) (snd k)
           (nanmax (map (@use_tms_ratio fval)
                        (filter (same_pair (fst k) (snd k)) rows))))
      (sorted_labels pair_compare (map (@pair_of fval) rows)).

(** [left.merge(right, how='left')] on the two common key columns. *)
Definition merge_left (left : list (Z * Z)) (right : list (interaction fval))
  : list (interaction fval) :=
  flat_map (fun k =>
              match filter (same_pair (fst k) (snd k)) right with
              | [] => [mkInteraction (fst k) (snd k) None]
              | ms => map (fun m => mkInteraction (fst k) (snd k) (use_tms_ratio m)) ms
              end) left.

Definition vod_ratio (r : vod_row) : interaction fval :=
  mkInteraction (v_subsr_id r) (v_program_id r)
                (true_divide (use_tms r) (disp_rtm_sec r)).

Definition extract (vod_log : list vod_row) (cont_log : list cont_row)
  : list (interaction fval) :=
  let vod_log := filter (fun r => (v_e_bool r =? 0)%Z) vod_log in
  let cont_log := filter (fun r => (c_e_bool r =? 0)%Z) cont_log in
  let vod_log := map vod_ratio vod_log in
  let use_tms_ratio := groupby_max vod_log in
  let rating :=
    unique pair_eqb
      (map (@pair_of fval) vod_log
       ++ map (fun r => (c_subsr_id r, c_program_id r)) cont_log) in
  merge_left rating use_tms_ratio.

End Extractor.

(** ** The Split Generator: lines 69 to 71 of [data_preprocessing] *)
Module Split.
Import Pandas.

(** [numpy.random.RandomState(0).permutation(n)]: some arrangement of
    [0 .. n-1]. *)
Class RandomState : Type := {
  permutation : nat -> list nat;
  permutation_perm : forall n, Permutation (permutation n) (seq 0 n)
}.

Definition test_size : Q := 1 # 4.

(** scikit-learn's [_validate_shuffle_split] at a float [test_size] in
    (0, 1) and no [train_size]. *)
Definition validate_shuffle_split (n_samples : nat) : result (nat * nat) :=
  let n_test := Z.to_nat (Qceiling (test_size * inject_Z (Z.of_nat n_samples))) in
  let n_train := (n_samples - n_test)%nat in
  if (n_train =? 0)%nat then Raise ValueError else Ok (n_train, n_test).

Section Splitting.
Context {rng : RandomState}.
Variable R : Type.

(** [train_test_split(df, test_size=0.25, random_state=0)]: one draw of
    [ShuffleSplit]. *)
Definition train_test_split (df : frame R) : result (frame R * frame R) :=
  (' (n_train, n_test) <- validate_shuffle_split (length df) ;;
   let permutation := permutation (length df) in
   let ind_test := firstn n_test permutation in
   let ind_train := firstn n_train (skipn n_test permutation) in
   train <- iloc df ind_train ;;
   test <- iloc df ind_test ;;
   Ok (train, test))%result.

Definition split (rating : list (interaction R)) : result (frame R * frame R) :=
  let rating := reset_index rating in
  (' (_, test) <- train_test_split (dropna rating) ;;
   train <- loc_set_nan (map fst test) rating ;;
   Ok (train, test))%result.
End Splitting.

End Split.

(** [data_preprocessing]: the [train] and [test] frames pushed to the next
    task. *)
Definition data_preprocessing {rng : Split.RandomState}
  (vod_log : list Extractor.vod_row) (cont_log : list Extractor.cont_row)
  : result (Pandas.frame Extractor.fval * Pandas.frame Extractor.fval) :=
  Split.split (Extractor.extract vod_log cont_log).

(** ** numpy on floats that can be NaN *)
Module NumPy.

Definition float := option Q.

Definition fadd (a b : float) : float :=
  match a, b with
  | Some x, Some y => Some (x + y)
  | _, _ => None
  end.

Definition fsub (a b : float) : float :=
  match a, b with
  | Some x, Some y => Some (x - y)
  | _, _ => None
  end.

Definition fsquare (a : float) : float := option_map (fun x => x * x) a.

Definition sum (l : list float) : float := fold_right fadd (Some 0) l.

(** [np.mean(l)]: NaN for the empty list (0 / 0) and when some entry is
    NaN. *)
Definition mean (l : list float) : float :=
  match l with
  | [] => None
  | _ => option_map (fun s => s / inject_Z (Z.of_nat (length l))) (sum l)
  end.

Definition dot (a b : list Q) : Q :=
  fold_right Qplus 0 (map (fun xy => fst xy * snd xy) (combine a b)).

End NumPy.

(** ** Surprise: datasets, the SVD algorithm and its accuracy *)
Module Surprise.
Import Pandas NumPy.

(** A raw rating: raw user id, raw item id, rating. *)
Definition rating := (Z * Z * float)%type.

Definition uid (r : rating) : Z := fst (fst r).
Definition iid (r : rating) : Z := snd (fst r).
Definition r_ui (r : rating) : float := snd r.

(** [Dataset.load_from_df(df, reader)]: the rows in order; the labels are
    dropped. *)
Definition load_from_df (df : frame Q) : list rating :=
  map (fun lr => (subsr_id (snd lr), program_id (snd lr), use_tms_ratio (snd lr))) df.

(** [build_full_trainset()] followed by [all_ratings()]: the ratings
    regrouped by user, the users in order of first appearance. *)
Definition all_ratings (raw : list rating) : list rating :=
  flat_map (fun u => filter (fun r => (uid r =? u)%Z) raw)
           (unique Z.eqb (map uid raw)).

(** A [Trainset], by the sequence [all_ratings()] enumerates. *)
Definition trainset := list rating.

Definition build_full_trainset (raw : list rating) : trainset := all_ratings raw.

(** [build_testset()] returns the ratings of the trainset as they are
    enumerated. *)
Definition build_testset (ts : trainset) : list rating := ts.

Definition knows_user (ts : trainset) (u : Z) : bool :=
  existsb (fun r => (uid r =? u)%Z) ts.

Definition knows_item (ts : trainset) (i : Z) : bool :=
  existsb (fun r => (iid r =? i)%Z) ts.

Definition global_mean (ts : trainset) : float := mean (map r_ui ts).

(** The parameters stochastic gradient descent leaves in a fitted [SVD]:
    biases and factor vectors, here addressed by raw id. *)
Record svd_params : Type := mkParams {
  bu : Z -> Q;
  bi : Z -> Q;
  pu : Z -> list Q;
  qi : Z -> list Q
}.

Record SVD : Type := mkSVD {
  svd_trainset : trainset;
  svd_params_of : svd_params
}.

(** [SVD.estimate] with the default [biased=True]. *)
Definition estimate (m : SVD) (u i : Z) : float :=
  let known_user := knows_user (svd_trainset m) u in
  let known_item := knows_item (svd_trainset m) i in
  let est := global_mean (svd_trainset m) in
  let est := if known_user then fadd est (Some (bu (svd_params_of m) u)) else est in
  let est := if known_item then fadd est (Some (bi (svd_params_of m) i)) else est in
  if known_user && known_item
  then fadd est (Some (dot (qi (svd_params_of m) i) (pu (svd_params_of m) u)))
  else est.

(** The clipping of [AlgoBase.predict] to the [rating_scale] (0, 1):
    [est = min(1, est); est = max(0, est)].  Python's [min] keeps its first
    argument unless the second compares below it, which NaN never does. *)
Definition clip (est : float) : Q :=
  match est with
  | Some e => Qmax 0 (Qmin 1 e)
  | None => 1
  end.

(** [algo.predict(uid, iid).est] *)
Definition predict (m : SVD) (u i : Z) : Q := clip (estimate m u i).

(** A [Prediction]: uid, iid, true rating, estimate. *)
Definition prediction := (Z * Z * float * Q)%type.

(** [algo.test(testset)] *)
Definition test (m : SVD) (testset : list rating) : list prediction :=
  map (fun r => (uid r, iid r, r_ui r, predict m (uid r) (iid r))) testset.

Definition squared_error (p : prediction) : float :=
  fsquare (fsub (snd (fst p)) (Some (snd p))).

Section Accuracy.
Variable np_sqrt : Q -> Q.

(** [accuracy.rmse(predictions)] *)
Definition rmse (predictions : list prediction) : result float :=
  match predictions with
  | [] => Raise ValueError
  | _ => Ok (option_map np_sqrt (mean (map squared_error predictions)))
  end.
End Accuracy.

End Surprise.

(** ** The class [SVDRecommendationModel] of [model_running] *)
Module SVDRecommendationModel.
Import Pandas NumPy Surprise.

Section Model.
Context {sorter : SortValues}.
(** [SVD(random_state=0).fit(trainset)]: the learned parameters. *)
Variable sgd : trainset -> svd_params.
Variable np_sqrt : Q -> Q.

Record t : Type := mkModel {
  train_data : trainset;
  test_data : list rating;
  score_matrix : pivoted Q;
  model : SVD
}.

Definition make_score_matrix (train : frame Q) : result (pivoted Q) := pivot train.

Definition dataset (train test : frame Q) : trainset * list rating :=
  let train_data := load_from_df (dropna train) in
  let test_data := load_from_df test in
  let train_data := build_full_trainset train_data in
  let test_data := build_testset (build_full_trainset test_data) in
  (train_data, test_data).

Definition fit (train_data : trainset) : SVD := mkSVD train_data (sgd train_data).

(** [__init__] *)
Definition init (train_data test_data : frame Q) : result t :=
  let (trainset, testset) := dataset train_data test_data in
  (score_matrix <- make_score_matrix train_data ;;
   Ok (mkModel trainset testset score_matrix (fit trainset)))%result.

Definition predict (self : t) (subsr_id program_id : Z) : Q :=
  Surprise.predict (model self) subsr_id program_id.

(** The frame [top_N]: columns [program_id] and [pred_rating]. *)
Definition recommend (self : t) (subsr_id : Z) (N : Z) : result (list (Z * Q)) :=
  (row <- loc (score_matrix self) subsr_id ;;
   let user_rated := map fst (series_dropna row) in
   unrated <- series_drop user_rated row ;;
   let user_unrated := map fst unrated in
   let predictions := map (predict self subsr_id) user_unrated in
   let result := combine user_unrated predictions in
   let top_N := slice_to N (sort_values_desc result) in
   Ok top_N)%result.

(** [set(prediction).intersection(set(target))] *)
Definition hits (target prediction : list Z) : list Z :=
  filter (fun x => mem x (unique Z.eqb target)) (unique Z.eqb prediction).

Definition ratio (num den : nat) : Q :=
  inject_Z (Z.of_nat num) / inject_Z (Z.of_nat den).

Definition precision_recall_at_k (target prediction : list Z) : Q * Q :=
  let num_hit := length (hits target prediction) in
  let precision :=
    if (0 <? length prediction)%nat then ratio num_hit (length prediction) else 0 in
  let recall :=
    if (0 <? length target)%nat then ratio num_hit (length target) else 0 in
  (precision, recall).

(** One turn of the loop of [evaluate]. *)
Definition evaluate_user (self : t) (test_data : frame Q) (N : Z) (user : Z)
  : result (Q * Q) :=
  let targets :=
    map (fun lr => program_id (snd lr))
        (filter (fun lr => (subsr_id (snd lr) =? user)%Z) test_data) in
  (top_N <- recommend self user N ;;
   let predictions := map fst top_N in
   Ok (precision_recall_at_k targets predictions))%result.

Definition evaluate (self : t) (test_data : frame Q) (N : Z) : result (float * float) :=
  (prs <- mapM (evaluate_user self test_data N)
               (unique Z.eqb (map (fun lr => subsr_id (snd lr)) test_data)) ;;
   let precisions := map (fun pr => Some (fst pr)) prs in
   let recalls := map (fun pr => Some (snd pr)) prs in
   Ok (mean precisions, mean recalls))%result.

Definition calculate_rmse (self : t) : result float :=
  let predictions := Surprise.test (model self) (test_data self) in
  rmse np_sqrt predictions.

End Model.
End SVDRecommendationModel.

(** [model_running]: the recommendation pushed to the last task. *)
Definition model_running {sorter : Pandas.SortValues}
  (sgd : Surprise.trainset -> Surprise.svd_params)
  (train test : Pandas.frame Q) : result (list (Z * Q)) :=
  (svd_model <- SVDRecommendationModel.init sgd train test ;;
   _ <- SVDRecommendationModel.evaluate svd_model test 10 ;;
   recommendation <- SVDRecommendationModel.recommend svd_model 0 10 ;;
   Ok recommendation)%result.

(** * The vocabulary of the specification *)

(** The rated set and the candidate set of a user, in the words of the
    specification: the items with, and the items without, an existing rating
    in the user's row of the rating matrix. *)
Definition rated_set {R} (row : Pandas.series R) : list Z :=
  map fst (filter (fun iv => match snd iv with Some _ => true | None => false end) row).

Definition candidate_set {R} (row : Pandas.series R) : list Z :=
  map fst (filter (fun iv => match snd iv with Some _ => false | None => true end) row).

(** The users that have a row in a frame. *)
Definition users_of {R} (df : Pandas.frame R) : list Z :=
  map (fun lr => subsr_id (snd lr)) df.

(** The frame [result] of [recommend] before it is sorted. *)
Definition scored (self : SVDRecommendationModel.t) (user : Z) (items : list Z)
  : list (Z * Q) :=
  combine items (map (SVDRecommendationModel.predict self user) items).

(** The order the specification asks of entries with equal score. *)
Definition ties_ascending (l : list (Z * Q)) : Prop :=
  forall k1 k2 a b,
    (k1 < k2)%nat -> nth_error l k1 = Some a -> nth_error l k2 = Some b ->
    snd a == snd b -> (fst a < fst b)%Z.

(** The order [sort_values] leaves: the score never increases. *)
Definition desc (a b : Z * Q) : Prop := snd b <= snd a.

(** The distinct users of a test frame and the held-out items of a user, as
    [evaluate] computes them. *)
Definition test_users (test : Pandas.frame Q) : list Z :=
  Pandas.unique Z.eqb (map (fun lr => subsr_id (snd lr)) test).

Definition targets_of (test : Pandas.frame Q) (user : Z) : list Z :=
  map (fun lr => program_id (snd lr))
      (filter (fun lr => (subsr_id (snd lr) =? user)%Z) test).

(** The per-user pairs (precision, recall) behind a result of [evaluate]. *)
Definition per_user {sorter : Pandas.SortValues}
  (self : SVDRecommendationModel.t) (test : Pandas.frame Q) (N : Z)
  (prs : list (Q * Q)) : Prop :=
  Forall2 (fun user pr =>
             exists top_N,
               SVDRecommendationModel.recommend self user N = Ok top_N /\
               pr = SVDRecommendationModel.precision_recall_at_k
                      (targets_of test user) (map fst top_N))
          (test_users test) prs.

(** The two situations the specification singles out for the averages. *)
Definition disjoint_for_every_user {sorter : Pandas.SortValues}
  (self : SVDRecommendationModel.t) (test : Pandas.frame Q) (N : Z) : Prop :=
  forall user top_N,
    In user (test_users test) ->
    SVDRecommendationModel.recommend self user N = Ok top_N ->
    forall x, In x (targets_of test user) -> ~ In x (map fst top_N).

Definition equal_for_every_user {sorter : Pandas.SortValues}
  (self : SVDRecommendationModel.t) (test : Pandas.frame Q) (N : Z) : Prop :=
  forall user top_N,
    In user (test_users test) ->
    SVDRecommendationModel.recommend self user N = Ok top_N ->
    Permutation (targets_of test user) (map fst top_N).

Definition sumQ (l : list Q) : Q := fold_right Qplus 0 l.

(** The arithmetic mean of a non-empty list of finite floats. *)
Definition meanQ (l : list Q) : Q := sumQ l / inject_Z (Z.of_nat (length l)).

Definition unit_interval (x : Q) : Prop := 0 <= x <= 1.

(** Equality of floats: NaN with NaN, finite values as rationals. *)
Definition feq (a b : NumPy.float) : Prop :=
  match a, b with
  | Some x, Some y => x == y
  | None, None => True
  | _, _ => False
  end.

(** Clipping to the rating range. *)
Definition clip01 (x : Q) : Q := Qmax 0 (Qmin 1 x).

(** The ratings the model is fitted on: those of the rows of [train] that
    have one. *)
Definition train_ratings (train : Pandas.frame Q) : list NumPy.float :=
  map (fun lr => use_tms_ratio (snd lr)) (Pandas.dropna train).

(** The mean squared error in the words of the specification, written with
    the arithmetic of the rationals and none of the helpers of the code: the
    mean, over the rows of Test, of the square of the difference between the
    true rating of the row and the rating predicted for its pair. *)
Definition true_rating (lr : nat * interaction Q) : Q :=
  match use_tms_ratio (snd lr) with
  | Some r => r
  | None => 0
  end.

Definition predicted_rating (self : SVDRecommendationModel.t)
  (lr : nat * interaction Q) : Q :=
  SVDRecommendationModel.predict self (subsr_id (snd lr)) (program_id (snd lr)).

Definition squared_difference (self : SVDRecommendationModel.t)
  (lr : nat * interaction Q) : Q :=
  (true_rating lr - predicted_rating self lr) * (true_rating lr - predicted_rating self lr).

Definition mean_squared_error (self : SVDRecommendationModel.t)
  (test : Pandas.frame Q) : Q :=
  sumQ (map (squared_difference self) test) / inject_Z (Z.of_nat (length test)).

(** * Instances of the interfaces and a small run *)

(** A generator whose permutation of [0 .. n-1] is [n-1 .. 0]. *)
#[local] Instance reversing_state : Split.RandomState := {|
  Split.permutation := fun n => rev (seq 0 n);
  Split.permutation_perm := fun n => Permutation_sym (Permutation_rev (seq 0 n))
|}.

(** A stable insertion sort by descending score. *)
Module Sorters.

(** Whether [x] is placed in front of [y]: on a tie [x], the earlier row,
    stays in front. *)
Definition goes_before (x y : Z * Q) : bool := Qle_bool (snd y) (snd x).

Fixpoint insert_desc (x : Z * Q) (l : list (Z * Q)) : list (Z * Q) :=
  match l with
  | [] => [x]
  | y :: ys =>
      if goes_before x y then x :: y :: ys
      else y :: insert_desc x ys
  end.

Definition insertion_sort (l : list (Z * Q)) : list (Z * Q) :=
  fold_right insert_desc [] l.

End Sorters.

(** ** NumPy's quicksort and pandas' [nargsort]

    [sort_values] sorts through [nargsort], which calls
    [ndarray.argsort(kind='quicksort')].  What follows is NumPy's generic
    kernel for that call ([aquicksort] of npysort/quicksort.cpp with
    [aheapsort] of npysort/heapsort.cpp): an introsort on an array of
    positions, with a median-of-three partition, an insertion sort for
    ranges of at most 17 entries and a heapsort for a range reached with no
    depth left.  Each loop runs on fuel, set to the length of the array, an
    upper bound on its turns.  A NumPy build that dispatches [argsort] to a SIMD
    kernel goes through other exchanges and can leave equal keys in another
    order. *)
Module NumPySort.

(** [Tag::less] on two keys, none of which is NaN. *)
Definition less (x y : Q) : bool := negb (Qle_bool y x).

Section Kernel.
(** The array [v] of keys; [tosort] arrays hold positions of [v]. *)
Variable v : list Q.

Definition key (i : nat) : Q := nth i v 0%Q.

(** [a[p]] and [a[p] = x]. *)
Definition at_ (a : list nat) (p : nat) : nat := nth p a 0%nat.

Fixpoint store (a : list nat) (p x : nat) : list nat :=
  match a, p with
  | [], _ => []
  | _ :: rest, O => x :: rest
  | y :: rest, S p' => y :: store rest p' x
  end.

(** [INTP_SWAP(a[p], a[q])] *)
Definition swap (a : list nat) (p q : nat) : list nat :=
  store (store a p (at_ a q)) q (at_ a p).

(** [do { ++pi; } while (less(v[*pi], vp));] *)
Fixpoint scan_right (fuel : nat) (a : list nat) (vp : Q) (pi : nat) : nat :=
  match fuel with
  | O => S pi
  | S fuel' =>
      if less (key (at_ a (S pi))) vp then scan_right fuel' a vp (S pi) else S pi
  end.

(** [do { --pj; } while (less(vp, v[*pj]));] *)
Fixpoint scan_left (fuel : nat) (a : list nat) (vp : Q) (pj : nat) : nat :=
  match fuel with
  | O => pred pj
  | S fuel' =>
      if less vp (key (at_ a (pred pj))) then scan_left fuel' a vp (pred pj) else pred pj
  end.

(** The loop [for (;;)] of the partition: the two scans, then a swap unless
    the pointers have met. *)
Fixpoint crossing (fuel : nat) (a : list nat) (vp : Q) (pi pj : nat) : list nat * nat :=
  match fuel with
  | O => (a, pi)
  | S fuel' =>
      let pi := scan_right (length a) a vp pi in
      let pj := scan_left (length a) a vp pj in
      if (pj <=? pi)%nat then (a, pi) else crossing fuel' (swap a pi pj) vp pi pj
  end.

(** One partition of [a[pl..pr]] around the median of three; the result is
    the array and the final place [pi] of the pivot. *)
Definition partition (a : list nat) (pl pr : nat) : list nat * nat :=
  let pm := (pl + Nat.div2 (pr - pl))%nat in
  let a := if less (key (at_ a pm)) (key (at_ a pl)) then swap a pm pl else a in
  let a := if less (key (at_ a pr)) (key (at_ a pm)) then swap a pr pm else a in
  let a := if less (key (at_ a pm)) (key (at_ a pl)) then swap a pm pl else a in
  let vp := key (at_ a pm) in
  let a := swap a pm (pr - 1)%nat in
  let (a, pi) := crossing (length a) a vp pl (pr - 1)%nat in
  (swap a pi (pr - 1)%nat, pi).

(** [while (pj > pl && less(vp, v[*pk])) { *pj-- = *pk--; }], with
    [pk = pj - 1] throughout. *)
Fixpoint shift (fuel : nat) (a : list nat) (pl : nat) (vp : Q) (pj : nat)
  : list nat * nat :=
  match fuel with
  | O => (a, pj)
  | S fuel' =>
      if (pl <? pj)%nat && less vp (key (at_ a (pj - 1)%nat))
      then shift fuel' (store a pj (at_ a (pj - 1)%nat)) pl vp (pj - 1)%nat
      else (a, pj)
  end.

(** The insertion sort of [a[pl..pr]]:
    [for (pi = pl + 1; pi <= pr; ++pi)]. *)
Definition insertion (a : list nat) (pl pr : nat) : list nat :=
  fold_left (fun a pi =>
               let vi := at_ a pi in
               let (a, pj) := shift (length a) a pl (key vi) pi in
               store a pj vi)
            (seq (S pl) (pr - pl)%nat) a.

(** [aheapsort] on the [n] entries from [pl]; the heap is indexed from 1:
    heap place [k] is [a[pl + k - 1]]. *)
Definition heap_at (a : list nat) (pl k : nat) : nat := at_ a (pl + k - 1)%nat.

Definition heap_store (a : list nat) (pl k x : nat) : list nat := store a (pl + k - 1)%nat x.

(** The inner loop [for (i, j; j <= n;)] followed by [a[i] = tmp]. *)
Fixpoint sift (fuel : nat) (a : list nat) (pl n tmp i j : nat) : list nat :=
  match fuel with
  | O => heap_store a pl i tmp
  | S fuel' =>
      if (j <=? n)%nat then
        let j := if (j <? n)%nat
                    && less (key (heap_at a pl j)) (key (heap_at a pl (j + 1)%nat))
                 then (j + 1)%nat else j in
        if less (key tmp) (key (heap_at a pl j))
        then sift fuel' (heap_store a pl i (heap_at a pl j)) pl n tmp j (j + j)%nat
        else heap_store a pl i tmp
      else heap_store a pl i tmp
  end.

(** [for (; n > 1;) { tmp = a[n]; a[n] = a[1]; n -= 1; ... }] *)
Fixpoint drain (fuel : nat) (a : list nat) (pl n : nat) : list nat :=
  match fuel with
  | O => a
  | S fuel' =>
      if (1 <? n)%nat then
        let tmp := heap_at a pl n in
        let a := heap_store a pl n (heap_at a pl 1%nat) in
        drain fuel' (sift (length a) a pl (n - 1)%nat tmp 1%nat 2%nat) pl (n - 1)%nat
      else a
  end.

Definition aheapsort (a : list nat) (pl n : nat) : list nat :=
  let a := fold_left (fun a l => sift (length a) a pl n (heap_at a pl l) l (l + l)%nat)
                     (rev (seq 1%nat (Nat.div2 n))) a in
  drain (length a) a pl n.

(** The state of [aquicksort]: the array, the bounds [pl] and [pr], the
    stack of postponed ranges with their depth, and the depth left. *)
Definition SMALL_QUICKSORT : nat := 16%nat.

(** [while ((pr - pl) > SMALL_QUICKSORT) { partition; push the larger part;
    go on with the smaller; }] *)
Fixpoint partitions (fuel : nat) (a : list nat) (pl pr : nat)
  (stack : list (nat * nat * Z)) (cdepth : Z)
  : list nat * nat * nat * list (nat * nat * Z) :=
  match fuel with
  | O => (a, pl, pr, stack)
  | S fuel' =>
      if (SMALL_QUICKSORT <? pr - pl)%nat then
        let (a, pi) := partition a pl pr in
        let cdepth := (cdepth - 1)%Z in
        if (pi - pl <? pr - pi)%nat
        then partitions fuel' a pl (pi - 1)%nat ((S pi, pr, cdepth) :: stack) cdepth
        else partitions fuel' a (S pi) pr ((pl, (pi - 1)%nat, cdepth) :: stack) cdepth
      else (a, pl, pr, stack)
  end.

(** The outer loop [while (1)]: a range that is popped with no depth left
    is heap-sorted; otherwise it is partitioned down to a small range,
    which is insertion-sorted; then the next range is popped. *)
Fixpoint aquicksort_loop (fuel : nat) (a : list nat) (pl pr : nat)
  (stack : list (nat * nat * Z)) (cdepth : Z) : list nat :=
  match fuel with
  | O => a
  | S fuel' =>
      let '(a, stack) :=
        if (cdepth <? 0)%Z then (aheapsort a pl (pr - pl + 1)%nat, stack)
        else
          let '(a, pl, pr, stack) := partitions (length a) a pl pr stack cdepth in
          (insertion a pl pr, stack) in
      match stack with
      | [] => a
      | (pl, pr, cdepth) :: stack => aquicksort_loop fuel' a pl pr stack cdepth
      end
  end.

End Kernel.

(** [v.argsort(kind='quicksort')]: [tosort] starts as 0 .. num-1 and the
    depth as twice the position of the highest bit of [num]. *)
Definition argsort (v : list Q) : list nat :=
  let num := length v in
  match num with
  | O => []
  | S last =>
      aquicksort_loop v (S num) (seq 0 num) 0%nat last [] (2 * Z.of_nat (Nat.log2 num))%Z
  end.

(** pandas' [nargsort(items, kind='quicksort', ascending=False)] on keys
    without NaN: the keys are reversed, sorted in ascending order, and the
    resulting order is reversed. *)
Definition nargsort_desc (items : list Q) : list nat :=
  let idx := seq 0%nat (length items) in
  let non_nans := rev items in
  let non_nan_idx := rev idx in
  let indexer := map (fun j => nth j non_nan_idx 0%nat) (argsort non_nans) in
  rev indexer.


(** [DataFrame.take(indexer)] on the rows of the frame [result]. *)
Definition take (rows : list (Z * Q)) (indexer : list nat) : list (Z * Q) :=
  map (fun i => nth i rows (0%Z, 0%Q)) indexer.

(** Whether [indexer] lists each of the positions 0 .. n-1 once, and
    whether the keys of a frame never increase. *)
Definition is_order (n : nat) (indexer : list nat) : bool :=
  (length indexer =? n)%nat
  && forallb (fun i => existsb (Nat.eqb i) indexer) (seq 0%nat n).

Fixpoint descending (rows : list (Z * Q)) : bool :=
  match rows with
  | [] => true
  | x :: rest => forallb (fun y => Qle_bool (snd y) (snd x)) rest && descending rest
  end.

End NumPySort.

(** [result.sort_values(by='pred_rating', ascending=False)] through that
    kernel: the rows are taken in the order [nargsort] gives.  The order is
    checked before it is used (it lists every position once and the keys
    never increase along it), which is the contract of the sort stated as a
    test; the last branch is the way out of that test and not a part of
    pandas. *)
Definition sort_values_quicksort (rows : list (Z * Q)) : list (Z * Q) :=
  let indexer := NumPySort.nargsort_desc (map snd rows) in
  let sorted := NumPySort.take rows indexer in
  if NumPySort.is_order (length rows) indexer && NumPySort.descending sorted
  then sorted
  else Sorters.insertion_sort rows.

(** A rational approximation of the square root, to three decimals. *)
Definition approx_sqrt (q : Q) : Q :=
  Z.sqrt (Qnum q * Z.pos (Qden q) * 1000000) # (Qden q * 1000).

Definition sample_vod_log : list Extractor.vod_row :=
  [Extractor.mkVod 0 1 10 30 60; Extractor.mkVod 0 1 10 50 0;
   Extractor.mkVod 0 2 10 0 0; Extractor.mkVod 1 3 10 5 10;
   Extractor.mkVod 0 2 20 30 (-60)].

Definition sample_cont_log : list Extractor.cont_row :=
  [Extractor.mkCont 0 1 10; Extractor.mkCont 0 4 40].

Definition sample_rating : list (interaction Q) :=
  [mkInteraction 1 10 (Some (1 # 2)); mkInteraction 1 20 None;
   mkInteraction 2 10 (Some (3 # 4)); mkInteraction 2 30 (Some 1)].

(** The frames [train] and [test] that [split] makes of [sample_rating]
    with [reversing_state]. *)
Definition sample_train : Pandas.frame Q :=
  [(0%nat, mkInteraction 1 10 (Some (1 # 2))); (1%nat, mkInteraction 1 20 None);
   (2%nat, mkInteraction 2 10 (Some (3 # 4))); (3%nat, mkInteraction 2 30 None)].

Definition sample_test : Pandas.frame Q := [(3%nat, mkInteraction 2 30 (Some 1))].

(** Learned parameters with a bias of 1/10 on every item and 1/20 on every
    user, and one factor per user and item. *)
Definition sample_sgd (_ : Surprise.trainset) : Surprise.svd_params :=
  Surprise.mkParams (fun _ => 1 # 20) (fun _ => 1 # 10)
                    (fun _ => [1 # 2]) (fun _ => [1 # 5]).

Definition sample_model : SVDRecommendationModel.t :=
  Eval vm_compute in
    match SVDRecommendationModel.init sample_sgd sample_train sample_test with
    | Ok self => self
    | Raise _ =>
        SVDRecommendationModel.mkModel [] [] []
          (Surprise.mkSVD [] (sample_sgd []))
    end.

(** An Interaction set in which subscriber 1 has watched program 100 and
    met the programs 1 .. 18 in the content log only, with the frames [split]
    makes of it and the model built from them. *)
Definition tied_rating : list (interaction Q) :=
  mkInteraction 1 100 (Some (1 # 2))
  :: map (fun k => mkInteraction 1 (Z.of_nat k) None) (seq 1 18)
  ++ [mkInteraction 2 100 (Some (3 # 4)); mkInteraction 2 5 (Some 1)].

Definition tied_train : Pandas.frame Q :=
  Eval vm_compute in
    match Split.split (rng := reversing_state) tied_rating with
    | Ok frames => fst frames
    | Raise _ => []
    end.

Definition tied_test : Pandas.frame Q :=
  Eval vm_compute in
    match Split.split (rng := reversing_state) tied_rating with
    | Ok frames => snd frames
    | Raise _ => []
    end.

Definition tied_model : SVDRecommendationModel.t :=
  Eval vm_compute in
    match SVDRecommendationModel.init sample_sgd tied_train tied_test with
    | Ok self => self
    | Raise _ =>
        SVDRecommendationModel.mkModel [] [] []
          (Surprise.mkSVD [] (sample_sgd []))
    end.

(** * Properties *)

Unset Implicit Arguments.

(** ** The error monad *)

Lemma bind_ok_inv {A B} (m : result A) (k : A -> result B) (b : B) :
  bind m k = Ok b -> exists a, m = Ok a /\ k a = Ok b.
Proof.
  destruct m as [a | e]; simpl; intros H; [eauto | discriminate].
Qed.

Lemma mapM_ok_inv {A B} (f : A -> result B) (l : list A) (ys : list B) :
  mapM f l = Ok ys -> Forall2 (fun x y => f x = Ok y) l ys.
Proof.
  revert ys; induction l as [| x xs IH]; simpl; intros ys H.
  - injection H as <-. constructor.
  - apply bind_ok_inv in H as (y & Hy & H).
    apply bind_ok_inv in H as (ys' & Hys & H).
    injection H as <-. constructor; auto.
Qed.

Lemma mapM_total {A B} (f : A -> result B) (l : list A) :
  (forall x, In x l -> exists y, f x = Ok y) -> exists ys, mapM f l = Ok ys.
Proof.
  induction l as [| x xs IH]; simpl; intros H; [eauto |].
  destruct (H x (or_introl eq_refl)) as (y & ->).
  destruct IH as (ys & ->); [intros z Hz; apply H; now right |].
  simpl; eauto.
Qed.

(** ** [unique], [duplicated] and the sorted labels *)
Module ListFacts.
Import Pandas.

Section UniqueFacts.
Variable A : Type.
Variable eqb : A -> A -> bool.
Hypothesis eqb_spec : forall x y, eqb x y = true <-> x = y.

Lemma existsb_eqb_In (x : A) (l : list A) : existsb (eqb x) l = true <-> In x l.
Proof.
  rewrite existsb_exists; split.
  - intros (y & Hy & Hxy). apply eqb_spec in Hxy. now subst.
  - intros H. exists x. split; [assumption | now apply eqb_spec].
Qed.

Lemma in_unique_from (seen l : list A) (x : A) :
  In x (unique_from eqb seen l) <-> In x l /\ ~ In x seen.
Proof.
  revert seen; induction l as [| y ys IH]; intros seen; simpl.
  - tauto.
  - destruct (existsb (eqb y) seen) eqn:E.
    + apply existsb_eqb_In in E. rewrite IH.
      split; [tauto |]. intros [[-> | Hx] Hn]; tauto.
    + assert (Hy : ~ In y seen).
      { intros Hy. apply existsb_eqb_In in Hy. congruence. }
      simpl. rewrite IH. simpl. split.
      * intros [-> | [Hx Hn]]; [tauto |]. split; [tauto |]. tauto.
      * intros [[-> | Hx] Hn]; [tauto |].
        destruct (eqb y x) eqn:Eyx.
        -- apply eqb_spec in Eyx. tauto.
        -- right. split; [assumption |].
           intros [-> | Hs]; [| tauto].
           assert (eqb x x = true) by now apply eqb_spec. congruence.
Qed.

Lemma in_unique (l : list A) (x : A) : In x (unique eqb l) <-> In x l.
Proof. unfold unique. rewrite in_unique_from. simpl. tauto. Qed.

Lemma NoDup_unique_from (seen l : list A) : NoDup (unique_from eqb seen l).
Proof.
  revert seen; induction l as [| y ys IH]; intros seen; simpl.
  - constructor.
  - destruct (existsb (eqb y) seen); [apply IH |].
    constructor; [| apply IH].
    rewrite in_unique_from. simpl. tauto.
Qed.

Lemma NoDup_unique (l : list A) : NoDup (unique eqb l).
Proof. apply NoDup_unique_from. Qed.

Lemma unique_nil_inv (l : list A) : unique eqb l = [] -> l = [].
Proof.
  destruct l as [| x xs]; [reflexivity |].
  unfold unique; simpl. discriminate.
Qed.

Lemma unique_from_NoDup (seen l : list A) :
  NoDup l -> (forall x, In x l -> ~ In x seen) -> unique_from eqb seen l = l.
Proof.
  revert seen; induction l as [| y ys IH]; intros seen Hnd Hs; simpl.
  - reflexivity.
  - inversion Hnd as [| ? ? Hy Hys]; subst.
    destruct (existsb (eqb y) seen) eqn:E.
    + apply existsb_eqb_In in E. exfalso. apply (Hs y); simpl; auto.
    + f_equal. apply IH; [assumption |].
      intros x Hx [-> | Hin]; [tauto |]. apply (Hs x); simpl; auto.
Qed.

Lemma unique_NoDup (l : list A) : NoDup l -> unique eqb l = l.
Proof. intros H. apply unique_from_NoDup; [assumption | intros x _ []]. Qed.

Lemma duplicated_false (l : list A) : duplicated eqb l = false <-> NoDup l.
Proof.
  induction l as [| x xs IH]; simpl.
  - split; [constructor | reflexivity].
  - rewrite orb_false_iff, IH. split.
    + intros [Hx Hnd]. constructor; [| assumption].
      intros Hin. apply existsb_eqb_In in Hin. congruence.
    + intros Hnd. inversion Hnd as [| ? ? Hx Hxs]; subst. split; [| assumption].
      destruct (existsb (eqb x) xs) eqn:E; [| reflexivity].
      apply existsb_eqb_In in E. contradiction.
Qed.
End UniqueFacts.

Section SortedLabelsFacts.
Variable A : Type.
Variable cmp : A -> A -> comparison.
Hypothesis cmp_eq : forall x y, cmp x y = Eq -> x = y.
Hypothesis cmp_gt : forall x y, cmp x y = Gt -> cmp y x = Lt.
Hypothesis cmp_lt_irrefl : forall x, cmp x x <> Lt.
Hypothesis cmp_lt_trans : forall x y z, cmp x y = Lt -> cmp y z = Lt -> cmp x z = Lt.

Lemma in_insert_label (x y : A) (l : list A) :
  In y (insert_label cmp x l) <-> y = x \/ In y l.
Proof.
  induction l as [| z zs IH]; simpl.
  - intuition congruence.
  - destruct (cmp x z) eqn:E; simpl.
    + apply cmp_eq in E; subst. intuition congruence.
    + intuition congruence.
    + rewrite IH. intuition congruence.
Qed.

Lemma in_sorted_labels (l : list A) (x : A) :
  In x (sorted_labels cmp l) <-> In x l.
Proof.
  induction l as [| y ys IH]; simpl; [tauto |].
  rewrite in_insert_label, IH. intuition congruence.
Qed.

Lemma insert_label_sorted (x : A) (l : list A) :
  StronglySorted (lt_label cmp) l -> StronglySorted (lt_label cmp) (insert_label cmp x l).
Proof.
  induction 1 as [| z zs Hs IH Hz]; simpl.
  - repeat constructor.
  - destruct (cmp x z) eqn:E.
    + now constructor.
    + constructor; [now constructor |].
      constructor; [exact E |].
      eapply Forall_impl; [| exact Hz].
      intros a Ha. eapply cmp_lt_trans; eauto.
    + constructor; [assumption |].
      apply Forall_forall. intros a Ha.
      apply in_insert_label in Ha as [-> | Ha].
      * now apply cmp_gt.
      * rewrite Forall_forall in Hz. now apply Hz.
Qed.

Lemma sorted_labels_sorted (l : list A) :
  StronglySorted (lt_label cmp) (sorted_labels cmp l).
Proof.
  induction l as [| x xs IH]; simpl; [constructor |].
  now apply insert_label_sorted.
Qed.

Lemma sorted_NoDup (l : list A) : StronglySorted (lt_label cmp) l -> NoDup l.
Proof.
  induction 1 as [| z zs Hs IH Hz]; constructor; [| assumption].
  intros Hin. rewrite Forall_forall in Hz.
  apply (cmp_lt_irrefl z (Hz z Hin)).
Qed.

Lemma NoDup_sorted_labels (l : list A) : NoDup (sorted_labels cmp l).
Proof. apply sorted_NoDup, sorted_labels_sorted. Qed.
End SortedLabelsFacts.

Lemma NoDup_sorted_labels_Z (l : list Z) : NoDup (sorted_labels Z.compare l).
Proof.
  apply NoDup_sorted_labels.
  - intros x y. apply Z.compare_eq.
  - intros x y H. apply Z.compare_gt_iff in H. now apply Z.compare_lt_iff.
  - intros x. rewrite Z.compare_refl. discriminate.
  - intros x y z. rewrite !Z.compare_lt_iff. lia.
Qed.

Lemma in_sorted_labels_Z (l : list Z) (x : Z) :
  In x (sorted_labels Z.compare l) <-> In x l.
Proof. apply in_sorted_labels. intros a b. apply Z.compare_eq. Qed.

Lemma pair_eqb_spec (p q : Z * Z) : pair_eqb p q = true <-> p = q.
Proof.
  destruct p as [a b], q as [c d]; unfold pair_eqb; simpl.
  rewrite andb_true_iff, !Z.eqb_eq. split; [intros [-> ->] | intros [= -> ->]]; auto.
Qed.

Lemma pair_compare_eq (p q : Z * Z) : pair_compare p q = Eq -> p = q.
Proof.
  destruct p as [a b], q as [c d]; unfold pair_compare; simpl.
  destruct (a ?= c)%Z eqn:E; try discriminate.
  intros H. apply Z.compare_eq in E, H. now subst.
Qed.

Lemma in_sorted_pairs (l : list (Z * Z)) (p : Z * Z) :
  In p (sorted_labels pair_compare l) <-> In p l.
Proof. apply in_sorted_labels. exact pair_compare_eq. Qed.

Lemma mem_In (x : Z) (l : list Z) : mem x l = true <-> In x l.
Proof. apply existsb_eqb_In. intros a b. apply Z.eqb_eq. Qed.

Lemma mem_false (x : Z) (l : list Z) : mem x l = false <-> ~ In x l.
Proof. rewrite <- mem_In. destruct (mem x l); intuition congruence. Qed.

End ListFacts.

(** ** The Split Generator *)
Module SplitFacts.
Import Pandas Split ListFacts.

Lemma n_test_quarter (n : nat) :
  Z.to_nat (Qceiling (test_size * inject_Z (Z.of_nat n))) = ((n + 3) / 4)%nat.
Proof.
  unfold Qceiling, Qfloor, Qopp, Qmult, test_size, inject_Z. cbn [Qnum Qden].
  change (Z.pos (4 * 1)) with 4%Z.
  apply Nat2Z.inj. rewrite Nat2Z.inj_div, Nat2Z.inj_add.
  change (Z.of_nat 3) with 3%Z. change (Z.of_nat 4) with 4%Z.
  assert (H : (- (- (1 * Z.of_nat n) / 4) = (Z.of_nat n + 3) / 4)%Z)
    by (Z.to_euclidean_division_equations; lia).
  rewrite H. apply Z2Nat.id. apply Z.div_pos; lia.
Qed.

Lemma validate_shuffle_split_small (n : nat) :
  (n < 2)%nat -> validate_shuffle_split n = Raise ValueError.
Proof.
  intros H. unfold validate_shuffle_split. rewrite n_test_quarter.
  assert (Hn : n = 0%nat \/ n = 1%nat) by lia.
  destruct Hn as [-> | ->]; reflexivity.
Qed.

Lemma validate_shuffle_split_ok (n : nat) :
  (2 <= n)%nat ->
  exists n_train n_test,
    validate_shuffle_split n = Ok (n_train, n_test) /\
    n_test = ((n + 3) / 4)%nat /\ (1 <= n_test)%nat /\ (1 <= n_train)%nat /\
    (n_train + n_test = n)%nat.
Proof.
  intros H. unfold validate_shuffle_split. rewrite n_test_quarter.
  pose proof (Nat.div_mod_eq (n + 3) 4) as Hd.
  pose proof (Nat.mod_upper_bound (n + 3) 4 ltac:(lia)) as Hm.
  destruct (Nat.eqb_spec (n - (n + 3) / 4) 0) as [E | E]; [lia |].
  eexists _, _. split; [reflexivity |]. lia.
Qed.

Lemma in_firstn {A} (k : nat) (l : list A) (x : A) : In x (firstn k l) -> In x l.
Proof.
  intros H. rewrite <- (firstn_skipn k l). apply in_or_app. now left.
Qed.

Lemma in_skipn {A} (k : nat) (l : list A) (x : A) : In x (skipn k l) -> In x l.
Proof.
  intros H. rewrite <- (firstn_skipn k l). apply in_or_app. now right.
Qed.

Lemma NoDup_firstn {A} (k : nat) (l : list A) : NoDup l -> NoDup (firstn k l).
Proof.
  intros H. rewrite <- (firstn_skipn k l) in H. eapply NoDup_app_remove_r; eauto.
Qed.

Lemma NoDup_labels_filter {A} (keep : nat * A -> bool) (df : list (nat * A)) :
  NoDup (map fst df) -> NoDup (map fst (filter keep df)).
Proof.
  intros Hdf. induction df as [| lr rest IH]; cbn [filter map]; [constructor |].
  apply NoDup_cons_iff in Hdf as [Hfresh Hrest].
  destruct (keep lr); cbn [map]; [| now apply IH].
  apply NoDup_cons; [| now apply IH].
  intros Hin. apply Hfresh.
  apply in_map_iff in Hin as (other & Hlabel & Hother).
  rewrite <- Hlabel. apply in_map. apply filter_In in Hother. tauto.
Qed.

(** Rows picked at distinct positions of a list without repetition are
    distinct. *)
Lemma picked_In {A} (l : list A) (ps : list nat) (xs : list A) :
  Forall2 (fun p x => nth_error l p = Some x) ps xs ->
  forall x, In x xs -> exists p, In p ps /\ nth_error l p = Some x.
Proof.
  induction 1 as [| p x ps xs Hp _ IH]; simpl; intros y Hy; [contradiction |].
  destruct Hy as [<- | Hy]; [eauto |].
  destruct (IH y Hy) as (q & Hq & Hn). eauto.
Qed.

Lemma picked_NoDup {A} (l : list A) (ps : list nat) (xs : list A) :
  NoDup l -> NoDup ps ->
  Forall2 (fun p x => nth_error l p = Some x) ps xs -> NoDup xs.
Proof.
  intros Hl Hps H. induction H as [| p x ps xs Hp H IH]; [constructor |].
  inversion Hps as [| ? ? Hnp Hps']; subst.
  constructor; [| auto].
  intros Hin. destruct (picked_In _ _ _ H x Hin) as (q & Hq & Hn).
  assert (p = q).
  { apply (proj1 (NoDup_nth_error l) Hl).
    - apply nth_error_Some. congruence.
    - congruence. }
  subst. contradiction.
Qed.

Lemma picked_map {A B} (f : A -> B) (l : list A) (ps : list nat) (xs : list A) :
  Forall2 (fun p x => nth_error l p = Some x) ps xs ->
  Forall2 (fun p y => nth_error (map f l) p = Some y) ps (map f xs).
Proof.
  induction 1 as [| p x ps xs Hp _ IH]; simpl; constructor; [| assumption].
  rewrite nth_error_map, Hp. reflexivity.
Qed.

Section SplitProperties.
Context {rng : RandomState}.
Context {R : Type}.

Lemma map_fst_combine_seq (start : nat) (rows : list (interaction R)) :
  map fst (combine (seq start (length rows)) rows) = seq start (length rows).
Proof.
  revert start; induction rows as [| r rs IH]; intros start; simpl; [reflexivity |].
  now rewrite IH.
Qed.

Lemma labels_reset_index (rows : list (interaction R)) :
  map fst (reset_index rows) = seq 0 (length rows).
Proof. apply map_fst_combine_seq. Qed.

Lemma NoDup_labels_reset_index (rows : list (interaction R)) :
  NoDup (map fst (reset_index rows)).
Proof. rewrite labels_reset_index. apply seq_NoDup. Qed.

Lemma dropna_filter_rows (start : nat) (rows : list (interaction R)) :
  map snd (dropna (combine (seq start (length rows)) rows))
  = filter (@notna R) rows.
Proof.
  revert start; induction rows as [| r rs IH]; intros start; simpl; [reflexivity |].
  destruct (notna r); simpl; now rewrite IH.
Qed.

(** The number of rated interactions is the number of rows [dropna]
    keeps. *)
Lemma length_dropna_reset_index (rows : list (interaction R)) :
  length (dropna (reset_index rows)) = length (filter (@notna R) rows).
Proof.
  unfold reset_index. rewrite <- (dropna_filter_rows 0 rows).
  now rewrite length_map.
Qed.

Lemma iloc_ok (df : frame R) (ps : list nat) :
  Forall (fun p => (p < length df)%nat) ps ->
  exists out, iloc df ps = Ok out /\
              Forall2 (fun p lr => nth_error df p = Some lr) ps out.
Proof.
  intros H. unfold iloc.
  destruct (mapM_total
              (fun p => match nth_error df p with
                        | Some lr => Ok lr
                        | None => Raise IndexError
                        end) ps) as (out & Hout).
  - intros p Hp. rewrite Forall_forall in H. specialize (H p Hp).
    destruct (nth_error df p) eqn:E; [eauto |].
    apply nth_error_None in E. lia.
  - exists out. split; [assumption |].
    apply mapM_ok_inv in Hout.
    eapply Forall2_impl; [| exact Hout].
    intros p lr Hp. cbv beta in Hp. destruct (nth_error df p); congruence.
Qed.

Lemma permutation_lt (n p : nat) : In p (permutation n) -> (p < n)%nat.
Proof.
  intros H. apply (Permutation_in _ (permutation_perm n)) in H.
  apply in_seq in H. lia.
Qed.

Lemma permutation_NoDup (n : nat) : NoDup (permutation n).
Proof.
  eapply Permutation_NoDup; [symmetry; apply permutation_perm | apply seq_NoDup].
Qed.

Lemma permutation_length (n : nat) : length (permutation n) = n.
Proof. rewrite (Permutation_length (permutation_perm n)). apply length_seq. Qed.

(** What [train_test_split] returns on a frame of at least two rows. *)
Lemma train_test_split_ok (df : frame R) :
  (2 <= length df)%nat ->
  exists train test,
    train_test_split df = Ok (train, test) /\
    Forall2 (fun p lr => nth_error df p = Some lr)
            (firstn ((length df + 3) / 4) (permutation (length df))) test /\
    length test = ((length df + 3) / 4)%nat.
Proof.
  intros H. unfold train_test_split.
  destruct (validate_shuffle_split_ok _ H) as (n_train & n_test & -> & Hk & H1 & H2 & H3).
  cbn [bind].
  destruct (iloc_ok df (firstn n_train (skipn n_test (permutation (length df)))))
    as (train & -> & _).
  { apply Forall_forall. intros p Hp.
    apply permutation_lt. eapply in_skipn, in_firstn; eauto. }
  destruct (iloc_ok df (firstn n_test (permutation (length df))))
    as (test & -> & Htest).
  { apply Forall_forall. intros p Hp.
    apply permutation_lt. eapply in_firstn; eauto. }
  cbn [bind]. exists train, test. subst n_test. split; [reflexivity |]. split; [assumption |].
  rewrite <- (Forall2_length Htest), length_firstn, permutation_length. lia.
Qed.

Lemma train_test_split_small (df : frame R) :
  (length df < 2)%nat -> train_test_split df = Raise ValueError.
Proof.
  intros H. unfold train_test_split.
  now rewrite validate_shuffle_split_small.
Qed.

End SplitProperties.
End SplitFacts.

(** ** Masking the held-out rows *)
Module MaskFacts.
Import Pandas Split ListFacts SplitFacts.

Lemma label_mem (l : nat) (labels : list nat) :
  existsb (Nat.eqb l) labels = true <-> In l labels.
Proof. apply existsb_eqb_In. intros a b. apply Nat.eqb_eq. Qed.

Lemma same_label_same_row {A} (l : list (nat * A)) (a b : nat * A) :
  NoDup (map fst l) -> In a l -> In b l -> fst a = fst b -> a = b.
Proof.
  induction l as [| x xs IH]; simpl; intros Hnd Ha Hb Hab; [contradiction |].
  inversion Hnd as [| ? ? Hx Hxs]; subst.
  destruct Ha as [-> | Ha], Hb as [-> | Hb]; auto.
  - exfalso. apply Hx. rewrite Hab. now apply in_map.
  - exfalso. apply Hx. rewrite <- Hab. now apply in_map.
Qed.

Section Mask.
Context {R : Type}.

Lemma fst_mask (labels : list nat) (lr : nat * interaction R) :
  fst (mask labels lr) = fst lr.
Proof. unfold mask. now destruct (existsb _ labels). Qed.

Lemma mask_held_out (labels : list nat) (lr : nat * interaction R) :
  In (fst lr) labels -> use_tms_ratio (snd (mask labels lr)) = None.
Proof.
  intros H. unfold mask. apply label_mem in H. now rewrite H.
Qed.

Lemma mask_other (labels : list nat) (lr : nat * interaction R) :
  ~ In (fst lr) labels -> mask labels lr = lr.
Proof.
  intros H. unfold mask.
  destruct (existsb (Nat.eqb (fst lr)) labels) eqn:E; [| reflexivity].
  apply label_mem in E. contradiction.
Qed.

Lemma notna_mask (labels : list nat) (lr : nat * interaction R) :
  notna (snd (mask labels lr)) = true ->
  mask labels lr = lr /\ ~ In (fst lr) labels /\ notna (snd lr) = true.
Proof.
  intros H. destruct (in_dec Nat.eq_dec (fst lr) labels) as [Hin | Hout].
  - apply mask_held_out in Hin. unfold notna in H. rewrite Hin in H. discriminate.
  - rewrite (mask_other _ _ Hout) in *. auto.
Qed.

Lemma loc_set_nan_ok (labels : list nat) (df : frame R) :
  incl labels (map fst df) -> loc_set_nan labels df = Ok (map (mask labels) df).
Proof.
  intros H. unfold loc_set_nan.
  replace (forallb (has_label df) labels) with true; [reflexivity |].
  symmetry. apply forallb_forall. intros l Hl. unfold has_label.
  apply label_mem. now apply H.
Qed.

Lemma labels_masked (labels : list nat) (df : frame R) :
  map fst (map (mask labels) df) = map fst df.
Proof.
  rewrite map_map. apply map_ext. intros lr. apply fst_mask.
Qed.

(** The rated rows of the masked frame and the held-out rows together are
    the rated rows of the frame. *)
Lemma masked_with_held_out (df test : frame R) :
  NoDup (map fst df) -> NoDup test -> incl test (dropna df) ->
  Permutation (dropna (map (mask (map fst test)) df) ++ test) (dropna df).
Proof.
  intros Hdf Htest Hincl.
  assert (Hmasked : NoDup (dropna (map (mask (map fst test)) df))).
  { apply (NoDup_map_inv fst), NoDup_labels_filter. now rewrite labels_masked. }
  apply NoDup_Permutation.
  - apply NoDup_app; [assumption | assumption |].
    intros a Ha Hin. apply filter_In in Ha as [Ha Hna].
    apply in_map_iff in Ha as (x & <- & Hx).
    apply notna_mask in Hna as (Heq & Hout & _).
    apply Hout. rewrite <- (fst_mask (map fst test) x). now apply in_map.
  - apply (NoDup_map_inv fst), NoDup_labels_filter, Hdf.
  - intros a. rewrite in_app_iff. split.
    + intros [Ha | Ha]; [| now apply Hincl].
      apply filter_In in Ha as [Ha Hna].
      apply in_map_iff in Ha as (x & <- & Hx).
      apply notna_mask in Hna as (Heq & _ & Hna). rewrite Heq.
      apply filter_In. auto.
    + intros Ha. pose proof Ha as Ha'. apply filter_In in Ha' as [Hin Hna].
      destruct (in_dec Nat.eq_dec (fst a) (map fst test)) as [Hl | Hl].
      * right. apply in_map_iff in Hl as (t & Hta & Ht).
        assert (t = a); [| now subst].
        apply (same_label_same_row df); auto.
        apply Hincl in Ht. apply filter_In in Ht. tauto.
      * left. apply filter_In. split; [| assumption].
        apply in_map_iff. exists a. split; [now apply mask_other | assumption].
Qed.
End Mask.
End MaskFacts.

(** [split] raises when [dropna] leaves fewer than two rows. *)
Lemma split_raises_below_two
  (rng : Split.RandomState) (R : Type) (rating : list (interaction R)) :
  (length (filter (@Pandas.notna R) rating) < 2)%nat ->
  Split.split rating = Raise ValueError.
Proof.
  intros H. unfold Split.split.
  rewrite SplitFacts.train_test_split_small; [reflexivity |].
  now rewrite SplitFacts.length_dropna_reset_index.
Qed.

(** C9: an Interaction set with fewer than two rated interactions makes the
    Split Generator fail: [train_test_split] raises (scikit-learn's
    ValueError for an empty train set). *)
Theorem split_fails_below_two_rated
  (rng : Split.RandomState) (R : Type) (rating : list (interaction R)) :
  (length (filter (@Pandas.notna R) rating) < 2)%nat ->
  Split.split rating = Raise ValueError.
Proof.
  intros Hfew. unfold Split.split.
  assert (Hrows : (length (Pandas.dropna (Pandas.reset_index rating)) < 2)%nat)
    by now rewrite SplitFacts.length_dropna_reset_index.
  now rewrite (SplitFacts.train_test_split_small _ Hrows).
Qed.

Lemma split_fails_below_two_rated_witness :
  let rating := [mkInteraction 1 10 (Some (1 # 2)); mkInteraction 1 20 None] in
  (length (filter (@Pandas.notna Q) rating) < 2)%nat /\
  Split.split (rng := reversing_state) rating = Raise ValueError.
Proof.
  cbv zeta. split; [simpl; lia |].
  apply split_fails_below_two_rated. simpl. lia.
Defined.

(** [split] on a frame with at least two rated rows: the held-out rows are
    distinct rows of [dropna], and Train is the frame with their labels
    masked. *)
Lemma split_unfold
  (rng : Split.RandomState) (R : Type) (rating : list (interaction R)) :
  (2 <= length (filter (@Pandas.notna R) rating))%nat ->
  exists test,
    Split.split rating
    = Ok (map (Pandas.mask (map fst test)) (Pandas.reset_index rating), test) /\
    incl test (Pandas.dropna (Pandas.reset_index rating)) /\
    NoDup test /\
    length test = ((length (filter (@Pandas.notna R) rating) + 3) / 4)%nat.
Proof.
  intros H. unfold Split.split.
  set (df := Pandas.reset_index rating).
  assert (Hlen : length (Pandas.dropna df)
                 = length (filter (@Pandas.notna R) rating))
    by apply SplitFacts.length_dropna_reset_index.
  destruct (SplitFacts.train_test_split_ok (Pandas.dropna df))
    as (tr & test & -> & Hpick & Hsize); [lia |].
  cbn [bind].
  assert (Hincl : incl test (Pandas.dropna df)).
  { intros lr Hlr. destruct (SplitFacts.picked_In _ _ _ Hpick lr Hlr) as (p & _ & Hp).
    eapply nth_error_In; eauto. }
  assert (Hdf : NoDup (map fst df)) by apply SplitFacts.NoDup_labels_reset_index.
  assert (Hnd : NoDup test).
  { eapply SplitFacts.picked_NoDup; [| | exact Hpick].
    - apply (NoDup_map_inv fst), SplitFacts.NoDup_labels_filter, Hdf.
    - apply SplitFacts.NoDup_firstn, SplitFacts.permutation_NoDup. }
  rewrite MaskFacts.loc_set_nan_ok.
  2:{ intros l Hl. apply in_map_iff in Hl as (lr & <- & Hlr).
      apply Hincl, filter_In in Hlr. apply in_map. tauto. }
  cbn [bind]. exists test. split; [reflexivity |].
  split; [assumption |]. split; [assumption |]. now rewrite Hsize, Hlen.
Qed.



Example split_sample :
  Split.split (rng := reversing_state) sample_rating
  = Ok ([(0%nat, mkInteraction 1 10 (Some (1 # 2))); (1%nat, mkInteraction 1 20 None);
         (2%nat, mkInteraction 2 10 (Some (3 # 4))); (3%nat, mkInteraction 2 30 None)],
        [(3%nat, mkInteraction 2 30 (Some 1))]).
Proof. reflexivity. Qed.

(** ** The rating matrix and the Recommender *)

Module RecommendFacts.
Import Pandas NumPy Surprise SVDRecommendationModel ListFacts.

Section PivotFacts.
Context {R : Type}.

Lemma pivot_shape (df : frame R) (sm : pivoted R) :
  pivot df = Ok sm ->
  sm = map (fun u => (u, map (fun i => (i, cell (map snd df) u i))
                             (sorted_labels Z.compare
                                (map (@program_id R) (map snd df)))))
           (sorted_labels Z.compare (map (@subsr_id R) (map snd df))).
Proof.
  unfold pivot. destruct (duplicated _ _); [discriminate |].
  now intros [= <-].
Qed.

(** The index of the pivoted frame holds exactly the users of the frame. *)
Lemma pivot_index (df : frame R) (sm : pivoted R) (u : Z) :
  pivot df = Ok sm -> (In u (map fst sm) <-> In u (users_of df)).
Proof.
  intros H. rewrite (pivot_shape _ _ H), map_map. cbn [fst].
  rewrite map_id, in_sorted_labels_Z. unfold users_of. now rewrite map_map.
Qed.

Lemma pivot_unique_columns (df : frame R) (sm : pivoted R) (u : Z) (row : series R) :
  pivot df = Ok sm -> In (u, row) sm -> NoDup (map fst row).
Proof.
  intros H Hin. rewrite (pivot_shape _ _ H) in Hin.
  apply in_map_iff in Hin as (u' & [= -> <-] & _).
  rewrite map_map. cbn [fst]. rewrite map_id. apply NoDup_sorted_labels_Z.
Qed.

Lemma loc_known (sm : pivoted R) (u : Z) :
  In u (map fst sm) -> exists row, loc sm u = Ok row /\ In (u, row) sm.
Proof.
  intros H. unfold loc.
  destruct (find (fun ur => (fst ur =? u)%Z) sm) as [[u' row] |] eqn:E.
  - apply find_some in E as [Hin Hu]. cbn [fst] in Hu. apply Z.eqb_eq in Hu. subst.
    eauto.
  - apply in_map_iff in H as ([u' row] & <- & Hin).
    apply (find_none _ _ E) in Hin. cbn [fst] in Hin. rewrite Z.eqb_refl in Hin.
    discriminate.
Qed.

Lemma loc_unknown (sm : pivoted R) (u : Z) :
  ~ In u (map fst sm) -> loc sm u = Raise KeyError.
Proof.
  intros H. unfold loc.
  destruct (find (fun ur => (fst ur =? u)%Z) sm) as [[u' row] |] eqn:E; [| reflexivity].
  apply find_some in E as [Hin Hu]. cbn [fst] in Hu. apply Z.eqb_eq in Hu. subst.
  exfalso. apply H. apply in_map_iff. now exists (u, row).
Qed.

(** Dropping the labels of a Series from that Series never raises. *)
Lemma series_drop_own_labels (row : series R) :
  series_drop (map fst (series_dropna row)) row
  = Ok (filter (fun iv => negb (mem (fst iv) (map fst (series_dropna row)))) row).
Proof.
  unfold series_drop.
  replace (forallb _ _) with true; [reflexivity |].
  symmetry. apply forallb_forall. intros l Hl. apply mem_In.
  apply in_map_iff in Hl as (iv & <- & Hiv). apply in_map.
  unfold series_dropna in Hiv. apply filter_In in Hiv. tauto.
Qed.

(** The labels the code keeps ([user_unrated]) are the candidate set when no
    label of the row is repeated. *)
Lemma unrated_is_candidate_set (row : series R) :
  NoDup (map fst row) ->
  map fst (filter (fun iv => negb (mem (fst iv) (map fst (series_dropna row)))) row)
  = candidate_set row.
Proof.
  intros Hnd. unfold candidate_set. f_equal. apply filter_ext_in.
  intros [i v] Hin. cbn [fst snd]. destruct v as [r |].
  - replace (mem i _) with true; [reflexivity |].
    symmetry. apply mem_In. apply in_map_iff. exists (i, Some r).
    split; [reflexivity |]. unfold series_dropna. apply filter_In. auto.
  - replace (mem i _) with false; [reflexivity |].
    symmetry. apply mem_false. intros H.
    apply in_map_iff in H as ([i' v'] & Hi & Hiv). cbn [fst] in Hi. subst i'.
    unfold series_dropna in Hiv. apply filter_In in Hiv as [Hiv Hv]. cbn [snd] in Hv.
    destruct v' as [r |]; [| discriminate].
    clear Hv. induction row as [| [j w] rest IH]; [contradiction |].
    cbn [map fst] in Hnd. apply NoDup_cons_iff in Hnd as [Hj Hrest].
    destruct Hin as [[= -> ->] | Hin], Hiv as [[= ? ?] | Hiv]; subst; try discriminate.
    + apply Hj. apply in_map_iff. now exists (i, Some r).
    + apply Hj. apply in_map_iff. now exists (i, None).
    + now apply IH.
Qed.


End PivotFacts.


Lemma slice_to_prefix {A} (N : Z) (l : list A) :
  exists k, slice_to N l = firstn k l.
Proof. unfold slice_to. destruct (0 <=? N)%Z; eauto. Qed.

Lemma firstn_sorted {A} (le : A -> A -> Prop) (k : nat) (l : list A) :
  StronglySorted le l -> StronglySorted le (firstn k l).
Proof.
  intros H. revert k. induction H as [| x xs Hs IH Hx]; intros [| k]; cbn [firstn];
    try constructor; [apply IH |].
  apply Forall_forall. intros y Hy. rewrite Forall_forall in Hx.
  apply Hx. eapply SplitFacts.in_firstn; eauto.
Qed.

Section RecommendProperties.
Context {sorter : SortValues}.

Lemma map_fst_scored (self : t) (user : Z) (items : list Z) :
  map fst (scored self user items) = items.
Proof.
  unfold scored. induction items as [| i rest IH]; cbn; [reflexivity |].
  now rewrite IH.
Qed.

Lemma scored_score (self : t) (user : Z) (items : list Z) (i : Z) (s : Q) :
  In (i, s) (scored self user items) -> s = predict self user i.
Proof.
  unfold scored. induction items as [| j rest IH]; cbn; [contradiction |].
  intros [[= -> ->] | H]; auto.
Qed.

(** [recommend] on a user of the index, as one expression. *)
Lemma recommend_known (self : t) (user N : Z) (row : series Q) :
  loc (score_matrix self) user = Ok row ->
  NoDup (map fst row) ->
  recommend self user N
  = Ok (slice_to N (sort_values_desc (scored self user (candidate_set row)))).
Proof.
  intros Hloc Hnd. unfold recommend. rewrite Hloc. cbn [bind].
  rewrite series_drop_own_labels. cbn [bind].
  rewrite (unrated_is_candidate_set row Hnd). reflexivity.
Qed.

Lemma recommend_unknown (self : t) (user N : Z) :
  ~ In user (map fst (score_matrix self)) ->
  recommend self user N = Raise KeyError.
Proof.
  intros H. unfold recommend. now rewrite (loc_unknown _ _ H).
Qed.

Lemma init_score_matrix (sgd : trainset -> svd_params) (train test : frame Q) (self : t) :
  init sgd train test = Ok self ->
  pivot train = Ok (score_matrix self) /\
  model self = fit sgd (build_full_trainset (load_from_df (dropna train))) /\
  test_data self = build_testset (build_full_trainset (load_from_df test)).
Proof.
  unfold init, dataset, make_score_matrix.
  destruct (pivot train) as [sm |]; cbn [bind]; [| discriminate].
  intros [= <-]. auto.
Qed.


Lemma top_N_NoDup (self : t) (user N : Z) (items : list Z) :
  NoDup items ->
  NoDup (map fst (slice_to N (sort_values_desc (scored self user items)))).
Proof.
  intros H. destruct (slice_to_prefix N (sort_values_desc (scored self user items)))
    as (k & ->).
  rewrite <- firstn_map. apply SplitFacts.NoDup_firstn.
  eapply Permutation_NoDup.
  - apply Permutation_map, sort_values_perm.
  - now rewrite map_fst_scored.
Qed.

Lemma length_sorted_scored (self : t) (user : Z) (items : list Z) :
  length (sort_values_desc (scored self user items)) = length items.
Proof.
  rewrite <- (Permutation_length (sort_values_perm _)).
  rewrite <- (map_fst_scored self user items) at 2. now rewrite length_map.
Qed.
End RecommendProperties.
End RecommendFacts.

(** ** Two sort routines that meet the contract of [sort_values] *)
Module SortFacts.
Import Pandas Sorters.

Lemma goes_before_desc (x y : Z * Q) :
  goes_before x y = true -> desc x y.
Proof. unfold goes_before, desc. apply Qle_bool_iff. Qed.

Lemma not_goes_before_desc (x y : Z * Q) :
  goes_before x y = false -> desc y x.
Proof.
  unfold goes_before, desc. intros H.
  destruct (Qlt_le_dec (snd x) (snd y)) as [Hlt | Hle]; [now apply Qlt_le_weak |].
  apply Qle_bool_iff in Hle. congruence.
Qed.

Lemma insert_desc_perm (x : Z * Q) (l : list (Z * Q)) :
  Permutation (x :: l) (insert_desc x l).
Proof.
  induction l as [| y ys IH]; cbn [insert_desc]; [reflexivity |].
  destruct (goes_before x y); [reflexivity |].
  rewrite perm_swap. now apply perm_skip.
Qed.

Lemma insertion_sort_perm (l : list (Z * Q)) :
  Permutation l (insertion_sort l).
Proof.
  induction l as [| x xs IH]; cbn; [constructor |].
  rewrite <- insert_desc_perm. now apply perm_skip.
Qed.

Lemma insert_desc_sorted (x : Z * Q) (l : list (Z * Q)) :
  StronglySorted desc l -> StronglySorted desc (insert_desc x l).
Proof.
  induction 1 as [| y ys Hs IH Hy]; cbn [insert_desc].
  - repeat constructor.
  - destruct (goes_before x y) eqn:E.
    + apply goes_before_desc in E.
      constructor; [now constructor |].
      constructor; [exact E |].
      eapply Forall_impl; [| exact Hy].
      intros z Hz. unfold desc in *. eapply Qle_trans; eauto.
    + apply not_goes_before_desc in E.
      constructor; [assumption |].
      apply Forall_forall. intros z Hz.
      apply (Permutation_in _ (Permutation_sym (insert_desc_perm x ys))) in Hz.
      destruct Hz as [<- | Hz]; [exact E |].
      rewrite Forall_forall in Hy. now apply Hy.
Qed.

Lemma insertion_sort_sorted (l : list (Z * Q)) :
  StronglySorted desc (insertion_sort l).
Proof.
  induction l as [| x xs IH]; cbn; [constructor |].
  now apply insert_desc_sorted.
Qed.

#[local] Instance stable_sort : SortValues := {|
  sort_values_desc := insertion_sort;
  sort_values_perm := insertion_sort_perm;
  sort_values_sorted := insertion_sort_sorted
|}.

(** The rows of a frame, read position by position. *)
Lemma rows_by_position (rows : list (Z * Q)) :
  NumPySort.take rows (seq 0 (length rows)) = rows.
Proof.
  unfold NumPySort.take. induction rows as [| r rest IH]; [reflexivity |].
  cbn [length seq map nth]. f_equal.
  rewrite <- seq_shift, map_map. exact IH.
Qed.

(** An order that passes the test rearranges the rows. *)
Lemma take_is_order (rows : list (Z * Q)) (indexer : list nat) :
  NumPySort.is_order (length rows) indexer = true ->
  Permutation rows (NumPySort.take rows indexer).
Proof.
  unfold NumPySort.is_order. intros H.
  apply andb_prop in H as [Hlen Hall]. apply Nat.eqb_eq in Hlen.
  rewrite <- (rows_by_position rows) at 1.
  unfold NumPySort.take. apply Permutation_map.
  apply NoDup_Permutation_bis.
  - apply seq_NoDup.
  - rewrite length_seq. lia.
  - intros i Hi. rewrite forallb_forall in Hall.
    specialize (Hall i Hi). apply existsb_exists in Hall as (j & Hj & Hij).
    apply Nat.eqb_eq in Hij. now subst j.
Qed.

Lemma descending_sorted (rows : list (Z * Q)) :
  NumPySort.descending rows = true -> StronglySorted desc rows.
Proof.
  induction rows as [| x rest IH]; cbn [NumPySort.descending]; intros H;
    [constructor |].
  apply andb_prop in H as [Hx Hrest]. constructor; [now apply IH |].
  apply Forall_forall. intros y Hy. rewrite forallb_forall in Hx.
  unfold desc. apply Qle_bool_iff. now apply Hx.
Qed.

Lemma sort_values_quicksort_perm (rows : list (Z * Q)) :
  Permutation rows (sort_values_quicksort rows).
Proof.
  unfold sort_values_quicksort.
  destruct (NumPySort.is_order _ _) eqn:Horder; cbn [andb];
    [| apply insertion_sort_perm].
  destruct (NumPySort.descending _); [| apply insertion_sort_perm].
  now apply take_is_order.
Qed.

Lemma sort_values_quicksort_sorted (rows : list (Z * Q)) :
  StronglySorted desc (sort_values_quicksort rows).
Proof.
  unfold sort_values_quicksort.
  destruct (NumPySort.is_order _ _); cbn [andb]; [| apply insertion_sort_sorted].
  destruct (NumPySort.descending _) eqn:Hdesc; [| apply insertion_sort_sorted].
  now apply descending_sorted.
Qed.

(** [sort_values] through NumPy's generic quicksort. *)
#[local] Instance numpy_quicksort : SortValues := {|
  sort_values_desc := sort_values_quicksort;
  sort_values_perm := sort_values_quicksort_perm;
  sort_values_sorted := sort_values_quicksort_sorted
|}.

End SortFacts.

(** ** A small run of the pipeline *)

Example init_sample :
  SVDRecommendationModel.init sample_sgd sample_train sample_test = Ok sample_model.
Proof. reflexivity. Qed.

Example recommend_sample :
  SVDRecommendationModel.recommend (sorter := SortFacts.stable_sort) sample_model 1 10
  = Ok [(20, 216 # 320); (30, 216 # 320)]%Z.
Proof. vm_compute. reflexivity. Qed.

(** ** The claims on [recommend] *)



(** C8, as the code has it: [recommend] on a user who is not in the index
    of the rating matrix raises KeyError (the row lookup
    [score_matrix.loc[subsr_id]] fails); no list is returned. *)
Theorem recommend_unknown_user_raises
  (sorter : Pandas.SortValues) (self : SVDRecommendationModel.t) (user N : Z) :
  ~ In user (map fst (SVDRecommendationModel.score_matrix self)) ->
  SVDRecommendationModel.recommend self user N = Raise KeyError.
Proof.
  intros Hunknown. unfold SVDRecommendationModel.recommend.
  now rewrite (RecommendFacts.loc_unknown _ _ Hunknown).
Qed.

Lemma recommend_unknown_user_raises_witness :
  ~ In 9%Z (map fst (SVDRecommendationModel.score_matrix sample_model)) /\
  SVDRecommendationModel.recommend (sorter := SortFacts.stable_sort) sample_model 9 10
  = Raise KeyError.
Proof.
  assert (H : ~ In 9%Z (map fst (SVDRecommendationModel.score_matrix sample_model))).
  { simpl. intros [H | [H | []]]; discriminate. }
  split; [exact H |].
  apply (recommend_unknown_user_raises SortFacts.stable_sort sample_model 9 10 H).
Defined.

(** C8 as stated fails: user 9 is unknown to the rating matrix of the
    sample model, whose universe has the items 10, 20 and 30, and
    [recommend] returns no list for that user. *)
Lemma recommend_unknown_user_counterexample :
  ~ In 9%Z (map fst (SVDRecommendationModel.score_matrix sample_model)) /\
  forall top_N,
    SVDRecommendationModel.recommend (sorter := SortFacts.stable_sort) sample_model 9 10
    <> Ok top_N.
Proof.
  split.
  - simpl. intros [H | [H | []]]; discriminate.
  - intros top_N. vm_compute. discriminate.
Qed.

(** C5, as the code has it: for a user of the rating matrix [recommend]
    returns a list in which the predicted score never increases, each entry
    carrying the prediction for its item; the code fixes no order between
    entries of equal score. *)
Theorem recommend_sorted_by_score
  (sorter : Pandas.SortValues) (sgd : Surprise.trainset -> Surprise.svd_params)
  (train test : Pandas.frame Q) (self : SVDRecommendationModel.t) (user N : Z) :
  SVDRecommendationModel.init sgd train test = Ok self ->
  In user (map fst (SVDRecommendationModel.score_matrix self)) ->
  exists top_N,
    SVDRecommendationModel.recommend self user N = Ok top_N /\
    StronglySorted (fun a b => snd b <= snd a) top_N /\
    (forall item score, In (item, score) top_N ->
                        score = SVDRecommendationModel.predict self user item).
Proof.
  intros Hinit Huser.
  apply RecommendFacts.init_score_matrix in Hinit as (Hpivot & _).
  destruct (RecommendFacts.loc_known _ _ Huser) as (row & Hloc & Hrow).
  pose proof (RecommendFacts.pivot_unique_columns _ _ _ _ Hpivot Hrow) as Hnd.
  eexists. split; [exact (RecommendFacts.recommend_known self user N row Hloc Hnd) |].
  destruct (RecommendFacts.slice_to_prefix N
              (Pandas.sort_values_desc
                 (scored self user (candidate_set row))))
    as (k & ->).
  split.
  - apply RecommendFacts.firstn_sorted, Pandas.sort_values_sorted.
  - intros item score Hin. apply SplitFacts.in_firstn in Hin.
    apply (Permutation_in _ (Permutation_sym (Pandas.sort_values_perm _))) in Hin.
    eapply RecommendFacts.scored_score; eauto.
Qed.

Lemma recommend_sorted_by_score_witness :
  SVDRecommendationModel.init sample_sgd sample_train sample_test = Ok sample_model /\
  In 1%Z (map fst (SVDRecommendationModel.score_matrix sample_model)) /\
  exists top_N,
    SVDRecommendationModel.recommend (sorter := SortFacts.stable_sort) sample_model 1 10
    = Ok top_N /\
    StronglySorted (fun a b => snd b <= snd a) top_N /\
    (forall item score, In (item, score) top_N ->
                        score = SVDRecommendationModel.predict sample_model 1 item).
Proof.
  split; [reflexivity |]. split; [simpl; auto |].
  apply (recommend_sorted_by_score SortFacts.stable_sort sample_sgd
           sample_train sample_test sample_model 1 10);
    [reflexivity | simpl; auto].
Defined.

(** On the two tied candidates of subscriber 1 of the small run the kernel
    leaves the rows as they were: a range of at most 17 entries is
    insertion-sorted. *)
Example recommend_sample_quicksort :
  SVDRecommendationModel.recommend (sorter := SortFacts.numpy_quicksort) sample_model 1 2
  = Ok [(20, 216 # 320); (30, 216 # 320)]%Z.
Proof. vm_compute. reflexivity. Qed.

(** The frames and the model of the Interaction set [tied_rating]. *)
Example tied_sample :
  Split.split (rng := reversing_state) tied_rating = Ok (tied_train, tied_test) /\
  SVDRecommendationModel.init sample_sgd tied_train tied_test = Ok tied_model.
Proof. split; vm_compute; reflexivity. Qed.

(** C5 as stated fails.  Subscriber 1 of [tied_rating] has the 18
    candidates 1 .. 18, none of them seen in training, so all 18 get the same
    prediction.  [recommend(1, 18)], sorting through NumPy's quicksort,
    returns all of them with equal scores, and not in ascending order of
    program_id: the partition of the 18 equal keys exchanges entries and
    nothing puts them back. *)
Lemma recommend_ties_counterexample :
  exists top_N,
    SVDRecommendationModel.recommend (sorter := SortFacts.numpy_quicksort)
                                     tied_model 1 18 = Ok top_N /\
    length top_N = 18%nat /\
    (forall a b, In a top_N -> In b top_N -> snd a = snd b) /\
    ~ ties_ascending top_N.
Proof.
  eexists. split; [vm_compute; reflexivity |].
  split; [reflexivity |]. split.
  - intros a b Ha Hb. cbn [In] in Ha, Hb.
    repeat (destruct Ha as [<- | Ha]; [repeat (destruct Hb as [<- | Hb];
      [reflexivity |]); contradiction |]).
    contradiction.
  - intros H.
    specialize (H 2%nat 3%nat _ _ ltac:(lia) eq_refl eq_refl ltac:(reflexivity)).
    cbn in H. lia.
Qed.

(** ** The users of Test and the rating matrix *)
Module EvaluateFacts.
Import Pandas NumPy Surprise SVDRecommendationModel ListFacts RecommendFacts.

Lemma in_test_users (test : frame Q) (user : Z) :
  In user (test_users test) <-> exists lr, In lr test /\ subsr_id (snd lr) = user.
Proof.
  unfold test_users. rewrite in_unique by (intros a b; apply Z.eqb_eq).
  rewrite in_map_iff. split; intros (lr & H1 & H2); exists lr; tauto.
Qed.

Lemma targets_nonempty (test : frame Q) (user : Z) :
  In user (test_users test) -> targets_of test user <> [].
Proof.
  intros H. apply in_test_users in H as (lr & Hin & Hu).
  assert (Hf : In (program_id (snd lr)) (targets_of test user)).
  { unfold targets_of. apply (in_map (fun lr => program_id (snd lr))).
    apply filter_In. split; [assumption |]. now apply Z.eqb_eq. }
  intros E. rewrite E in Hf. contradiction.
Qed.

(** What [split] returns when it returns. *)
Lemma split_ok_inv {rng : Split.RandomState} {R : Type}
  (rating : list (interaction R)) (train test : frame R) :
  Split.split rating = Ok (train, test) ->
  train = map (mask (map fst test)) (reset_index rating) /\
  incl test (reset_index rating).
Proof.
  intros H.
  destruct (Nat.lt_ge_cases (length (filter (@notna R) rating)) 2) as [Hlt | Hge].
  - rewrite (split_raises_below_two rng R rating Hlt) in H. discriminate.
  - destruct (split_unfold rng R rating Hge) as (test' & Heq & Hincl & _).
    rewrite Heq in H. injection H as <- <-.
    split; [reflexivity |].
    intros lr Hlr. apply Hincl, filter_In in Hlr. tauto.
Qed.

Lemma masked_users {R : Type} (labels : list nat) (df : frame R) :
  users_of (map (mask labels) df) = users_of df.
Proof.
  unfold users_of. rewrite map_map. apply map_ext. intros lr.
  unfold mask. now destruct (existsb _ labels).
Qed.

Section Evaluate.
Context {sorter : SortValues}.

Lemma recommend_total (sgd : trainset -> svd_params) (train test : frame Q)
  (self : t) (user N : Z) :
  init sgd train test = Ok self ->
  In user (map fst (score_matrix self)) ->
  exists row,
    In (user, row) (score_matrix self) /\ NoDup (map fst row) /\
    recommend self user N
    = Ok (slice_to N (sort_values_desc (scored self user (candidate_set row)))).
Proof.
  intros Hinit Huser.
  apply init_score_matrix in Hinit as (Hpivot & _).
  destruct (loc_known _ _ Huser) as (row & Hloc & Hrow).
  pose proof (pivot_unique_columns _ _ _ _ Hpivot Hrow) as Hnd.
  exists row. split; [assumption |]. split; [assumption |].
  now apply recommend_known.
Qed.

Lemma evaluate_unfold (self : t) (test : frame Q) (N : Z) (prs : list (Q * Q)) :
  mapM (evaluate_user self test N) (test_users test) = Ok prs ->
  evaluate self test N
  = Ok (mean (map (fun pr => Some (fst pr)) prs),
        mean (map (fun pr => Some (snd pr)) prs)).
Proof.
  intros H. unfold evaluate. fold (test_users test). now rewrite H.
Qed.

Lemma evaluate_user_inv (self : t) (test : frame Q) (N user : Z) (pr : Q * Q) :
  evaluate_user self test N user = Ok pr ->
  exists top_N,
    recommend self user N = Ok top_N /\
    pr = precision_recall_at_k (targets_of test user) (map fst top_N).
Proof.
  unfold evaluate_user. fold (targets_of test user).
  intros H. apply bind_ok_inv in H as (top_N & Hrec & [= <-]). eauto.
Qed.
End Evaluate.
End EvaluateFacts.

(** C10: every subscriber of the Test frame returned by [split] is a row of
    the rating matrix pivoted from the Train frame, so [recommend] returns a
    list for that subscriber, and [evaluate] on Test raises nothing. *)
Theorem test_users_known_to_matrix
  (rng : Split.RandomState) (sorter : Pandas.SortValues)
  (sgd : Surprise.trainset -> Surprise.svd_params)
  (rating : list (interaction Q)) (train test : Pandas.frame Q)
  (self : SVDRecommendationModel.t) (N : Z) :
  Split.split rating = Ok (train, test) ->
  SVDRecommendationModel.init sgd train test = Ok self ->
  (forall lr, In lr test ->
     In (subsr_id (snd lr)) (map fst (SVDRecommendationModel.score_matrix self)) /\
     exists top_N,
       SVDRecommendationModel.recommend self (subsr_id (snd lr)) N = Ok top_N) /\
  exists pr, SVDRecommendationModel.evaluate self test N = Ok pr.
Proof.
  intros Hsplit Hinit.
  apply EvaluateFacts.split_ok_inv in Hsplit as (Htrain & Hincl).
  assert (Hknown : forall lr, In lr test ->
            In (subsr_id (snd lr)) (map fst (SVDRecommendationModel.score_matrix self))).
  { intros lr Hlr.
    pose proof (RecommendFacts.init_score_matrix _ _ _ _ Hinit) as (Hpivot & _).
    apply (RecommendFacts.pivot_index _ _ _ Hpivot).
    rewrite Htrain, EvaluateFacts.masked_users.
    unfold users_of. apply in_map_iff. exists lr.
    split; [reflexivity | now apply Hincl]. }
  split.
  - intros lr Hlr. split; [now apply Hknown |].
    destruct (EvaluateFacts.recommend_total sgd train test self
                (subsr_id (snd lr)) N Hinit (Hknown lr Hlr)) as (row & _ & _ & Hrec).
    eauto.
  - destruct (mapM_total (SVDRecommendationModel.evaluate_user self test N)
                         (test_users test)) as (prs & Hprs).
    + intros user Huser. apply EvaluateFacts.in_test_users in Huser as (lr & Hlr & <-).
      destruct (EvaluateFacts.recommend_total sgd train test self
                  (subsr_id (snd lr)) N Hinit (Hknown lr Hlr)) as (row & _ & _ & Hrec).
      unfold SVDRecommendationModel.evaluate_user. rewrite Hrec. cbn [bind]. eauto.
    + rewrite (EvaluateFacts.evaluate_unfold _ _ _ _ Hprs). eauto.
Qed.

Lemma test_users_known_to_matrix_witness :
  Split.split (rng := reversing_state) sample_rating = Ok (sample_train, sample_test) /\
  SVDRecommendationModel.init sample_sgd sample_train sample_test = Ok sample_model /\
  (forall lr, In lr sample_test ->
     In (subsr_id (snd lr))
        (map fst (SVDRecommendationModel.score_matrix sample_model)) /\
     exists top_N,
       SVDRecommendationModel.recommend (sorter := SortFacts.stable_sort)
         sample_model (subsr_id (snd lr)) 10 = Ok top_N) /\
  exists pr,
    SVDRecommendationModel.evaluate (sorter := SortFacts.stable_sort)
      sample_model sample_test 10 = Ok pr.
Proof.
  split; [reflexivity |]. split; [reflexivity |].
  apply (test_users_known_to_matrix reversing_state SortFacts.stable_sort sample_sgd
           sample_rating sample_train sample_test sample_model 10);
    reflexivity.
Defined.

(** ** Precision and recall *)
Module MetricFacts.
Import Pandas NumPy SVDRecommendationModel ListFacts.

Lemma sum_finite (l : list Q) : NumPy.sum (map Some l) = Some (sumQ l).
Proof.
  induction l as [| x xs IH]; cbn; [reflexivity |].
  unfold NumPy.sum in IH. now rewrite IH.
Qed.

Lemma mean_finite (l : list Q) : l <> [] -> mean (map Some l) = Some (meanQ l).
Proof.
  destruct l as [| x xs]; [congruence |]. intros _.
  unfold mean. cbn [map]. rewrite <- (map_cons Some x xs), sum_finite.
  cbn [option_map]. unfold meanQ. now rewrite length_map.
Qed.

Lemma inject_length_succ {A} (x : A) (l : list A) :
  inject_Z (Z.of_nat (length (x :: l))) == 1 + inject_Z (Z.of_nat (length l)).
Proof.
  cbn [length]. rewrite Nat2Z.inj_succ. unfold Z.succ.
  rewrite inject_Z_plus. change (inject_Z 1) with 1. ring.
Qed.

Lemma inject_length_pos {A} (l : list A) :
  l <> [] -> 0 < inject_Z (Z.of_nat (length l)).
Proof.
  destruct l as [| x xs]; [congruence |]. intros _.
  change 0 with (inject_Z 0). rewrite <- Zlt_Qlt. cbn [length]. lia.
Qed.

Lemma sumQ_bounds (l : list Q) :
  Forall (fun x => 0 <= x <= 1) l ->
  0 <= sumQ l <= inject_Z (Z.of_nat (length l)).
Proof.
  induction 1 as [| x xs Hx _ IH].
  - split; apply Qle_refl.
  - rewrite inject_length_succ. cbn [sumQ fold_right]. fold (sumQ xs). lra.
Qed.

Lemma meanQ_bounds (l : list Q) :
  l <> [] -> Forall (fun x => 0 <= x <= 1) l -> 0 <= meanQ l <= 1.
Proof.
  intros Hne Hl. pose proof (inject_length_pos l Hne) as Hpos.
  destruct (sumQ_bounds l Hl) as [H0 H1]. unfold meanQ. split.
  - apply Qle_shift_div_l; [assumption | lra].
  - apply Qle_shift_div_r; [assumption | lra].
Qed.

Lemma sumQ_const (l : list Q) (c : Q) :
  Forall (fun x => x == c) l -> sumQ l == c * inject_Z (Z.of_nat (length l)).
Proof.
  induction 1 as [| x xs Hx _ IH].
  - cbn. ring.
  - rewrite inject_length_succ. cbn [sumQ fold_right]. fold (sumQ xs).
    rewrite IH, Hx. ring.
Qed.

Lemma meanQ_const (l : list Q) (c : Q) :
  l <> [] -> Forall (fun x => x == c) l -> meanQ l == c.
Proof.
  intros Hne Hl. pose proof (inject_length_pos l Hne) as Hpos.
  unfold meanQ. rewrite (sumQ_const l c Hl).
  apply Qdiv_mult_l. lra.
Qed.

(** The set [set(prediction).intersection(set(target))]: no repetition, and
    the values in both lists. *)
Lemma in_hits (target prediction : list Z) (x : Z) :
  In x (hits target prediction) <-> In x target /\ In x prediction.
Proof.
  unfold hits. rewrite filter_In, mem_In.
  rewrite !in_unique by (intros a b; apply Z.eqb_eq). tauto.
Qed.

Lemma NoDup_hits (target prediction : list Z) : NoDup (hits target prediction).
Proof. unfold hits. apply NoDup_filter, NoDup_unique. intros a b. apply Z.eqb_eq. Qed.

Lemma hits_le_prediction (target prediction : list Z) :
  (length (hits target prediction) <= length prediction)%nat.
Proof.
  apply NoDup_incl_length; [apply NoDup_hits |].
  intros x Hx. apply in_hits in Hx. tauto.
Qed.

Lemma hits_le_target (target prediction : list Z) :
  (length (hits target prediction) <= length target)%nat.
Proof.
  apply NoDup_incl_length; [apply NoDup_hits |].
  intros x Hx. apply in_hits in Hx. tauto.
Qed.

Lemma ratio_bounds (a b : nat) : (a <= b)%nat -> (0 < b)%nat -> 0 <= ratio a b <= 1.
Proof.
  intros Hab Hb. unfold ratio.
  assert (H0 : 0 <= inject_Z (Z.of_nat a))
    by (change 0 with (inject_Z 0); rewrite <- Zle_Qle; lia).
  assert (H1 : inject_Z (Z.of_nat a) <= inject_Z (Z.of_nat b))
    by (rewrite <- Zle_Qle; lia).
  assert (H2 : 0 < inject_Z (Z.of_nat b))
    by (change 0 with (inject_Z 0); rewrite <- Zlt_Qlt; lia).
  split.
  - apply Qle_shift_div_l; [assumption | lra].
  - apply Qle_shift_div_r; [assumption | lra].
Qed.

Lemma ratio_zero (b : nat) : ratio 0 b == 0.
Proof. unfold ratio. cbn [Z.of_nat]. unfold Qdiv. change (inject_Z 0) with 0. ring. Qed.

Lemma ratio_one (b : nat) : (0 < b)%nat -> ratio b b == 1.
Proof.
  intros Hb. unfold ratio.
  assert (H : ~ inject_Z (Z.of_nat b) == 0).
  { intros E. unfold Qeq, inject_Z in E. cbn [Qnum Qden] in E. lia. }
  rewrite <- (Qmult_1_l (inject_Z (Z.of_nat b))) at 1. now apply Qdiv_mult_l.
Qed.

Lemma precision_recall_bounds (target prediction : list Z) :
  unit_interval (fst (precision_recall_at_k target prediction)) /\
  unit_interval (snd (precision_recall_at_k target prediction)).
Proof.
  unfold precision_recall_at_k, unit_interval. cbn [fst snd]. split.
  - destruct (Nat.ltb_spec 0 (length prediction)); [| lra].
    apply ratio_bounds; [apply hits_le_prediction | assumption].
  - destruct (Nat.ltb_spec 0 (length target)); [| lra].
    apply ratio_bounds; [apply hits_le_target | assumption].
Qed.

Lemma precision_recall_disjoint (target prediction : list Z) :
  (forall x, In x target -> ~ In x prediction) ->
  fst (precision_recall_at_k target prediction) == 0 /\
  snd (precision_recall_at_k target prediction) == 0.
Proof.
  intros H.
  assert (E : hits target prediction = []).
  { destruct (hits target prediction) as [| x xs] eqn:E; [reflexivity |].
    assert (Hx : In x (hits target prediction)) by (rewrite E; now left).
    apply in_hits in Hx as [Ht Hp]. now apply H in Ht. }
  unfold precision_recall_at_k. rewrite E. cbn [fst snd length]. split.
  - destruct (0 <? length prediction)%nat; [apply ratio_zero | reflexivity].
  - destruct (0 <? length target)%nat; [apply ratio_zero | reflexivity].
Qed.

Lemma precision_recall_equal (target prediction : list Z) :
  NoDup prediction -> Permutation target prediction -> prediction <> [] ->
  fst (precision_recall_at_k target prediction) == 1 /\
  snd (precision_recall_at_k target prediction) == 1.
Proof.
  intros Hnd Hperm Hne.
  assert (E : hits target prediction = prediction).
  { unfold hits. rewrite (unique_NoDup Z Z.eqb Z.eqb_eq prediction Hnd).
    apply forallb_filter_id. apply forallb_forall. intros x Hx.
    apply mem_In. apply in_unique; [intros a b; apply Z.eqb_eq |].
    eapply Permutation_in; [symmetry; exact Hperm | assumption]. }
  assert (Hlen : length target = length prediction) by now apply Permutation_length.
  assert (Hpos : (0 < length prediction)%nat).
  { destruct prediction; [congruence | cbn; lia]. }
  unfold precision_recall_at_k. rewrite E, Hlen. cbn [fst snd].
  destruct (Nat.ltb_spec 0 (length prediction)); [| lia].
  split; now apply ratio_one.
Qed.
End MetricFacts.

(** ** The Evaluator *)
Module EvaluatorFacts.
Import Pandas NumPy Surprise SVDRecommendationModel ListFacts RecommendFacts.
Import EvaluateFacts MetricFacts.

Lemma NoDup_candidate_set {R} (row : series R) :
  NoDup (map fst row) -> NoDup (candidate_set row).
Proof.
  unfold candidate_set. induction row as [| [i v] rest IH]; cbn [map filter fst snd];
    intros H; [constructor |].
  apply NoDup_cons_iff in H as [Hi Hrest].
  destruct v; cbn [map fst]; [now apply IH |].
  apply NoDup_cons; [| now apply IH].
  intros Hin. apply Hi. apply in_map_iff in Hin as (iv & <- & Hiv).
  apply in_map. apply filter_In in Hiv. tauto.
Qed.

Section Evaluator.
Context {sorter : SortValues}.

Lemma evaluate_inv (self : t) (test : frame Q) (N : Z) (mp mr : float) :
  evaluate self test N = Ok (mp, mr) ->
  exists prs,
    per_user self test N prs /\
    mp = mean (map Some (map fst prs)) /\ mr = mean (map Some (map snd prs)).
Proof.
  unfold evaluate. fold (test_users test). intros H.
  apply bind_ok_inv in H as (prs & Hprs & [= <- <-]).
  exists prs. rewrite !map_map. split; [| split; reflexivity].
  apply mapM_ok_inv in Hprs. eapply Forall2_impl; [| exact Hprs].
  intros user pr Hpr. now apply evaluate_user_inv.
Qed.

Lemma test_users_nonempty (test : frame Q) : test <> [] -> test_users test <> [].
Proof.
  intros Hne E. apply unique_nil_inv in E. destruct test; [congruence | discriminate].
Qed.

Lemma per_user_nonempty (self : t) (test : frame Q) (N : Z) (prs : list (Q * Q)) :
  test <> [] -> per_user self test N prs -> prs <> [].
Proof.
  intros Hne H E. subst prs. inversion H as [E |].
  now apply (test_users_nonempty test Hne).
Qed.

Lemma per_user_all (P : Q * Q -> Prop) (self : t) (test : frame Q) (N : Z)
  (prs : list (Q * Q)) :
  per_user self test N prs ->
  (forall user top_N,
      In user (test_users test) -> recommend self user N = Ok top_N ->
      P (precision_recall_at_k (targets_of test user) (map fst top_N))) ->
  Forall P prs.
Proof.
  unfold per_user. intros H HP.
  induction H as [| user pr users prs (top_N & Hrec & ->) _ IH]; constructor.
  - apply (HP user top_N); [now left | assumption].
  - apply IH. intros u tn Hu. apply HP. now right.
Qed.

(** A list returned by [recommend] has no repeated item. *)
Lemma recommend_NoDup (sgd : trainset -> svd_params) (train test : frame Q)
  (self : t) (user N : Z) (top_N : list (Z * Q)) :
  init sgd train test = Ok self ->
  recommend self user N = Ok top_N -> NoDup (map fst top_N).
Proof.
  intros Hinit Hrec.
  destruct (in_dec Z.eq_dec user (map fst (score_matrix self))) as [Hin | Hout].
  - destruct (recommend_total sgd train test self user N Hinit Hin)
      as (row & _ & Hnd & Heq).
    rewrite Heq in Hrec. injection Hrec as <-.
    apply top_N_NoDup. now apply NoDup_candidate_set.
  - rewrite (recommend_unknown self user N Hout) in Hrec. discriminate.
Qed.

Lemma Forall_fst (P : Q -> Prop) (prs : list (Q * Q)) :
  Forall (fun pr => P (fst pr) /\ P (snd pr)) prs ->
  Forall P (map fst prs) /\ Forall P (map snd prs).
Proof.
  induction 1 as [| pr prs [H1 H2] _ [IH1 IH2]]; cbn; split; constructor; assumption.
Qed.
(** [evaluate] returns on a frame whose subscribers are rows of the rating
    matrix. *)
Lemma evaluate_returns (sgd : trainset -> svd_params) (train test0 test : frame Q)
  (self : t) (N : Z) :
  init sgd train test0 = Ok self ->
  (forall lr, In lr test -> In (subsr_id (snd lr)) (map fst (score_matrix self))) ->
  exists prs,
    mapM (evaluate_user self test N) (test_users test) = Ok prs /\
    evaluate self test N
    = Ok (mean (map Some (map fst prs)), mean (map Some (map snd prs))).
Proof.
  intros Hinit Hknown.
  destruct (mapM_total (evaluate_user self test N) (test_users test)) as (prs & Hprs).
  - intros user Huser. apply in_test_users in Huser as (lr & Hlr & <-).
    destruct (recommend_total sgd train test0 self (subsr_id (snd lr)) N Hinit
                (Hknown lr Hlr)) as (row & _ & _ & Hrec).
    unfold evaluate_user. rewrite Hrec. cbn [bind]. eauto.
  - exists prs. split; [assumption |].
    rewrite (evaluate_unfold _ _ _ _ Hprs), !map_map. reflexivity.
Qed.

(** The averages of the per-user values of a non-empty frame. *)
Lemma per_user_averages (sgd : trainset -> svd_params) (train test0 test : frame Q)
  (self : t) (N : Z) (prs : list (Q * Q)) :
  init sgd train test0 = Ok self ->
  test <> [] ->
  per_user self test N prs ->
  (0 <= meanQ (map fst prs) <= 1 /\ 0 <= meanQ (map snd prs) <= 1) /\
  (disjoint_for_every_user self test N ->
   meanQ (map fst prs) == 0 /\ meanQ (map snd prs) == 0) /\
  (equal_for_every_user self test N ->
   meanQ (map fst prs) == 1 /\ meanQ (map snd prs) == 1).
Proof.
  intros Hinit Hne Hprs.
  pose proof (per_user_nonempty self test N prs Hne Hprs) as Hprs_ne.
  assert (Hfst : map fst prs <> []) by (destruct prs; [congruence | discriminate]).
  assert (Hsnd : map snd prs <> []) by (destruct prs; [congruence | discriminate]).
  split; [| split].
  - assert (Hbounds : Forall (fun pr => unit_interval (fst pr) /\
                                        unit_interval (snd pr)) prs).
    { apply (per_user_all _ self test N prs Hprs).
      intros user top_N _ _. apply precision_recall_bounds. }
    apply Forall_fst in Hbounds as [Hb1 Hb2].
    split; now apply meanQ_bounds.
  - intros Hdis.
    assert (H0 : Forall (fun pr => fst pr == 0 /\ snd pr == 0) prs).
    { apply (per_user_all _ self test N prs Hprs).
      intros user top_N Hu Hrec. apply precision_recall_disjoint.
      now apply (Hdis user top_N). }
    apply (Forall_fst (fun x => x == 0)) in H0 as [H1 H2].
    split; now apply meanQ_const.
  - intros Heq.
    assert (H1 : Forall (fun pr => fst pr == 1 /\ snd pr == 1) prs).
    { apply (per_user_all _ self test N prs Hprs).
      intros user top_N Hu Hrec.
      pose proof (Heq user top_N Hu Hrec) as Hperm.
      apply precision_recall_equal; [| assumption |].
      - eapply recommend_NoDup; eauto.
      - intros E. rewrite E in Hperm. apply Permutation_sym, Permutation_nil in Hperm.
        now apply (targets_nonempty test user Hu). }
    apply (Forall_fst (fun x => x == 1)) in H1 as [H2 H3].
    split; now apply meanQ_const.
Qed.
End Evaluator.
End EvaluatorFacts.

(** C4.  For every target and prediction list the hits are the distinct
    values in both, precision is hits / |predictions| (0 for no prediction)
    and recall is hits / |targets| (0 for no target).  On a Test frame that
    is not empty and whose subscribers are rows of the rating matrix (the
    Test frame of a split is both) [evaluate] returns two numbers: the
    arithmetic means, over the distinct subscribers of Test, of the per-user
    precision and of the per-user recall of the list [recommend] returns.
    Both lie in [0,1], both are 0 when predictions and targets are disjoint
    for every user, and both are 1 when they are equal for every user. *)
Theorem evaluate_macro_average
  (sorter : Pandas.SortValues) (sgd : Surprise.trainset -> Surprise.svd_params)
  (train test0 test : Pandas.frame Q) (self : SVDRecommendationModel.t) (N : Z) :
  SVDRecommendationModel.init sgd train test0 = Ok self ->
  test <> [] ->
  (forall lr, In lr test ->
     In (subsr_id (snd lr)) (map fst (SVDRecommendationModel.score_matrix self))) ->
  (forall target prediction,
      NoDup (SVDRecommendationModel.hits target prediction) /\
      (forall x, In x (SVDRecommendationModel.hits target prediction)
                 <-> In x target /\ In x prediction) /\
      SVDRecommendationModel.precision_recall_at_k target prediction
      = (match prediction with
         | [] => 0
         | _ => SVDRecommendationModel.ratio
                  (length (SVDRecommendationModel.hits target prediction))
                  (length prediction)
         end,
         match target with
         | [] => 0
         | _ => SVDRecommendationModel.ratio
                  (length (SVDRecommendationModel.hits target prediction))
                  (length target)
         end)) /\
  exists prs precision recall,
    SVDRecommendationModel.evaluate self test N = Ok (Some precision, Some recall) /\
    per_user self test N prs /\
    precision = meanQ (map fst prs) /\
    recall = meanQ (map snd prs) /\
    0 <= precision <= 1 /\ 0 <= recall <= 1 /\
    (disjoint_for_every_user self test N -> precision == 0 /\ recall == 0) /\
    (equal_for_every_user self test N -> precision == 1 /\ recall == 1).
Proof.
  intros Hinit Hne Hknown. split.
  - intros target prediction.
    split; [apply MetricFacts.NoDup_hits |].
    split; [apply MetricFacts.in_hits |].
    unfold SVDRecommendationModel.precision_recall_at_k.
    destruct prediction, target; reflexivity.
  - destruct (EvaluatorFacts.evaluate_returns sgd train test0 test self N Hinit Hknown)
      as (prs & Hmap & Heval).
    assert (Hprs : per_user self test N prs).
    { apply mapM_ok_inv in Hmap. eapply Forall2_impl; [| exact Hmap].
      intros user pr Hpr. now apply EvaluateFacts.evaluate_user_inv. }
    pose proof (EvaluatorFacts.per_user_nonempty self test N prs Hne Hprs) as Hprs_ne.
    destruct (EvaluatorFacts.per_user_averages sgd train test0 test self N prs
                Hinit Hne Hprs) as ((Hp & Hr) & Hdis & Heq).
    exists prs, (meanQ (map fst prs)), (meanQ (map snd prs)).
    split.
    { rewrite Heval, !MetricFacts.mean_finite; [reflexivity | |];
        destruct prs; (congruence || discriminate). }
    repeat (split; [first [assumption | reflexivity] |]). assumption.
Qed.

Lemma evaluate_macro_average_witness :
  SVDRecommendationModel.init sample_sgd sample_train sample_test = Ok sample_model /\
  sample_test <> [] /\
  (forall lr, In lr sample_test ->
     In (subsr_id (snd lr))
        (map fst (SVDRecommendationModel.score_matrix sample_model))) /\
  SVDRecommendationModel.evaluate (sorter := SortFacts.stable_sort)
    sample_model sample_test 10 = Ok (Some (1 # 2), Some 1) /\
  exists precision recall,
    SVDRecommendationModel.evaluate (sorter := SortFacts.stable_sort)
      sample_model sample_test 10 = Ok (Some precision, Some recall) /\
    0 <= precision <= 1 /\ 0 <= recall <= 1.
Proof.
  assert (Hne : sample_test <> []) by discriminate.
  assert (Hknown : forall lr, In lr sample_test ->
            In (subsr_id (snd lr))
               (map fst (SVDRecommendationModel.score_matrix sample_model))).
  { intros lr [<- | []]. cbn. auto. }
  split; [reflexivity |]. split; [exact Hne |]. split; [exact Hknown |].
  split; [vm_compute; reflexivity |].
  destruct (evaluate_macro_average SortFacts.stable_sort sample_sgd
              sample_train sample_test sample_test sample_model 10
              eq_refl Hne Hknown)
    as (_ & prs & precision & recall & Heval & _ & _ & _ & Hp & Hr & _).
  exists precision, recall. split; [exact Heval |]. split; assumption.
Defined.

(** ** Surprise: the trainset, the global mean and the predictions *)
Module SurpriseFacts.
Import Pandas NumPy Surprise ListFacts.

Lemma feq_refl (a : float) : feq a a.
Proof. destruct a; cbn; [reflexivity | exact I]. Qed.

Lemma feq_trans (a b c : float) : feq a b -> feq b c -> feq a c.
Proof.
  destruct a, b, c; cbn; try tauto. intros H1 H2. now rewrite H1.
Qed.

Lemma fadd_feq (x a b : float) : feq a b -> feq (fadd x a) (fadd x b).
Proof.
  destruct x, a, b; cbn; try tauto. intros H. now rewrite H.
Qed.

Lemma fadd_swap (x y s : float) : feq (fadd x (fadd y s)) (fadd y (fadd x s)).
Proof. destruct x, y, s; cbn; try exact I. ring. Qed.

Lemma sum_perm (l l' : list float) :
  Permutation l l' -> feq (NumPy.sum l) (NumPy.sum l').
Proof.
  induction 1 as [| x l l' _ IH | x y l | l l' l'' _ IH1 _ IH2]; cbn.
  - reflexivity.
  - now apply fadd_feq.
  - apply fadd_swap.
  - eapply feq_trans; eauto.
Qed.

Lemma mean_perm (l l' : list float) :
  Permutation l l' -> feq (mean l) (mean l').
Proof.
  intros H. pose proof (sum_perm l l' H) as Hs.
  pose proof (Permutation_length H) as Hlen.
  unfold mean. destruct l as [| x xs], l' as [| y ys]; try discriminate.
  - exact I.
  - rewrite Hlen.
    destruct (NumPy.sum (x :: xs)), (NumPy.sum (y :: ys)); cbn in *; try tauto.
    now rewrite Hs.
Qed.

(** Over the rationals of the model (fractions that are never reduced) a
    sum does not depend on the order of its terms, as a fraction. *)
Lemma Qplus_swap (x y s : Q) : (x + (y + s) = y + (x + s))%Q.
Proof.
  unfold Qplus. cbn [Qnum Qden]. f_equal; [| lia].
  rewrite !Pos2Z.inj_mul. ring.
Qed.

Lemma sum_regrouped (l l' : list float) :
  Permutation l l' -> NumPy.sum l = NumPy.sum l'.
Proof.
  induction 1 as [| x l l' _ IH | x y l | l l' l'' _ IH1 _ IH2]; cbn.
  - reflexivity.
  - unfold NumPy.sum in IH. now rewrite IH.
  - destruct x as [x |], y as [y |], (fold_right fadd (Some 0) l) as [s |];
      cbn; try reflexivity.
    f_equal. apply Qplus_swap.
  - congruence.
Qed.

Lemma mean_regrouped (l l' : list float) :
  Permutation l l' -> mean l = mean l'.
Proof.
  intros H. pose proof (sum_regrouped l l' H) as Hs.
  pose proof (Permutation_length H) as Hlen.
  unfold mean. destruct l as [| x xs], l' as [| y ys]; try discriminate.
  - reflexivity.
  - now rewrite Hlen, Hs.
Qed.

(** Filtering by two tests that never hold together splits a list. *)
Lemma filter_either {A} (f g : A -> bool) (l : list A) :
  (forall x, In x l -> f x = true -> g x = false) ->
  Permutation (filter f l ++ filter g l) (filter (fun x => f x || g x) l).
Proof.
  induction l as [| x xs IH]; intros H; cbn [filter]; [constructor |].
  assert (IH' := IH (fun y Hy => H y (or_intror Hy))).
  destruct (f x) eqn:Ef; cbn [orb].
  - rewrite (H x (or_introl eq_refl) Ef). cbn. now apply perm_skip.
  - destruct (g x); [| assumption].
    rewrite <- Permutation_middle. now apply perm_skip.
Qed.

Lemma grouped_by_user (raw : list rating) (users : list Z) :
  NoDup users ->
  Permutation (flat_map (fun u => filter (fun r => (uid r =? u)%Z) raw) users)
              (filter (fun r => mem (uid r) users) raw).
Proof.
  induction 1 as [| u users Hu _ IH]; cbn [flat_map].
  - cbn. induction raw as [| r rs IHr]; cbn; [constructor | assumption].
  - rewrite IH.
    rewrite filter_either.
    + apply Permutation_refl'. apply filter_ext. intros r. unfold mem. cbn [existsb].
      reflexivity.
    + intros r _ Hr. apply Z.eqb_eq in Hr. apply mem_false. now rewrite Hr.
Qed.

(** [all_ratings] enumerates every rating once. *)
Lemma all_ratings_perm (raw : list rating) : Permutation (all_ratings raw) raw.
Proof.
  unfold all_ratings. rewrite grouped_by_user.
  - apply Permutation_refl'. apply forallb_filter_id. apply forallb_forall.
    intros r Hr. apply mem_In. apply in_unique; [intros a b; apply Z.eqb_eq |].
    now apply in_map.
  - apply NoDup_unique. intros a b. apply Z.eqb_eq.
Qed.

Lemma clip_bounds (est : float) : 0 <= clip est <= 1.
Proof.
  destruct est as [e |]; cbn [clip]; [| lra].
  split.
  - apply Q.le_max_l.
  - apply Q.max_lub; [lra | apply Q.le_min_l].
Qed.

Lemma knows_user_spec (ts : trainset) (u : Z) :
  knows_user ts u = true <-> exists r, In r ts /\ uid r = u.
Proof.
  unfold knows_user. rewrite existsb_exists.
  split; intros (r & Hr & Hu); exists r; (split; [assumption |]); now apply Z.eqb_eq.
Qed.

Lemma knows_item_spec (ts : trainset) (i : Z) :
  knows_item ts i = true <-> exists r, In r ts /\ iid r = i.
Proof.
  unfold knows_item. rewrite existsb_exists.
  split; intros (r & Hr & Hi); exists r; (split; [assumption |]); now apply Z.eqb_eq.
Qed.

(** The four cases of [estimate] once the global mean is a number. *)
Lemma estimate_cases (m : SVD) (u i : Z) (mu : Q) :
  global_mean (svd_trainset m) = Some mu ->
  estimate m u i
  = Some (match knows_user (svd_trainset m) u, knows_item (svd_trainset m) i with
          | true, true =>
              mu + bu (svd_params_of m) u + bi (svd_params_of m) i
              + dot (qi (svd_params_of m) i) (pu (svd_params_of m) u)
          | true, false => mu + bu (svd_params_of m) u
          | false, true => mu + bi (svd_params_of m) i
          | false, false => mu
          end).
Proof.
  intros H. unfold estimate. rewrite H.
  destruct (knows_user _ u), (knows_item _ i); reflexivity.
Qed.
End SurpriseFacts.

(** ** The claims on [predict] and [calculate_rmse] *)

Lemma fitted_trainset (sgd : Surprise.trainset -> Surprise.svd_params)
  (train test : Pandas.frame Q) (self : SVDRecommendationModel.t) :
  SVDRecommendationModel.init sgd train test = Ok self ->
  Permutation (Surprise.svd_trainset (SVDRecommendationModel.model self))
              (Surprise.load_from_df (Pandas.dropna train)).
Proof.
  intros H. apply RecommendFacts.init_score_matrix in H as (_ & -> & _).
  cbn. apply SurpriseFacts.all_ratings_perm.
Qed.

(** C3, as the code has it: [predict] never raises and returns a value of
    [0,1].  With mu the global mean of the ratings of the training rows, it
    is the clipping to [0,1] of mu + bu[user] + bi[item] + dot(qi[item],
    pu[user]) when user and item were both seen in training, of
    mu + bu[user] when only the user was, of mu + bi[item] when only the
    item was, and of mu when neither was. *)
Theorem predict_by_cases
  (sgd : Surprise.trainset -> Surprise.svd_params)
  (train test : Pandas.frame Q) (self : SVDRecommendationModel.t) (user item : Z) :
  SVDRecommendationModel.init sgd train test = Ok self ->
  let ts := Surprise.svd_trainset (SVDRecommendationModel.model self) in
  let params := Surprise.svd_params_of (SVDRecommendationModel.model self) in
  0 <= SVDRecommendationModel.predict self user item <= 1 /\
  feq (Surprise.global_mean ts) (NumPy.mean (train_ratings train)) /\
  (Surprise.knows_user ts user = true <->
   exists lr, In lr (Pandas.dropna train) /\ subsr_id (snd lr) = user) /\
  (Surprise.knows_item ts item = true <->
   exists lr, In lr (Pandas.dropna train) /\ program_id (snd lr) = item) /\
  forall mu,
    Surprise.global_mean ts = Some mu ->
    SVDRecommendationModel.predict self user item
    = clip01 (match Surprise.knows_user ts user, Surprise.knows_item ts item with
              | true, true =>
                  mu + Surprise.bu params user + Surprise.bi params item
                  + NumPy.dot (Surprise.qi params item) (Surprise.pu params user)
              | true, false => mu + Surprise.bu params user
              | false, true => mu + Surprise.bi params item
              | false, false => mu
              end).
Proof.
  intros Hinit ts params.
  pose proof (fitted_trainset sgd train test self Hinit) as Hperm. fold ts in Hperm.
  split; [apply SurpriseFacts.clip_bounds |].
  split.
  { unfold Surprise.global_mean, train_ratings.
    eapply SurpriseFacts.feq_trans.
    - apply SurpriseFacts.mean_perm, Permutation_map, Hperm.
    - unfold Surprise.load_from_df. rewrite map_map. cbn.
      apply SurpriseFacts.feq_refl. }
  split.
  { rewrite SurpriseFacts.knows_user_spec. split.
    - intros (r & Hr & Hu). apply (Permutation_in _ Hperm) in Hr.
      apply in_map_iff in Hr as (lr & <- & Hlr). eauto.
    - intros (lr & Hlr & Hu).
      exists (subsr_id (snd lr), program_id (snd lr), use_tms_ratio (snd lr)).
      split; [| exact Hu].
      apply (Permutation_in _ (Permutation_sym Hperm)).
      apply in_map_iff. eauto. }
  split.
  { rewrite SurpriseFacts.knows_item_spec. split.
    - intros (r & Hr & Hi). apply (Permutation_in _ Hperm) in Hr.
      apply in_map_iff in Hr as (lr & <- & Hlr). eauto.
    - intros (lr & Hlr & Hi).
      exists (subsr_id (snd lr), program_id (snd lr), use_tms_ratio (snd lr)).
      split; [| exact Hi].
      apply (Permutation_in _ (Permutation_sym Hperm)).
      apply in_map_iff. eauto. }
  intros mu Hmu.
  unfold SVDRecommendationModel.predict, Surprise.predict.
  rewrite (SurpriseFacts.estimate_cases _ user item mu Hmu). reflexivity.
Qed.

Lemma predict_by_cases_witness :
  SVDRecommendationModel.init sample_sgd sample_train sample_test = Ok sample_model /\
  0 <= SVDRecommendationModel.predict sample_model 9 10 <= 1 /\
  SVDRecommendationModel.predict sample_model 9 10 == 29 # 40.
Proof.
  split; [reflexivity |].
  destruct (predict_by_cases sample_sgd sample_train sample_test sample_model 9 10
              eq_refl) as (Hbounds & _ & _ & _ & Hcases).
  split; [exact Hbounds |].
  rewrite (Hcases (10 # 16) eq_refl). vm_compute. reflexivity.
Defined.

(** Subscriber 1 and program 10 were both seen in training: the prediction
    is 5/8 + 1/20 + 1/10 + (1/5)(1/2) = 7/8. *)
Example predict_sample_seen :
  SVDRecommendationModel.predict sample_model 1 10 == 7 # 8.
Proof. vm_compute. reflexivity. Qed.

(** C3 as stated fails: user 9 is unseen in training and item 10 is seen;
    the prediction is the global mean 5/8 plus the bias 1/10 of the item, not
    the global mean. *)
Lemma predict_cold_start_counterexample :
  Surprise.knows_user (Surprise.svd_trainset (SVDRecommendationModel.model sample_model))
                      9 = false /\
  exists mu,
    Surprise.global_mean (Surprise.svd_trainset (SVDRecommendationModel.model sample_model))
    = Some mu /\
    mu == 5 # 8 /\
    ~ SVDRecommendationModel.predict sample_model 9 10 == mu.
Proof.
  split; [reflexivity |].
  exists (10 # 16). split; [reflexivity |]. split; [reflexivity |].
  vm_compute. discriminate.
Qed.

(** The squared errors [accuracy.rmse] averages, on the rows of a frame in
    which every row has a rating. *)
Lemma squared_errors_of_rated (self : SVDRecommendationModel.t) (test : Pandas.frame Q) :
  (forall lr, In lr test -> Pandas.notna (snd lr) = true) ->
  map Surprise.squared_error
      (Surprise.test (SVDRecommendationModel.model self) (Surprise.load_from_df test))
  = map Some (map (squared_difference self) test).
Proof.
  intros Hrated. unfold Surprise.test, Surprise.load_from_df. rewrite !map_map.
  apply map_ext_in. intros lr Hlr. specialize (Hrated lr Hlr).
  unfold Pandas.notna in Hrated.
  unfold Surprise.squared_error, squared_difference, true_rating, predicted_rating,
    SVDRecommendationModel.predict, Surprise.uid, Surprise.iid, Surprise.r_ui.
  cbn [fst snd].
  destruct (use_tms_ratio (snd lr)) as [r |]; [reflexivity | discriminate].
Qed.

(** C7: on an empty Test frame [calculate_rmse] fails ([accuracy.rmse]
    raises ValueError on an empty list of predictions); on a non-empty Test
    frame, every row of which has a rating, it returns one float: the square
    root ([numpy.sqrt]) of the mean over the rows of Test of
    (true rating - predicted rating)^2. *)
Theorem calculate_rmse_spec
  (np_sqrt : Q -> Q) (sgd : Surprise.trainset -> Surprise.svd_params)
  (train test : Pandas.frame Q) (self : SVDRecommendationModel.t) :
  SVDRecommendationModel.init sgd train test = Ok self ->
  (test = [] -> SVDRecommendationModel.calculate_rmse np_sqrt self = Raise ValueError) /\
  (test <> [] ->
   (forall lr, In lr test -> Pandas.notna (snd lr) = true) ->
   SVDRecommendationModel.calculate_rmse np_sqrt self
   = Ok (Some (np_sqrt (mean_squared_error self test)))).
Proof.
  intros Hinit.
  pose proof (RecommendFacts.init_score_matrix _ _ _ _ Hinit) as (_ & _ & Htest).
  unfold SVDRecommendationModel.calculate_rmse. rewrite Htest.
  unfold Surprise.build_testset, Surprise.build_full_trainset.
  pose proof (SurpriseFacts.all_ratings_perm (Surprise.load_from_df test)) as Hperm.
  split.
  - intros ->. reflexivity.
  - intros Hne Hrated.
    assert (Hmean :
      NumPy.mean (map Surprise.squared_error
                    (Surprise.test (SVDRecommendationModel.model self)
                       (Surprise.all_ratings (Surprise.load_from_df test))))
      = Some (mean_squared_error self test)).
    { rewrite (SurpriseFacts.mean_regrouped _
                 (map Surprise.squared_error
                    (Surprise.test (SVDRecommendationModel.model self)
                       (Surprise.load_from_df test)))).
      - rewrite (squared_errors_of_rated self test Hrated).
        rewrite MetricFacts.mean_finite.
        + unfold meanQ, mean_squared_error. now rewrite length_map.
        + destruct test; [congruence | discriminate].
      - apply Permutation_map. unfold Surprise.test. now apply Permutation_map. }
    unfold Surprise.rmse.
    destruct (Surprise.test (SVDRecommendationModel.model self)
                (Surprise.all_ratings (Surprise.load_from_df test))) as [| p ps] eqn:E.
    + cbn in Hmean. discriminate.
    + now rewrite Hmean.
Qed.

Lemma calculate_rmse_spec_witness :
  SVDRecommendationModel.init sample_sgd sample_train sample_test = Ok sample_model /\
  sample_test <> [] /\
  (forall lr, In lr sample_test -> Pandas.notna (snd lr) = true) /\
  mean_squared_error sample_model sample_test == 169 # 1600 /\
  SVDRecommendationModel.calculate_rmse approx_sqrt sample_model
  = Ok (Some (approx_sqrt (mean_squared_error sample_model sample_test))).
Proof.
  assert (Hne : sample_test <> []) by discriminate.
  assert (Hrated : forall lr, In lr sample_test -> Pandas.notna (snd lr) = true).
  { intros lr [<- | []]. reflexivity. }
  split; [reflexivity |]. split; [exact Hne |]. split; [exact Hrated |].
  split; [vm_compute; reflexivity |].
  exact (proj2 (calculate_rmse_spec approx_sqrt sample_sgd sample_train sample_test
                  sample_model eq_refl) Hne Hrated).
Defined.

Example rmse_sample :
  SVDRecommendationModel.calculate_rmse approx_sqrt sample_model
  = Ok (Some (33280000 # 102400000)).
Proof. vm_compute. reflexivity. Qed.

(** ** The Interaction Extractor *)
Module ExtractorFacts.
Import Pandas Extractor ListFacts.

Lemma nanmax_fold (l : list (option fval)) : nanmax l = fold_left nanmax_step l None.
Proof. reflexivity. Qed.

Lemma nanmax_step_top (x : option fval) : nanmax_step (Some PInf) x = Some PInf.
Proof. destruct x as [[| q |] |]; reflexivity. Qed.

Lemma nanmax_step_reach_top (acc : option fval) : nanmax_step acc (Some PInf) = Some PInf.
Proof. destruct acc as [[| q |] |]; reflexivity. Qed.

Lemma fold_from_top (l : list (option fval)) :
  fold_left nanmax_step l (Some PInf) = Some PInf.
Proof.
  induction l as [| x xs IH]; cbn [fold_left]; [reflexivity |].
  now rewrite nanmax_step_top.
Qed.

(** A group that holds +infinity has maximum +infinity. *)
Lemma nanmax_top (l : list (option fval)) : In (Some PInf) l -> nanmax l = Some PInf.
Proof.
  rewrite nanmax_fold. generalize (@None fval) as acc.
  induction l as [| x xs IH]; intros acc Hin; [contradiction |].
  cbn [fold_left]. destruct Hin as [-> | Hin].
  - rewrite nanmax_step_reach_top. apply fold_from_top.
  - now apply IH.
Qed.

Lemma same_pair_spec {R} (u i : Z) (r : interaction R) :
  same_pair u i r = true <-> subsr_id r = u /\ program_id r = i.
Proof. unfold same_pair. now rewrite andb_true_iff, !Z.eqb_eq. Qed.

Lemma in_groupby_max (rows : list (interaction fval)) (r : interaction fval) :
  In r rows ->
  In (mkInteraction (subsr_id r) (program_id r)
        (nanmax (map (@use_tms_ratio fval)
                     (filter (same_pair (subsr_id r) (program_id r)) rows))))
     (groupby_max rows).
Proof.
  intros H. unfold groupby_max.
  apply in_map_iff. exists (pair_of r). split; [reflexivity |].
  apply in_sorted_pairs. now apply in_map.
Qed.

Lemma in_merge_left (left : list (Z * Z)) (right : list (interaction fval))
  (u i : Z) (v : option fval) :
  In (u, i) left -> In (mkInteraction u i v) right ->
  In (mkInteraction u i v) (merge_left left right).
Proof.
  intros Hl Hr. unfold merge_left. apply in_flat_map. exists (u, i).
  split; [assumption |]. cbn [fst snd].
  assert (Hm : In (mkInteraction u i v) (filter (same_pair u i) right)).
  { apply filter_In. split; [assumption |]. now apply same_pair_spec. }
  destruct (filter (same_pair u i) right) as [| m ms]; [contradiction |].
  apply in_map_iff. exists (mkInteraction u i v). split; [reflexivity | assumption].
Qed.

Lemma merge_left_keys (left : list (Z * Z)) (right : list (interaction fval))
  (u i : Z) :
  In (u, i) left -> In (u, i) (map (@pair_of fval) (merge_left left right)).
Proof.
  intros Hl. unfold merge_left. apply in_map_iff.
  destruct (filter (same_pair u i) right) as [| m ms] eqn:E.
  - exists (mkInteraction u i None). split; [reflexivity |].
    apply in_flat_map. exists (u, i). split; [assumption |]. cbn [fst snd].
    rewrite E. now left.
  - exists (mkInteraction u i (use_tms_ratio m)). split; [reflexivity |].
    apply in_flat_map. exists (u, i). split; [assumption |]. cbn [fst snd].
    rewrite E. now left.
Qed.

Lemma true_divide_zero_runtime (a : Z) :
  true_divide a 0
  = if (0 <? a)%Z then Some PInf else if (a <? 0)%Z then Some NInf else None.
Proof. reflexivity. Qed.

Lemma true_divide_nonzero_runtime (a b : Z) :
  b <> 0%Z -> true_divide a b = Some (Fin (inject_Z a / inject_Z b)).
Proof.
  intros H. unfold true_divide. destruct (Z.eqb_spec b 0); [contradiction | reflexivity].
Qed.

Section Extract.
Variable vod_log : list vod_row.
Variable cont_log : list cont_row.

Lemma vod_pair_in_rating (r : vod_row) :
  In r vod_log -> v_e_bool r = 0%Z ->
  In (v_subsr_id r, v_program_id r)
     (unique pair_eqb
        (map (@pair_of fval)
             (map vod_ratio (filter (fun r => (v_e_bool r =? 0)%Z) vod_log))
         ++ map (fun r => (c_subsr_id r, c_program_id r))
                (filter (fun r => (c_e_bool r =? 0)%Z) cont_log))).
Proof.
  intros Hin He. apply in_unique; [exact pair_eqb_spec |].
  apply in_or_app. left. rewrite map_map.
  apply in_map_iff. exists r. split; [reflexivity |].
  apply filter_In. split; [assumption |]. now apply Z.eqb_eq.
Qed.

(** A kept watch event with zero runtime and positive watched time makes
    the rating of its pair +infinity. *)
Lemma infinite_rating (r : vod_row) :
  In r vod_log -> v_e_bool r = 0%Z -> disp_rtm_sec r = 0%Z -> (0 < use_tms r)%Z ->
  In (mkInteraction (v_subsr_id r) (v_program_id r) (Some PInf))
     (extract vod_log cont_log).
Proof.
  intros Hin He Hd Hu. unfold extract.
  apply in_merge_left; [now apply vod_pair_in_rating |].
  set (ratios := map vod_ratio (filter (fun r => (v_e_bool r =? 0)%Z) vod_log)).
  assert (Hr : In (vod_ratio r) ratios).
  { apply in_map, filter_In. split; [assumption |]. now apply Z.eqb_eq. }
  assert (Hv : use_tms_ratio (vod_ratio r) = Some PInf).
  { cbn. rewrite Hd, true_divide_zero_runtime.
    destruct (Z.ltb_spec 0 (use_tms r)); [reflexivity | lia]. }
  pose proof (in_groupby_max ratios (vod_ratio r) Hr) as Hg.
  cbn [vod_ratio subsr_id program_id] in Hg.
  rewrite nanmax_top in Hg; [exact Hg |].
  rewrite <- Hv. apply in_map, filter_In. split; [assumption |].
  now apply same_pair_spec.
Qed.

Lemma kept_pair_in_output (r : vod_row) :
  In r vod_log -> v_e_bool r = 0%Z ->
  In (v_subsr_id r, v_program_id r) (map (@pair_of fval) (extract vod_log cont_log)).
Proof.
  intros Hin He. unfold extract. apply merge_left_keys.
  now apply vod_pair_in_rating.
Qed.
End Extract.
End ExtractorFacts.

(** C6, as the code has it: a kept watch event whose display runtime is not
    positive makes the Interaction Extractor fail in no way; its pair is in the
    output.  With runtime 0 the ratio of the event is +infinity, -infinity or
    NaN as the watched time is positive, negative or zero, and in the first
    case the rating of the pair is +infinity; with a negative runtime the
    ratio is the quotient watched / runtime. *)
Theorem extract_nonpositive_runtime
  (vod_log : list Extractor.vod_row) (cont_log : list Extractor.cont_row)
  (r : Extractor.vod_row) :
  In r vod_log -> Extractor.v_e_bool r = 0%Z -> (Extractor.disp_rtm_sec r <= 0)%Z ->
  In (Extractor.v_subsr_id r, Extractor.v_program_id r)
     (map (@Pandas.pair_of Extractor.fval) (Extractor.extract vod_log cont_log)) /\
  (Extractor.disp_rtm_sec r = 0%Z ->
   use_tms_ratio (Extractor.vod_ratio r)
   = (if (0 <? Extractor.use_tms r)%Z then Some Extractor.PInf
      else if (Extractor.use_tms r <? 0)%Z then Some Extractor.NInf
      else None) /\
   ((0 < Extractor.use_tms r)%Z ->
    In (mkInteraction (Extractor.v_subsr_id r) (Extractor.v_program_id r)
                      (Some Extractor.PInf))
       (Extractor.extract vod_log cont_log))) /\
  ((Extractor.disp_rtm_sec r < 0)%Z ->
   use_tms_ratio (Extractor.vod_ratio r)
   = Some (Extractor.Fin (inject_Z (Extractor.use_tms r)
                          / inject_Z (Extractor.disp_rtm_sec r)))).
Proof.
  intros Hin He Hd. split; [now apply ExtractorFacts.kept_pair_in_output |]. split.
  - intros H0. split.
    + cbn. rewrite H0. apply ExtractorFacts.true_divide_zero_runtime.
    + intros Hu. now apply ExtractorFacts.infinite_rating.
  - intros Hneg. cbn. apply ExtractorFacts.true_divide_nonzero_runtime. lia.
Qed.

Lemma extract_nonpositive_runtime_witness :
  In (Extractor.mkVod 0 1 10 50 0) sample_vod_log /\
  Extractor.v_e_bool (Extractor.mkVod 0 1 10 50 0) = 0%Z /\
  (Extractor.disp_rtm_sec (Extractor.mkVod 0 1 10 50 0) <= 0)%Z /\
  In (mkInteraction 1 10 (Some Extractor.PInf))
     (Extractor.extract sample_vod_log sample_cont_log).
Proof.
  assert (Hin : In (Extractor.mkVod 0 1 10 50 0) sample_vod_log)
    by (right; left; reflexivity).
  split; [exact Hin |]. split; [reflexivity |]. split; [cbn; lia |].
  destruct (extract_nonpositive_runtime sample_vod_log sample_cont_log
              (Extractor.mkVod 0 1 10 50 0) Hin eq_refl ltac:(cbn; lia))
    as (_ & H0 & _).
  destruct (H0 eq_refl) as (_ & Hinf). apply Hinf. cbn. lia.
Defined.

(** C6 as stated fails: the second, kept, watch event has runtime 0; the
    Extractor returns the interactions, the first with rating +infinity. *)
Lemma extract_zero_runtime_counterexample :
  In (Extractor.mkVod 0 1 10 50 0) sample_vod_log /\
  (Extractor.disp_rtm_sec (Extractor.mkVod 0 1 10 50 0) <= 0)%Z /\
  Extractor.extract sample_vod_log sample_cont_log
  = [mkInteraction 1 10 (Some Extractor.PInf);
     mkInteraction 2 10 None;
     mkInteraction 2 20 (Some (Extractor.Fin (-30 # 60)));
     mkInteraction 4 40 None].
Proof.
  split; [right; left; reflexivity |]. split; [cbn; lia |]. reflexivity.
Qed.

(** The whole of [data_preprocessing] on the sample logs: the zero runtime
    raises nothing, and the infinite rating reaches Train. *)
Example data_preprocessing_sample :
  data_preprocessing (rng := reversing_state) sample_vod_log sample_cont_log
  = Ok ([(0%nat, mkInteraction 1 10 (Some Extractor.PInf));
         (1%nat, mkInteraction 2 10 None);
         (2%nat, mkInteraction 2 20 None);
         (3%nat, mkInteraction 4 40 None)],
        [(2%nat, mkInteraction 2 20 (Some (Extractor.Fin (-30 # 60))))]).
Proof. reflexivity. Qed.

(** * Further properties of the code *)

(** ** The shape of the Extractor's output *)

(** The rating the Extractor gives a pair: the maximum, NaN skipped, of the
    ratios of the rows of the group. *)
Definition group_max (rows : list (interaction Extractor.fval)) (u i : Z)
  : option Extractor.fval :=
  Extractor.nanmax
    (map (@use_tms_ratio Extractor.fval) (filter (Pandas.same_pair u i) rows)).

(** The kept watch events as (user, item, ratio). *)
Definition kept_ratios (vod_log : list Extractor.vod_row)
  : list (interaction Extractor.fval) :=
  map Extractor.vod_ratio (filter (fun r => (Extractor.v_e_bool r =? 0)%Z) vod_log).

(** The distinct pairs of the two kept logs, in order of first appearance. *)
Definition kept_pairs (vod_log : list Extractor.vod_row)
  (cont_log : list Extractor.cont_row) : list (Z * Z) :=
  Pandas.unique Pandas.pair_eqb
    (map (@Pandas.pair_of Extractor.fval) (kept_ratios vod_log)
     ++ map (fun r => (Extractor.c_subsr_id r, Extractor.c_program_id r))
            (filter (fun r => (Extractor.c_e_bool r =? 0)%Z) cont_log)).

Module ShapeFacts.
Import Pandas Extractor ListFacts ExtractorFacts.

Lemma pair_compare_gt (p q : Z * Z) : pair_compare p q = Gt -> pair_compare q p = Lt.
Proof.
  destruct p as [a b], q as [c d]. unfold pair_compare. cbn [fst snd].
  destruct (Z.compare_spec a c), (Z.compare_spec b d),
    (Z.compare_spec c a), (Z.compare_spec d b);
    intros Hgt; try discriminate Hgt; try reflexivity; lia.
Qed.

Lemma pair_compare_irrefl (p : Z * Z) : pair_compare p p <> Lt.
Proof.
  destruct p as [a b]. unfold pair_compare. cbn [fst snd].
  rewrite !Z.compare_refl. discriminate.
Qed.

Lemma pair_compare_trans (p q r : Z * Z) :
  pair_compare p q = Lt -> pair_compare q r = Lt -> pair_compare p r = Lt.
Proof.
  destruct p as [a b], q as [c d], r as [e f]. unfold pair_compare. cbn [fst snd].
  destruct (Z.compare_spec a c), (Z.compare_spec b d);
    intros Hpq; try discriminate Hpq;
    destruct (Z.compare_spec c e), (Z.compare_spec d f);
    intros Hqr; try discriminate Hqr;
    destruct (Z.compare_spec a e), (Z.compare_spec b f); try reflexivity; lia.
Qed.

Lemma NoDup_group_keys (l : list (Z * Z)) : NoDup (sorted_labels pair_compare l).
Proof.
  apply NoDup_sorted_labels.
  - exact pair_compare_eq.
  - exact pair_compare_gt.
  - exact pair_compare_irrefl.
  - exact pair_compare_trans.
Qed.

Lemma keys_groupby_max (rows : list (interaction fval)) :
  map (@pair_of fval) (groupby_max rows)
  = sorted_labels pair_compare (map (@pair_of fval) rows).
Proof.
  unfold groupby_max. rewrite map_map. cbn [pair_of subsr_id program_id].
  erewrite map_ext; [apply map_id |]. now intros [u i].
Qed.

(** In a frame without a repeated key at most one row carries a key. *)
Lemma rows_of_key {R} (right : list (interaction R)) (u i : Z) :
  NoDup (map (@pair_of R) right) ->
  filter (same_pair u i) right
  = match find (same_pair u i) right with
    | Some m => [m]
    | None => []
    end.
Proof.
  induction right as [| x xs IH]; cbn [map filter find]; intros Hnd; [reflexivity |].
  apply NoDup_cons_iff in Hnd as [Hx Hxs].
  destruct (same_pair u i x) eqn:E; [| now apply IH].
  f_equal. destruct (filter (same_pair u i) xs) as [| y ys] eqn:F; [reflexivity |].
  exfalso. apply Hx.
  assert (Hy : In y (filter (same_pair u i) xs)) by (rewrite F; now left).
  apply filter_In in Hy as [Hy Ey].
  apply same_pair_spec in E as [E1 E2], Ey as [Ey1 Ey2].
  apply in_map_iff. exists y. split; [| assumption].
  unfold pair_of. congruence.
Qed.

Lemma merge_step {K V} (rows_for : K -> list V) (k : K) (ks : list K) :
  flat_map rows_for (k :: ks) = rows_for k ++ flat_map rows_for ks.
Proof. reflexivity. Qed.

(** A left merge onto a frame without a repeated key keeps the left rows
    one for one. *)
Lemma merge_left_one_for_one (left : list (Z * Z)) (right : list (interaction fval)) :
  NoDup (map (@pair_of fval) right) ->
  merge_left left right
  = map (fun k => mkInteraction (fst k) (snd k) (cell right (fst k) (snd k))) left.
Proof.
  intros Hnd. unfold merge_left.
  induction left as [| k ks IH]; [reflexivity |].
  rewrite (merge_step _ k ks), IH.
  rewrite (rows_of_key right (fst k) (snd k) Hnd).
  cbn [map]. unfold cell.
  destruct (find (same_pair (fst k) (snd k)) right); reflexivity.
Qed.

Lemma find_group (g : Z * Z -> option fval) (keys : list (Z * Z)) (u i : Z) :
  find (same_pair u i) (map (fun k => mkInteraction (fst k) (snd k) (g k)) keys)
  = if existsb (pair_eqb (u, i)) keys
    then Some (mkInteraction u i (g (u, i))) else None.
Proof.
  induction keys as [| [a b] ks IH]; cbn [map find existsb]; [reflexivity |].
  unfold same_pair at 1, pair_eqb at 1. cbn [subsr_id program_id fst snd].
  rewrite (Z.eqb_sym a u), (Z.eqb_sym b i).
  destruct (Z.eqb_spec u a) as [-> | Hu]; cbn [andb orb]; [| exact IH].
  destruct (Z.eqb_spec i b) as [-> | Hi]; cbn [orb]; [reflexivity | exact IH].
Qed.

Lemma cell_groupby_max (rows : list (interaction fval)) (u i : Z) :
  cell (groupby_max rows) u i = group_max rows u i.
Proof.
  unfold cell, groupby_max. rewrite find_group.
  destruct (existsb _ _) eqn:E; [reflexivity |].
  unfold group_max.
  replace (filter (same_pair u i) rows) with (@nil (interaction fval)); [reflexivity |].
  symmetry. destruct (filter (same_pair u i) rows) as [| r rs] eqn:F; [reflexivity |].
  exfalso.
  assert (Hr : In r (filter (same_pair u i) rows)) by (rewrite F; now left).
  apply filter_In in Hr as [Hr Er]. apply same_pair_spec in Er as [<- <-].
  assert (Hk : existsb (pair_eqb (subsr_id r, program_id r))
                       (sorted_labels pair_compare (map (@pair_of fval) rows)) = true).
  { apply (existsb_eqb_In _ pair_eqb pair_eqb_spec). apply in_sorted_pairs.
    now apply (in_map (@pair_of fval)). }
  congruence.
Qed.

(** The output of the Extractor, row by row. *)
Lemma extract_shape (vod_log : list vod_row) (cont_log : list cont_row) :
  extract vod_log cont_log
  = map (fun k => mkInteraction (fst k) (snd k)
                    (group_max (kept_ratios vod_log) (fst k) (snd k)))
        (kept_pairs vod_log cont_log).
Proof.
  unfold extract. fold (kept_ratios vod_log). fold (kept_pairs vod_log cont_log).
  rewrite merge_left_one_for_one.
  - apply map_ext. intros k. now rewrite cell_groupby_max.
  - rewrite keys_groupby_max. apply NoDup_group_keys.
Qed.

Lemma pairs_of_extract (vod_log : list vod_row) (cont_log : list cont_row) :
  map (@pair_of fval) (extract vod_log cont_log) = kept_pairs vod_log cont_log.
Proof.
  rewrite extract_shape, map_map. cbn [pair_of subsr_id program_id].
  erewrite map_ext; [apply map_id |]. now intros [u i].
Qed.

Lemma in_kept_pairs (vod_log : list vod_row) (cont_log : list cont_row) (u i : Z) :
  In (u, i) (kept_pairs vod_log cont_log) <->
  (exists r, In r vod_log /\ v_e_bool r = 0%Z /\ v_subsr_id r = u /\ v_program_id r = i)
  \/ (exists c, In c cont_log /\ c_e_bool c = 0%Z /\ c_subsr_id c = u /\ c_program_id c = i).
Proof.
  unfold kept_pairs, kept_ratios.
  rewrite (in_unique _ pair_eqb pair_eqb_spec), in_app_iff, map_map, !in_map_iff.
  cbn [pair_of vod_ratio subsr_id program_id].
  split.
  - intros [(r & [= <- <-] & Hr) | (c & [= <- <-] & Hc)];
      apply filter_In in Hr || apply filter_In in Hc.
    + left. exists r. rewrite Z.eqb_eq in Hr. tauto.
    + right. exists c. rewrite Z.eqb_eq in Hc. tauto.
  - intros [(r & Hr & He & <- & <-) | (c & Hc & He & <- & <-)].
    + left. exists r. split; [reflexivity |]. apply filter_In. now rewrite Z.eqb_eq.
    + right. exists c. split; [reflexivity |]. apply filter_In. now rewrite Z.eqb_eq.
Qed.
End ShapeFacts.

(** ** The maximum of a group *)
Module MaxFacts.
Import Pandas Extractor.

Lemma fle_refl (a : fval) : fle a a = true.
Proof. destruct a as [| q |]; cbn; try reflexivity. apply Qle_bool_iff, Qle_refl. Qed.

Lemma fle_total (a b : fval) : fle a b = false -> fle b a = true.
Proof.
  destruct a as [| x |], b as [| y |]; cbn; try reflexivity; try discriminate.
  intros H. apply Qle_bool_iff.
  destruct (Qlt_le_dec y x) as [Hlt | Hle]; [now apply Qlt_le_weak |].
  apply Qle_bool_iff in Hle. congruence.
Qed.

Lemma fle_trans (a b c : fval) : fle a b = true -> fle b c = true -> fle a c = true.
Proof.
  destruct a as [| x |], b as [| y |], c as [| z |]; cbn;
    try reflexivity; try discriminate.
  rewrite !Qle_bool_iff. apply Qle_trans.
Qed.

Lemma fmax_left (a b : fval) : fle a (fmax a b) = true.
Proof. unfold fmax. destruct (fle a b) eqn:E; [exact E | apply fle_refl]. Qed.

Lemma fmax_right (a b : fval) : fle b (fmax a b) = true.
Proof. unfold fmax. destruct (fle a b) eqn:E; [apply fle_refl | now apply fle_total]. Qed.

Lemma step_keeps_left (a : fval) (y : option fval) :
  exists a', nanmax_step (Some a) y = Some a' /\ fle a a' = true.
Proof.
  destruct y as [b |]; cbn.
  - exists (fmax a b). split; [reflexivity | apply fmax_left].
  - exists a. split; [reflexivity | apply fle_refl].
Qed.

Lemma step_keeps_right (acc : option fval) (b : fval) :
  exists b', nanmax_step acc (Some b) = Some b' /\ fle b b' = true.
Proof.
  destruct acc as [a |]; cbn.
  - exists (fmax a b). split; [reflexivity | apply fmax_right].
  - exists b. split; [reflexivity | apply fle_refl].
Qed.

Lemma step_picks (acc y : option fval) :
  nanmax_step acc y = acc \/ nanmax_step acc y = y.
Proof.
  destruct acc as [a |], y as [b |]; cbn; auto.
  unfold fmax. destruct (fle a b); auto.
Qed.

(** The running maximum is above the start value and above every value
    met. *)
Lemma fold_above (l : list (option fval)) (acc : option fval) (x : fval) :
  acc = Some x \/ In (Some x) l ->
  exists m, fold_left nanmax_step l acc = Some m /\ fle x m = true.
Proof.
  revert acc x. induction l as [| y ys IH]; intros acc x H; cbn [fold_left].
  - destruct H as [-> | []]. exists x. split; [reflexivity | apply fle_refl].
  - destruct H as [-> | [-> | H]].
    + destruct (step_keeps_left x y) as (x' & -> & Hx).
      destruct (IH (Some x') x' (or_introl eq_refl)) as (m & Hm & Hle).
      exists m. split; [assumption |]. eapply fle_trans; eauto.
    + destruct (step_keeps_right acc x) as (x' & -> & Hx).
      destruct (IH (Some x') x' (or_introl eq_refl)) as (m & Hm & Hle).
      exists m. split; [assumption |]. eapply fle_trans; eauto.
    + apply IH. now right.
Qed.

(** The running maximum is the start value or one of the values met. *)
Lemma fold_attained (l : list (option fval)) (acc : option fval) (m : fval) :
  fold_left nanmax_step l acc = Some m -> acc = Some m \/ In (Some m) l.
Proof.
  revert acc. induction l as [| y ys IH]; intros acc H; cbn [fold_left] in H.
  - now left.
  - apply IH in H as [H | H]; [| right; now right].
    destruct (step_picks acc y) as [E | E]; rewrite E in H.
    + now left.
    + right. left. exact H.
Qed.

Lemma nanmax_above (l : list (option fval)) (x : fval) :
  In (Some x) l -> exists m, nanmax l = Some m /\ fle x m = true.
Proof. intros H. apply fold_above. now right. Qed.

Lemma nanmax_attained (l : list (option fval)) (m : fval) :
  nanmax l = Some m -> In (Some m) l.
Proof.
  intros H. apply fold_attained in H as [H | H]; [discriminate | assumption].
Qed.
End MaxFacts.

(** X1.  The interactions the Extractor returns have pairwise distinct
    (subsr_id, program_id) pairs. *)
Theorem extract_pairs_distinct
  (vod_log : list Extractor.vod_row) (cont_log : list Extractor.cont_row) :
  NoDup (map (@Pandas.pair_of Extractor.fval) (Extractor.extract vod_log cont_log)).
Proof.
  rewrite ShapeFacts.pairs_of_extract. unfold kept_pairs.
  apply ListFacts.NoDup_unique. exact ListFacts.pair_eqb_spec.
Qed.

(** X2.  A pair is in the Extractor's output exactly when a watch event or a
    content event with [e_bool] 0 carries it: rows flagged otherwise add
    nothing, and no kept pair is lost. *)
Theorem extract_pairs_are_the_kept_pairs
  (vod_log : list Extractor.vod_row) (cont_log : list Extractor.cont_row) (u i : Z) :
  In (u, i) (map (@Pandas.pair_of Extractor.fval) (Extractor.extract vod_log cont_log))
  <->
  (exists r, In r vod_log /\ Extractor.v_e_bool r = 0%Z /\
             Extractor.v_subsr_id r = u /\ Extractor.v_program_id r = i)
  \/ (exists c, In c cont_log /\ Extractor.c_e_bool c = 0%Z /\
                Extractor.c_subsr_id c = u /\ Extractor.c_program_id c = i).
Proof.
  rewrite ShapeFacts.pairs_of_extract. apply ShapeFacts.in_kept_pairs.
Qed.

(** X3.  A pair carried by a kept content event and by no kept watch event
    is in the output with a missing rating, and with no other rating. *)
Theorem presence_only_pair_is_unrated
  (vod_log : list Extractor.vod_row) (cont_log : list Extractor.cont_row)
  (c : Extractor.cont_row) :
  In c cont_log -> Extractor.c_e_bool c = 0%Z ->
  (forall r, In r vod_log -> Extractor.v_e_bool r = 0%Z ->
             ~ (Extractor.v_subsr_id r = Extractor.c_subsr_id c /\
                Extractor.v_program_id r = Extractor.c_program_id c)) ->
  In (mkInteraction (Extractor.c_subsr_id c) (Extractor.c_program_id c) None)
     (Extractor.extract vod_log cont_log) /\
  forall v,
    In (mkInteraction (Extractor.c_subsr_id c) (Extractor.c_program_id c) v)
       (Extractor.extract vod_log cont_log) ->
    v = None.
Proof.
  intros Hc He Hvod.
  assert (Hnone : group_max (kept_ratios vod_log)
                    (Extractor.c_subsr_id c) (Extractor.c_program_id c) = None).
  { unfold group_max.
    destruct (filter _ (kept_ratios vod_log)) as [| x xs] eqn:F; [reflexivity |].
    exfalso.
    assert (Hx : In x (filter (Pandas.same_pair (Extractor.c_subsr_id c)
                                 (Extractor.c_program_id c)) (kept_ratios vod_log)))
      by (rewrite F; now left).
    apply filter_In in Hx as [Hx Ex]. apply ExtractorFacts.same_pair_spec in Ex.
    unfold kept_ratios in Hx. apply in_map_iff in Hx as (r & <- & Hr).
    apply filter_In in Hr as [Hr Er]. apply Z.eqb_eq in Er.
    exact (Hvod r Hr Er Ex). }
  rewrite ShapeFacts.extract_shape. split.
  - apply in_map_iff. exists (Extractor.c_subsr_id c, Extractor.c_program_id c).
    cbn [fst snd]. rewrite Hnone. split; [reflexivity |].
    apply ShapeFacts.in_kept_pairs. right. exists c. auto.
  - intros v Hv. apply in_map_iff in Hv as ([u i] & Heq & _). cbn [fst snd] in Heq.
    injection Heq as -> -> <-. exact Hnone.
Qed.

Lemma presence_only_pair_is_unrated_witness :
  In (Extractor.mkCont 0 4 40) sample_cont_log /\
  In (mkInteraction 4 40 None) (Extractor.extract sample_vod_log sample_cont_log) /\
  forall v,
    In (mkInteraction 4 40 v) (Extractor.extract sample_vod_log sample_cont_log) ->
    v = None.
Proof.
  assert (Hc : In (Extractor.mkCont 0 4 40) sample_cont_log) by (right; left; reflexivity).
  split; [exact Hc |].
  apply (presence_only_pair_is_unrated sample_vod_log sample_cont_log
           (Extractor.mkCont 0 4 40) Hc eq_refl).
  intros r Hr _ [Hu _]. cbn in Hr, Hu.
  repeat (destruct Hr as [<- | Hr]; [discriminate Hu |]). exact Hr.
Defined.

(** X4.  The rating of a pair is the maximum of the ratios of its kept watch
    events: it is at least the ratio of every kept event of the pair that
    has one, it is the ratio of one of them, and the pair has no other
    rating in the output. *)
Theorem rating_is_the_group_maximum
  (vod_log : list Extractor.vod_row) (cont_log : list Extractor.cont_row)
  (r : Extractor.vod_row) (x : Extractor.fval) :
  In r vod_log -> Extractor.v_e_bool r = 0%Z ->
  Extractor.true_divide (Extractor.use_tms r) (Extractor.disp_rtm_sec r) = Some x ->
  exists m,
    In (mkInteraction (Extractor.v_subsr_id r) (Extractor.v_program_id r) (Some m))
       (Extractor.extract vod_log cont_log) /\
    Extractor.fle x m = true /\
    (exists r', In r' vod_log /\ Extractor.v_e_bool r' = 0%Z /\
                Extractor.v_subsr_id r' = Extractor.v_subsr_id r /\
                Extractor.v_program_id r' = Extractor.v_program_id r /\
                Extractor.true_divide (Extractor.use_tms r') (Extractor.disp_rtm_sec r')
                = Some m) /\
    forall v,
      In (mkInteraction (Extractor.v_subsr_id r) (Extractor.v_program_id r) v)
         (Extractor.extract vod_log cont_log) ->
      v = Some m.
Proof.
  intros Hr He Hx.
  set (u := Extractor.v_subsr_id r). set (i := Extractor.v_program_id r).
  assert (Hin : In (Some x)
                   (map (@use_tms_ratio Extractor.fval)
                        (filter (Pandas.same_pair u i) (kept_ratios vod_log)))).
  { apply in_map_iff. exists (Extractor.vod_ratio r). split; [exact Hx |].
    apply filter_In. split.
    - unfold kept_ratios. apply in_map, filter_In. split; [assumption |].
      now apply Z.eqb_eq.
    - now apply ExtractorFacts.same_pair_spec. }
  destruct (MaxFacts.nanmax_above _ x Hin) as (m & Hm & Hle).
  fold (group_max (kept_ratios vod_log) u i) in Hm.
  exists m. rewrite ShapeFacts.extract_shape. split; [| split; [exact Hle | split]].
  - apply in_map_iff. exists (u, i). cbn [fst snd]. rewrite Hm.
    split; [reflexivity |]. apply ShapeFacts.in_kept_pairs. left. exists r. auto.
  - unfold group_max in Hm. apply MaxFacts.nanmax_attained in Hm.
    apply in_map_iff in Hm as (y & Hy & Hyin).
    apply filter_In in Hyin as [Hyin Ey]. apply ExtractorFacts.same_pair_spec in Ey.
    unfold kept_ratios in Hyin. apply in_map_iff in Hyin as (r' & <- & Hr').
    apply filter_In in Hr' as [Hr' Er']. apply Z.eqb_eq in Er'.
    exists r'. cbn in Ey, Hy. tauto.
  - intros v Hv. apply in_map_iff in Hv as ([u' i'] & Heq & _). cbn [fst snd] in Heq.
    injection Heq as -> -> <-. exact Hm.
Qed.

Lemma rating_is_the_group_maximum_witness :
  In (Extractor.mkVod 0 1 10 30 60) sample_vod_log /\
  Extractor.true_divide 30 60 = Some (Extractor.Fin (30 # 60)) /\
  exists m,
    In (mkInteraction 1 10 (Some m)) (Extractor.extract sample_vod_log sample_cont_log) /\
    Extractor.fle (Extractor.Fin (30 # 60)) m = true.
Proof.
  assert (Hr : In (Extractor.mkVod 0 1 10 30 60) sample_vod_log) by (left; reflexivity).
  split; [exact Hr |]. split; [reflexivity |].
  destruct (rating_is_the_group_maximum sample_vod_log sample_cont_log
              (Extractor.mkVod 0 1 10 30 60) (Extractor.Fin (30 # 60))
              Hr eq_refl eq_refl) as (m & Hm & Hle & _).
  exists m. split; assumption.
Defined.

(** X5.  When no watch event is kept, no pair has a rating and
    [data_preprocessing] fails in [train_test_split], whatever the content
    log holds. *)
Theorem no_watch_event_no_split
  (rng : Split.RandomState)
  (vod_log : list Extractor.vod_row) (cont_log : list Extractor.cont_row) :
  (forall r, In r vod_log -> Extractor.v_e_bool r <> 0%Z) ->
  (forall row, In row (Extractor.extract vod_log cont_log) -> use_tms_ratio row = None) /\
  data_preprocessing vod_log cont_log = Raise ValueError.
Proof.
  intros Hdel.
  assert (Hkept : kept_ratios vod_log = []).
  { unfold kept_ratios.
    replace (filter _ vod_log) with (@nil Extractor.vod_row); [reflexivity |].
    symmetry. induction vod_log as [| r rs IH]; [reflexivity |]. cbn [filter].
    destruct (Z.eqb_spec (Extractor.v_e_bool r) 0) as [E | _].
    - exfalso. apply (Hdel r); [now left | exact E].
    - apply IH. intros r' Hr'. apply Hdel. now right. }
  assert (Hnone : forall row, In row (Extractor.extract vod_log cont_log) ->
                              use_tms_ratio row = None).
  { intros row Hrow. rewrite ShapeFacts.extract_shape, Hkept in Hrow.
    apply in_map_iff in Hrow as (k & <- & _). reflexivity. }
  split; [exact Hnone |].
  unfold data_preprocessing. apply split_raises_below_two.
  replace (filter _ (Extractor.extract vod_log cont_log))
    with (@nil (interaction Extractor.fval)); [cbn; lia |].
  symmetry.
  destruct (filter _ (Extractor.extract vod_log cont_log)) as [| row rows] eqn:F;
    [reflexivity |].
  assert (Hrow : In row (filter (@Pandas.notna Extractor.fval)
                           (Extractor.extract vod_log cont_log)))
    by (rewrite F; now left).
  apply filter_In in Hrow as [Hrow Hna]. unfold Pandas.notna in Hna.
  rewrite (Hnone row Hrow) in Hna. discriminate.
Qed.

Lemma no_watch_event_no_split_witness :
  (forall r, In r [Extractor.mkVod 1 3 10 5 10] -> Extractor.v_e_bool r <> 0%Z) /\
  data_preprocessing (rng := reversing_state) [Extractor.mkVod 1 3 10 5 10] sample_cont_log
  = Raise ValueError.
Proof.
  assert (H : forall r, In r [Extractor.mkVod 1 3 10 5 10] ->
                        Extractor.v_e_bool r <> 0%Z).
  { intros r [<- | []]. discriminate. }
  split; [exact H |].
  apply (no_watch_event_no_split reversing_state _ sample_cont_log H).
Defined.

(** ** Train and Test as the next stage receives them *)
Module TrainFacts.
Import Pandas Split ListFacts SplitFacts MaskFacts.

Lemma rows_of_reset_index {R} (start : nat) (rows : list (interaction R)) :
  map snd (combine (seq start (length rows)) rows) = rows.
Proof.
  revert start. induction rows as [| r rs IH]; intros start; cbn; [reflexivity |].
  now rewrite IH.
Qed.

Lemma pair_of_mask {R} (labels : list nat) (lr : nat * interaction R) :
  pair_of (snd (mask labels lr)) = pair_of (snd lr).
Proof. unfold mask. now destruct (existsb _ labels). Qed.

Lemma pairs_of_masked {R} (labels : list nat) (rating : list (interaction R)) :
  map (fun lr => pair_of (snd lr)) (map (mask labels) (reset_index rating))
  = map (@pair_of R) rating.
Proof.
  rewrite map_map.
  erewrite map_ext; [| intros lr; apply pair_of_mask].
  rewrite <- (map_map snd (@pair_of R)). unfold reset_index.
  now rewrite rows_of_reset_index.
Qed.

(** The rows of the masked frame that still have a rating, and the held-out
    rows, counted. *)
Lemma rated_count {R} (df test : frame R) :
  NoDup (map fst df) -> NoDup test -> incl test (dropna df) ->
  (length (dropna (map (mask (map fst test)) df)) + length test
   = length (dropna df))%nat.
Proof.
  intros Hdf Hnd Hincl.
  rewrite <- (Permutation_length (masked_with_held_out df test Hdf Hnd Hincl)).
  now rewrite length_app.
Qed.
End TrainFacts.

(** X6.  The Train frame returned by the split has the labels 0 .. n-1 and
    the pairs of the Interaction set, in the same order, and every row of
    Train that has a rating is a row of the Interaction set with that
    rating: masking removes ratings and changes nothing else. *)
Theorem train_keeps_the_shape
  (rng : Split.RandomState) (R : Type) (rating : list (interaction R))
  (train test : Pandas.frame R) :
  Split.split rating = Ok (train, test) ->
  map fst train = seq 0 (length rating) /\
  map (fun lr => Pandas.pair_of (snd lr)) train = map (@Pandas.pair_of R) rating /\
  forall lr, In lr (Pandas.dropna train) -> In lr (Pandas.dropna (Pandas.reset_index rating)).
Proof.
  intros Hsplit. apply EvaluateFacts.split_ok_inv in Hsplit as (-> & Hincl).
  split; [| split].
  - rewrite MaskFacts.labels_masked. apply SplitFacts.labels_reset_index.
  - apply TrainFacts.pairs_of_masked.
  - intros lr Hlr. apply filter_In in Hlr as [Hlr Hna].
    apply in_map_iff in Hlr as (x & <- & Hx).
    apply MaskFacts.notna_mask in Hna as (Heq & _ & Hna). rewrite Heq.
    apply filter_In. auto.
Qed.

Lemma train_keeps_the_shape_witness :
  Split.split (rng := reversing_state) sample_rating = Ok (sample_train, sample_test) /\
  map fst sample_train = seq 0 (length sample_rating) /\
  map (fun lr => Pandas.pair_of (snd lr)) sample_train
  = map (@Pandas.pair_of Q) sample_rating /\
  forall lr, In lr (Pandas.dropna sample_train) ->
             In lr (Pandas.dropna (Pandas.reset_index sample_rating)).
Proof.
  split; [reflexivity |].
  apply (train_keeps_the_shape reversing_state Q sample_rating sample_train sample_test).
  reflexivity.
Defined.

(** X7.  Of n rated interactions the split holds out ceil(n/4) and leaves
    the other n - ceil(n/4), at least one, rated in Train. *)
Theorem split_sizes
  (rng : Split.RandomState) (R : Type) (rating : list (interaction R))
  (train test : Pandas.frame R) :
  Split.split rating = Ok (train, test) ->
  let n := length (filter (@Pandas.notna R) rating) in
  length test = ((n + 3) / 4)%nat /\
  length (Pandas.dropna train) = (n - (n + 3) / 4)%nat /\
  (1 <= length (Pandas.dropna train))%nat /\
  (1 <= length test)%nat.
Proof.
  intros Hsplit n.
  destruct (Nat.lt_ge_cases n 2) as [Hlt | Hge].
  { rewrite (split_raises_below_two rng R rating Hlt) in Hsplit. discriminate. }
  destruct (split_unfold rng R rating Hge) as (test' & Heq & Hincl & Hnd & Hsize).
  rewrite Heq in Hsplit. injection Hsplit as <- <-. fold n in Hsize.
  pose proof (TrainFacts.rated_count (Pandas.reset_index rating) test'
                (SplitFacts.NoDup_labels_reset_index rating) Hnd Hincl) as Hcount.
  rewrite SplitFacts.length_dropna_reset_index in Hcount. fold n in Hcount.
  pose proof (Nat.div_mod_eq (n + 3) 4) as Hd.
  pose proof (Nat.mod_upper_bound (n + 3) 4 ltac:(lia)) as Hm.
  repeat split; lia.
Qed.

Lemma split_sizes_witness :
  Split.split (rng := reversing_state) sample_rating = Ok (sample_train, sample_test) /\
  length sample_test = 1%nat /\ length (Pandas.dropna sample_train) = 2%nat.
Proof.
  split; [reflexivity |].
  destruct (split_sizes reversing_state Q sample_rating sample_train sample_test eq_refl)
    as (Htest & Htrain & _).
  split; [exact Htest | exact Htrain].
Defined.

(** X8.  For Train and Test of one split, the ratings the model is fitted on
    ([train_data]) together with the ratings it is tested on ([test_data])
    are the rated interactions, each once; the fitted ones are not empty. *)
Theorem model_data_partition_the_ratings
  (rng : Split.RandomState) (sgd : Surprise.trainset -> Surprise.svd_params)
  (rating : list (interaction Q)) (train test : Pandas.frame Q)
  (self : SVDRecommendationModel.t) :
  Split.split rating = Ok (train, test) ->
  SVDRecommendationModel.init sgd train test = Ok self ->
  Permutation (SVDRecommendationModel.train_data self
               ++ SVDRecommendationModel.test_data self)
              (Surprise.load_from_df (Pandas.dropna (Pandas.reset_index rating))) /\
  SVDRecommendationModel.train_data self <> [] /\
  Surprise.svd_trainset (SVDRecommendationModel.model self)
  = SVDRecommendationModel.train_data self.
Proof.
  intros Hsplit Hinit.
  assert (Hself : SVDRecommendationModel.train_data self
                  = Surprise.all_ratings (Surprise.load_from_df (Pandas.dropna train)) /\
                  SVDRecommendationModel.test_data self
                  = Surprise.all_ratings (Surprise.load_from_df test) /\
                  Surprise.svd_trainset (SVDRecommendationModel.model self)
                  = SVDRecommendationModel.train_data self).
  { unfold SVDRecommendationModel.init, SVDRecommendationModel.dataset in Hinit.
    destruct (SVDRecommendationModel.make_score_matrix train); cbn [bind] in Hinit;
      [| discriminate].
    injection Hinit as <-. cbn. auto. }
  destruct Hself as (Htr & Hte & Hmodel).
  destruct (Nat.lt_ge_cases (length (filter (@Pandas.notna Q) rating)) 2) as [Hlt | Hge].
  { rewrite (split_raises_below_two rng Q rating Hlt) in Hsplit. discriminate. }
  destruct (split_unfold rng Q rating Hge) as (test' & Heq & Hincl & Hnd & Hsize).
  rewrite Heq in Hsplit. injection Hsplit as <- <-.
  pose proof (MaskFacts.masked_with_held_out (Pandas.reset_index rating) test'
                (SplitFacts.NoDup_labels_reset_index rating) Hnd Hincl) as Hperm.
  split; [| split; [| exact Hmodel]].
  - rewrite Htr, Hte, !SurpriseFacts.all_ratings_perm.
    unfold Surprise.load_from_df. rewrite <- map_app. now apply Permutation_map.
  - intros E. rewrite Htr in E.
    pose proof (SurpriseFacts.all_ratings_perm
                  (Surprise.load_from_df
                     (Pandas.dropna (map (Pandas.mask (map fst test'))
                                         (Pandas.reset_index rating))))) as Hall.
    rewrite E in Hall. apply Permutation_length in Hall.
    unfold Surprise.load_from_df in Hall. rewrite length_map in Hall. cbn in Hall.
    pose proof (TrainFacts.rated_count (Pandas.reset_index rating) test'
                  (SplitFacts.NoDup_labels_reset_index rating) Hnd Hincl) as Hcount.
    rewrite SplitFacts.length_dropna_reset_index in Hcount.
    pose proof (Nat.div_mod_eq (length (filter (@Pandas.notna Q) rating) + 3) 4) as Hd.
    pose proof (Nat.mod_upper_bound
                  (length (filter (@Pandas.notna Q) rating) + 3) 4 ltac:(lia)) as Hm.
    lia.
Qed.

Lemma model_data_partition_the_ratings_witness :
  Split.split (rng := reversing_state) sample_rating = Ok (sample_train, sample_test) /\
  SVDRecommendationModel.init sample_sgd sample_train sample_test = Ok sample_model /\
  Permutation (SVDRecommendationModel.train_data sample_model
               ++ SVDRecommendationModel.test_data sample_model)
              (Surprise.load_from_df (Pandas.dropna (Pandas.reset_index sample_rating))) /\
  SVDRecommendationModel.train_data sample_model <> [].
Proof.
  split; [reflexivity |]. split; [reflexivity |].
  destruct (model_data_partition_the_ratings reversing_state sample_sgd sample_rating
              sample_train sample_test sample_model eq_refl eq_refl) as (H1 & H2 & _).
  split; assumption.
Defined.

(** X9.  The Train frame [data_preprocessing] returns has no repeated pair,
    so the pivot to the rating matrix raises nothing, and every subscriber of
    the Test frame is in the matrix index. *)
Theorem preprocessed_train_pivots
  (rng : Split.RandomState)
  (vod_log : list Extractor.vod_row) (cont_log : list Extractor.cont_row)
  (train test : Pandas.frame Extractor.fval) :
  data_preprocessing vod_log cont_log = Ok (train, test) ->
  exists score_matrix,
    Pandas.pivot train = Ok score_matrix /\
    forall lr, In lr test -> In (subsr_id (snd lr)) (map fst score_matrix).
Proof.
  unfold data_preprocessing. intros Hsplit.
  pose proof (EvaluateFacts.split_ok_inv _ _ _ Hsplit) as (Htrain & Hincl).
  assert (Hpairs : NoDup (map (@Pandas.pair_of Extractor.fval) (map snd train))).
  { rewrite map_map, Htrain, TrainFacts.pairs_of_masked.
    rewrite ShapeFacts.pairs_of_extract. unfold kept_pairs.
    apply ListFacts.NoDup_unique. exact ListFacts.pair_eqb_spec. }
  assert (Hpivot : exists sm, Pandas.pivot train = Ok sm).
  { unfold Pandas.pivot.
    replace (Pandas.duplicated _ _) with false; [eauto |].
    symmetry. apply (ListFacts.duplicated_false _ _ ListFacts.pair_eqb_spec).
    exact Hpairs. }
  destruct Hpivot as (sm & Hsm). exists sm. split; [exact Hsm |].
  intros lr Hlr. apply (RecommendFacts.pivot_index _ _ _ Hsm).
  rewrite Htrain, EvaluateFacts.masked_users.
  unfold users_of. apply in_map_iff. exists lr. split; [reflexivity | now apply Hincl].
Qed.

Lemma preprocessed_train_pivots_witness :
  exists train test,
    data_preprocessing (rng := reversing_state) sample_vod_log sample_cont_log
    = Ok (train, test) /\
    exists score_matrix,
      Pandas.pivot train = Ok score_matrix /\
      forall lr, In lr test -> In (subsr_id (snd lr)) (map fst score_matrix).
Proof.
  eexists _, _. split; [reflexivity |].
  apply (preprocessed_train_pivots reversing_state sample_vod_log sample_cont_log).
  reflexivity.
Defined.

(** ** The rating matrix, cell by cell *)
Module MatrixFacts.
Import Pandas ListFacts RecommendFacts.

Lemma one_row_per_pair {R} (rows : list (interaction R)) (a b : interaction R) :
  NoDup (map (@pair_of R) rows) -> In a rows -> In b rows ->
  pair_of a = pair_of b -> a = b.
Proof.
  induction rows as [| x xs IH]; cbn [map]; intros Hnd Ha Hb Hab; [contradiction |].
  apply NoDup_cons_iff in Hnd as [Hx Hxs].
  destruct Ha as [-> | Ha], Hb as [-> | Hb]; auto.
  - exfalso. apply Hx. rewrite Hab. now apply in_map.
  - exfalso. apply Hx. rewrite <- Hab. now apply in_map.
Qed.

Lemma cell_some {R} (rows : list (interaction R)) (u i : Z) (v : R) :
  NoDup (map (@pair_of R) rows) ->
  (cell rows u i = Some v <->
   exists r, In r rows /\ subsr_id r = u /\ program_id r = i /\ use_tms_ratio r = Some v).
Proof.
  intros Hnd. unfold cell. split.
  - destruct (find (same_pair u i) rows) as [r |] eqn:E; [| discriminate].
    intros Hv. apply find_some in E as [Hr Er].
    apply ExtractorFacts.same_pair_spec in Er. exists r. tauto.
  - intros (r & Hr & Hu & Hi & Hv).
    destruct (find (same_pair u i) rows) as [r' |] eqn:E.
    + apply find_some in E as [Hr' Er'].
      apply ExtractorFacts.same_pair_spec in Er' as [Hu' Hi'].
      assert (r' = r); [| now subst].
      apply (one_row_per_pair rows); auto. unfold pair_of. congruence.
    + apply (find_none _ _ E) in Hr.
      assert (same_pair u i r = true) by now apply ExtractorFacts.same_pair_spec.
      congruence.
Qed.

Lemma loc_ok_in {R} (sm : pivoted R) (u : Z) (row : series R) :
  loc sm u = Ok row -> In (u, row) sm.
Proof.
  unfold loc. destruct (find (fun ur => (fst ur =? u)%Z) sm) as [[u' row'] |] eqn:E;
    [| discriminate].
  intros [= <-]. apply find_some in E as [Hin Hu]. cbn [fst] in Hu.
  apply Z.eqb_eq in Hu. now subst.
Qed.

Lemma pivot_row {R} (df : frame R) (sm : pivoted R) (u : Z) (row : series R) :
  pivot df = Ok sm -> loc sm u = Ok row ->
  row = map (fun i => (i, cell (map snd df) u i))
            (sorted_labels Z.compare (map (@program_id R) (map snd df))) /\
  NoDup (map (@pair_of R) (map snd df)).
Proof.
  intros Hpivot Hloc. split.
  - apply loc_ok_in in Hloc. rewrite (pivot_shape _ _ Hpivot) in Hloc.
    apply in_map_iff in Hloc as (u' & [= -> <-] & _). reflexivity.
  - unfold pivot in Hpivot.
    destruct (duplicated pair_eqb (map (@pair_of R) (map snd df))) eqn:E;
      [discriminate |].
    now apply (duplicated_false _ _ pair_eqb_spec).
Qed.
End MatrixFacts.

(** X10.  In the row of a user in the pivoted rating matrix the labels are
    the items of Train; the rated set holds the items the user has a rated
    row for in Train, and the candidate set holds the other items of
    Train. *)
Theorem matrix_row_reflects_train
  (R : Type) (train : Pandas.frame R) (score_matrix : Pandas.pivoted R)
  (user : Z) (row : Pandas.series R) :
  Pandas.pivot train = Ok score_matrix ->
  Pandas.loc score_matrix user = Ok row ->
  let rated_in_train item :=
    exists lr, In lr train /\ subsr_id (snd lr) = user /\
               program_id (snd lr) = item /\ Pandas.notna (snd lr) = true in
  let item_of_train item := exists lr, In lr train /\ program_id (snd lr) = item in
  (forall item, In item (map fst row) <-> item_of_train item) /\
  (forall item, In item (rated_set row) <-> rated_in_train item) /\
  (forall item, In item (candidate_set row)
                <-> item_of_train item /\ ~ rated_in_train item).
Proof.
  intros Hpivot Hloc rated_in_train item_of_train.
  destruct (MatrixFacts.pivot_row train score_matrix user row Hpivot Hloc) as (-> & Hnd).
  assert (Hitems : forall item,
             In item (Pandas.sorted_labels Z.compare
                        (map (@program_id R) (map snd train)))
             <-> item_of_train item).
  { intros item. rewrite ListFacts.in_sorted_labels_Z, map_map, in_map_iff.
    unfold item_of_train. split; intros (lr & H1 & H2); exists lr; tauto. }
  assert (Hrated : forall item,
             rated_in_train item <-> exists v, Pandas.cell (map snd train) user item = Some v).
  { intros item. unfold rated_in_train. split.
    - intros (lr & Hlr & Hu & Hi & Hna). unfold Pandas.notna in Hna.
      destruct (use_tms_ratio (snd lr)) as [v |] eqn:Ev; [| discriminate].
      exists v. apply (MatrixFacts.cell_some _ _ _ _ Hnd).
      exists (snd lr). split; [now apply in_map | auto].
    - intros (v & Hcell). apply (MatrixFacts.cell_some _ _ _ _ Hnd) in Hcell
        as (r & Hr & Hu & Hi & Hv).
      apply in_map_iff in Hr as (lr & <- & Hlr). exists lr.
      unfold Pandas.notna. rewrite Hv. auto. }
  split; [| split].
  - intros item. rewrite map_map. cbn [fst]. rewrite map_id. apply Hitems.
  - intros item. unfold rated_set. rewrite in_map_iff, Hrated. split.
    + intros ([i v] & <- & Hin). apply filter_In in Hin as [Hin Hv].
      cbn [fst snd] in *. destruct v as [v |]; [| discriminate].
      apply in_map_iff in Hin as (i' & [= -> Hc] & _). eauto.
    + intros (v & Hv). exists (item, Some v). split; [reflexivity |].
      apply filter_In. split; [| reflexivity].
      apply in_map_iff. exists item. rewrite Hv. split; [reflexivity |].
      apply Hitems.
      assert (Hr : rated_in_train item) by (apply Hrated; eauto).
      destruct Hr as (lr & Hlr & _ & Hi & _). exists lr. auto.
  - intros item. unfold candidate_set. rewrite in_map_iff, Hrated. split.
    + intros ([i v] & <- & Hin). apply filter_In in Hin as [Hin Hv].
      cbn [fst snd] in *. destruct v as [v |]; [discriminate |].
      apply in_map_iff in Hin as (i' & [= -> Hc] & Hi'). split.
      * now apply Hitems.
      * intros (v & Hsome). congruence.
    + intros (Hitem & Hnone). exists (item, None). split; [reflexivity |].
      apply filter_In. split; [| reflexivity].
      apply in_map_iff. exists item. split; [| now apply Hitems].
      destruct (Pandas.cell (map snd train) user item) as [v |] eqn:E; [| reflexivity].
      exfalso. apply Hnone. eauto.
Qed.

Lemma matrix_row_reflects_train_witness :
  exists score_matrix row,
    Pandas.pivot sample_train = Ok score_matrix /\
    Pandas.loc score_matrix 1 = Ok row /\
    (forall item, In item (rated_set row) <->
       exists lr, In lr sample_train /\ subsr_id (snd lr) = 1%Z /\
                  program_id (snd lr) = item /\ Pandas.notna (snd lr) = true).
Proof.
  eexists _, _. split; [reflexivity |]. split; [reflexivity |].
  destruct (matrix_row_reflects_train Q sample_train _ 1 _ eq_refl eq_refl)
    as (_ & Hrated & _).
  exact Hrated.
Defined.

(** ** The ranking behind [recommend] *)
Module RankFacts.
Import Pandas NumPy Surprise SVDRecommendationModel ListFacts RecommendFacts.

(** The labels the code calls [user_unrated]. *)
Definition unrated_labels {R} (row : series R) : list Z :=
  map fst (filter (fun iv => negb (mem (fst iv) (map fst (series_dropna row)))) row).

Section Ranking.
Context {sorter : SortValues}.

(** The sorted frame of which [recommend] returns a slice. *)
Definition ranked (self : t) (user : Z) (row : series Q) : list (Z * Q) :=
  sort_values_desc (scored self user (unrated_labels row)).

Lemma recommend_is_a_slice (self : t) (user N : Z) (row : series Q) :
  loc (score_matrix self) user = Ok row ->
  recommend self user N = Ok (slice_to N (ranked self user row)).
Proof.
  intros Hloc. unfold recommend. rewrite Hloc. cbn [bind].
  rewrite series_drop_own_labels. reflexivity.
Qed.

Lemma recommend_ok_row (self : t) (user N : Z) (top_N : list (Z * Q)) :
  recommend self user N = Ok top_N ->
  exists row, loc (score_matrix self) user = Ok row.
Proof.
  unfold recommend. destruct (loc (score_matrix self) user) as [row | e]; [eauto |].
  discriminate.
Qed.

Lemma row_of_init (sgd : trainset -> svd_params) (train test : frame Q)
  (self : t) (user : Z) (row : series Q) :
  init sgd train test = Ok self ->
  loc (score_matrix self) user = Ok row ->
  NoDup (map fst row) /\ unrated_labels row = candidate_set row.
Proof.
  intros Hinit Hloc. apply init_score_matrix in Hinit as (Hpivot & _).
  apply MatrixFacts.loc_ok_in in Hloc.
  pose proof (pivot_unique_columns _ _ _ _ Hpivot Hloc) as Hnd.
  split; [assumption |]. now apply unrated_is_candidate_set.
Qed.

Lemma in_scored (self : t) (user : Z) (items : list Z) (i : Z) :
  In i items -> In (i, predict self user i) (scored self user items).
Proof.
  unfold scored. induction items as [| j rest IH]; cbn; [contradiction |].
  intros [-> | H]; auto.
Qed.

Lemma length_ranked (self : t) (user : Z) (row : series Q) :
  length (ranked self user row) = length (unrated_labels row).
Proof. apply length_sorted_scored. Qed.
End Ranking.

(** In a sorted list every entry of a prefix is related to every entry
    after the prefix. *)
Lemma prefix_before_rest {A} (le : A -> A -> Prop) (l : list A) :
  StronglySorted le l ->
  forall k a b, In a (firstn k l) -> In b (skipn k l) -> le a b.
Proof.
  induction 1 as [| x xs Hs IH Hx]; intros k a b Ha Hb.
  - destruct k; contradiction.
  - destruct k as [| k]; [contradiction |]. cbn [firstn skipn] in Ha, Hb.
    destruct Ha as [<- | Ha].
    + rewrite Forall_forall in Hx. apply Hx. eapply SplitFacts.in_skipn; eauto.
    + eapply IH; eauto.
Qed.

(** In a sorted list an entry is related to every entry at a later place. *)
Lemma sorted_by_place {A} (le : A -> A -> Prop) (l : list A) :
  StronglySorted le l ->
  forall k1 k2 a b,
    (k1 < k2)%nat -> nth_error l k1 = Some a -> nth_error l k2 = Some b -> le a b.
Proof.
  induction 1 as [| x xs Hs IH Hx]; intros k1 k2 a b Hlt Ha Hb.
  - destruct k1; discriminate.
  - destruct k2 as [| k2]; [lia |]. cbn [nth_error] in Hb.
    destruct k1 as [| k1]; cbn [nth_error] in Ha.
    + injection Ha as <-. rewrite Forall_forall in Hx.
      apply Hx. eapply nth_error_In; eauto.
    + apply (IH k1 k2); [lia | assumption | assumption].
Qed.
End RankFacts.

(** X11.  When N is at least the number of candidates, [recommend] returns
    every candidate of the user, each once. *)
Theorem recommend_returns_every_candidate
  (sorter : Pandas.SortValues) (sgd : Surprise.trainset -> Surprise.svd_params)
  (train test : Pandas.frame Q) (self : SVDRecommendationModel.t)
  (user N : Z) (row : Pandas.series Q) :
  SVDRecommendationModel.init sgd train test = Ok self ->
  Pandas.loc (SVDRecommendationModel.score_matrix self) user = Ok row ->
  (Z.of_nat (length (candidate_set row)) <= N)%Z ->
  exists top_N,
    SVDRecommendationModel.recommend self user N = Ok top_N /\
    Permutation (map fst top_N) (candidate_set row).
Proof.
  intros Hinit Hloc HN.
  destruct (RankFacts.row_of_init sgd train test self user row Hinit Hloc) as (_ & Hcand).
  eexists. split; [apply (RankFacts.recommend_is_a_slice self user N row Hloc) |].
  unfold Pandas.slice_to. destruct (Z.leb_spec 0 N); [| lia].
  rewrite firstn_all2.
  - unfold RankFacts.ranked. rewrite <- (Pandas.sort_values_perm _).
    now rewrite RecommendFacts.map_fst_scored, Hcand.
  - rewrite RankFacts.length_ranked, Hcand. lia.
Qed.

Lemma recommend_returns_every_candidate_witness :
  SVDRecommendationModel.init sample_sgd sample_train sample_test = Ok sample_model /\
  Pandas.loc (SVDRecommendationModel.score_matrix sample_model) 1
  = Ok [(10, Some (1 # 2)); (20, None); (30, None)]%Z /\
  exists top_N,
    SVDRecommendationModel.recommend (sorter := SortFacts.stable_sort) sample_model 1 10
    = Ok top_N /\
    Permutation (map fst top_N) [20; 30]%Z.
Proof.
  split; [reflexivity |]. split; [reflexivity |].
  apply (recommend_returns_every_candidate SortFacts.stable_sort sample_sgd
           sample_train sample_test sample_model 1 10
           [(10, Some (1 # 2)); (20, None); (30, None)]%Z eq_refl eq_refl).
  cbn. lia.
Defined.

(** X12.  The list [recommend] returns is a best choice: a candidate that
    is left out has a predicted score no higher than the score of any entry
    that is returned. *)
Theorem recommend_keeps_the_best
  (sorter : Pandas.SortValues) (sgd : Surprise.trainset -> Surprise.svd_params)
  (train test : Pandas.frame Q) (self : SVDRecommendationModel.t)
  (user N : Z) (row : Pandas.series Q) (top_N : list (Z * Q)) :
  SVDRecommendationModel.init sgd train test = Ok self ->
  Pandas.loc (SVDRecommendationModel.score_matrix self) user = Ok row ->
  SVDRecommendationModel.recommend self user N = Ok top_N ->
  forall left_out, In left_out (candidate_set row) -> ~ In left_out (map fst top_N) ->
  forall item score, In (item, score) top_N ->
  SVDRecommendationModel.predict self user left_out <= score.
Proof.
  intros Hinit Hloc Hrec left_out Hcand Hout item score Hin.
  destruct (RankFacts.row_of_init sgd train test self user row Hinit Hloc) as (_ & Heq).
  rewrite (RankFacts.recommend_is_a_slice self user N row Hloc) in Hrec.
  injection Hrec as <-.
  destruct (RecommendFacts.slice_to_prefix N (RankFacts.ranked self user row)) as (k & Hk).
  rewrite Hk in Hin, Hout.
  assert (Hleft : In (left_out, SVDRecommendationModel.predict self user left_out)
                     (RankFacts.ranked self user row)).
  { unfold RankFacts.ranked. apply (Permutation_in _ (Pandas.sort_values_perm _)).
    apply RankFacts.in_scored. now rewrite Heq. }
  rewrite <- (firstn_skipn k (RankFacts.ranked self user row)) in Hleft.
  apply in_app_or in Hleft as [Hleft | Hleft].
  - exfalso. apply Hout. apply in_map_iff.
    now exists (left_out, SVDRecommendationModel.predict self user left_out).
  - apply (RankFacts.prefix_before_rest (fun a b => snd b <= snd a)
             (RankFacts.ranked self user row)
             (Pandas.sort_values_sorted _) k (item, score)
             (left_out, SVDRecommendationModel.predict self user left_out) Hin Hleft).
Qed.

Lemma recommend_keeps_the_best_witness :
  SVDRecommendationModel.init sample_sgd sample_train sample_test = Ok sample_model /\
  Pandas.loc (SVDRecommendationModel.score_matrix sample_model) 1
  = Ok [(10, Some (1 # 2)); (20, None); (30, None)]%Z /\
  SVDRecommendationModel.recommend (sorter := SortFacts.stable_sort) sample_model 1 1
  = Ok [(20, 216 # 320)]%Z /\
  SVDRecommendationModel.predict sample_model 1 30 <= 216 # 320.
Proof.
  split; [reflexivity |]. split; [reflexivity |].
  split; [vm_compute; reflexivity |].
  assert (Hcand : In 30%Z (candidate_set [(10, Some (1 # 2)); (20, None); (30, None)]%Z))
    by (cbn; auto).
  assert (Hout : ~ In 30%Z (map fst [(20, 216 # 320)]%Z))
    by (cbn; intros [H | []]; discriminate).
  exact (recommend_keeps_the_best SortFacts.stable_sort sample_sgd
           sample_train sample_test sample_model 1 1
           [(10, Some (1 # 2)); (20, None); (30, None)]%Z [(20, 216 # 320)]%Z
           eq_refl eq_refl ltac:(vm_compute; reflexivity) 30%Z Hcand Hout
           20%Z (216 # 320) (or_introl eq_refl)).
Defined.

(** X13.  Asking for fewer items only shortens the list: for
    0 <= N <= M the list for N is the first N entries of the list for M. *)
Theorem recommend_shorter_is_a_prefix
  (sorter : Pandas.SortValues) (self : SVDRecommendationModel.t)
  (user N M : Z) (top_M : list (Z * Q)) :
  (0 <= N <= M)%Z ->
  SVDRecommendationModel.recommend self user M = Ok top_M ->
  SVDRecommendationModel.recommend self user N = Ok (firstn (Z.to_nat N) top_M).
Proof.
  intros HNM HM.
  destruct (RankFacts.recommend_ok_row self user M top_M HM) as (row & Hloc).
  rewrite (RankFacts.recommend_is_a_slice self user M row Hloc) in HM.
  injection HM as <-.
  rewrite (RankFacts.recommend_is_a_slice self user N row Hloc).
  unfold Pandas.slice_to.
  destruct (Z.leb_spec 0 N); [| lia]. destruct (Z.leb_spec 0 M); [| lia].
  rewrite firstn_firstn. do 2 f_equal. lia.
Qed.

Lemma recommend_shorter_is_a_prefix_witness :
  (0 <= 1 <= 10)%Z /\
  SVDRecommendationModel.recommend (sorter := SortFacts.stable_sort) sample_model 1 10
  = Ok [(20, 216 # 320); (30, 216 # 320)]%Z /\
  SVDRecommendationModel.recommend (sorter := SortFacts.stable_sort) sample_model 1 1
  = Ok (firstn (Z.to_nat 1) [(20, 216 # 320); (30, 216 # 320)]%Z).
Proof.
  split; [lia |]. split; [vm_compute; reflexivity |].
  apply (recommend_shorter_is_a_prefix SortFacts.stable_sort sample_model 1 1 10);
    [lia | vm_compute; reflexivity].
Defined.

(** X14.  [recommend] accepts N <= 0.  With N = 0 it returns the empty
    list.  With a negative N it returns the complete ranking of the
    candidates (the list it returns when N is the number of candidates)
    without its last |N| entries, in the same order (Python's slice [:N]);
    neither is an error. *)
Theorem recommend_nonpositive_N
  (sorter : Pandas.SortValues) (sgd : Surprise.trainset -> Surprise.svd_params)
  (train test : Pandas.frame Q) (self : SVDRecommendationModel.t)
  (user : Z) (row : Pandas.series Q) :
  SVDRecommendationModel.init sgd train test = Ok self ->
  Pandas.loc (SVDRecommendationModel.score_matrix self) user = Ok row ->
  exists ranking,
    SVDRecommendationModel.recommend self user (Z.of_nat (length (candidate_set row)))
    = Ok ranking /\
    Permutation (map fst ranking) (candidate_set row) /\
    SVDRecommendationModel.recommend self user 0 = Ok [] /\
    forall N, (N < 0)%Z ->
      SVDRecommendationModel.recommend self user N
      = Ok (firstn (length ranking - Z.to_nat (- N)) ranking).
Proof.
  intros Hinit Hloc.
  destruct (RankFacts.row_of_init sgd train test self user row Hinit Hloc) as (_ & Heq).
  exists (RankFacts.ranked self user row).
  split.
  { rewrite (RankFacts.recommend_is_a_slice self user _ row Hloc).
    unfold Pandas.slice_to. destruct (Z.leb_spec 0 (Z.of_nat (length (candidate_set row))));
      [| lia].
    rewrite firstn_all2; [reflexivity |].
    rewrite RankFacts.length_ranked, Heq. lia. }
  split.
  { unfold RankFacts.ranked. rewrite <- (Pandas.sort_values_perm _).
    now rewrite RecommendFacts.map_fst_scored, Heq. }
  split.
  - now rewrite (RankFacts.recommend_is_a_slice self user 0 row Hloc).
  - intros N HN. rewrite (RankFacts.recommend_is_a_slice self user N row Hloc).
    unfold Pandas.slice_to. destruct (Z.leb_spec 0 N); [lia | reflexivity].
Qed.

Lemma recommend_nonpositive_N_witness :
  SVDRecommendationModel.init sample_sgd sample_train sample_test = Ok sample_model /\
  Pandas.loc (SVDRecommendationModel.score_matrix sample_model) 1
  = Ok [(10, Some (1 # 2)); (20, None); (30, None)]%Z /\
  SVDRecommendationModel.recommend (sorter := SortFacts.stable_sort) sample_model 1 2
  = Ok [(20, 216 # 320); (30, 216 # 320)]%Z /\
  SVDRecommendationModel.recommend (sorter := SortFacts.stable_sort) sample_model 1 0
  = Ok [] /\
  SVDRecommendationModel.recommend (sorter := SortFacts.stable_sort) sample_model 1 (-1)
  = Ok [(20, 216 # 320)]%Z.
Proof.
  split; [reflexivity |]. split; [reflexivity |].
  destruct (recommend_nonpositive_N SortFacts.stable_sort sample_sgd
              sample_train sample_test sample_model 1
              [(10, Some (1 # 2)); (20, None); (30, None)]%Z eq_refl eq_refl)
    as (ranking & Hfull & _ & Hzero & Hneg).
  split; [vm_compute; reflexivity |].
  split; [exact Hzero |].
  rewrite (Hneg (-1)%Z ltac:(lia)).
  assert (Hranking : ranking = [(20, 216 # 320); (30, 216 # 320)]%Z).
  { assert (Hrun : SVDRecommendationModel.recommend (sorter := SortFacts.stable_sort)
                     sample_model 1 (Z.of_nat (length (candidate_set
                        [(10, Some (1 # 2)); (20, None); (30, None)]%Z)))
                   = Ok [(20, 216 # 320); (30, 216 # 320)]%Z)
      by (vm_compute; reflexivity).
    rewrite Hrun in Hfull. now injection Hfull. }
  rewrite Hranking. reflexivity.
Defined.

(** X15.  A user who has a rating for every item of the matrix gets the
    empty list, not an error: the [drop] of the rated labels raises
    nothing. *)
Theorem recommend_nothing_left
  (sorter : Pandas.SortValues) (self : SVDRecommendationModel.t)
  (user N : Z) (row : Pandas.series Q) :
  Pandas.loc (SVDRecommendationModel.score_matrix self) user = Ok row ->
  (forall item value, In (item, value) row -> value <> None) ->
  SVDRecommendationModel.recommend self user N = Ok [].
Proof.
  intros Hloc Hall.
  rewrite (RankFacts.recommend_is_a_slice self user N row Hloc).
  assert (Hnone : RankFacts.unrated_labels row = []).
  { unfold RankFacts.unrated_labels.
    replace (filter _ row) with (@nil (Z * option Q)); [reflexivity |].
    symmetry. destruct (filter _ row) as [| [i v] rest] eqn:F; [reflexivity |].
    exfalso.
    assert (Hin : In (i, v)
                     (filter (fun iv => negb (Pandas.mem (fst iv)
                                (map fst (Pandas.series_dropna row)))) row))
      by (rewrite F; now left).
    apply filter_In in Hin as [Hin Hmem]. cbn [fst] in Hmem.
    apply negb_true_iff, ListFacts.mem_false in Hmem. apply Hmem.
    apply in_map_iff. exists (i, v). split; [reflexivity |].
    unfold Pandas.series_dropna. apply filter_In. split; [assumption |].
    cbn [snd]. destruct v; [reflexivity |]. now apply Hall in Hin. }
  unfold RankFacts.ranked. rewrite Hnone. cbn [scored combine map].
  pose proof (Pandas.sort_values_perm (@nil (Z * Q))) as Hperm.
  apply Permutation_nil in Hperm. rewrite Hperm.
  unfold Pandas.slice_to. destruct (0 <=? N)%Z; now rewrite firstn_nil.
Qed.

(** A model in whose matrix user 7 has rated both items. *)
Definition all_rated_model : SVDRecommendationModel.t :=
  SVDRecommendationModel.mkModel [] []
    [(7, [(10, Some (1 # 2)); (20, Some (1 # 4))])]%Z
    (Surprise.mkSVD [] (sample_sgd [])).

Lemma recommend_nothing_left_witness :
  Pandas.loc (SVDRecommendationModel.score_matrix all_rated_model) 7
  = Ok [(10, Some (1 # 2)); (20, Some (1 # 4))]%Z /\
  SVDRecommendationModel.recommend (sorter := SortFacts.stable_sort)
    all_rated_model 7 10 = Ok [].
Proof.
  split; [reflexivity |].
  apply (recommend_nothing_left SortFacts.stable_sort all_rated_model 7 10
           [(10, Some (1 # 2)); (20, Some (1 # 4))]%Z eq_refl).
  intros item value [[= <- <-] | [[= <- <-] | []]]; discriminate.
Defined.

(** X16.  No item is listed twice in the result of [recommend]. *)
Theorem recommend_lists_items_once
  (sorter : Pandas.SortValues) (sgd : Surprise.trainset -> Surprise.svd_params)
  (train test : Pandas.frame Q) (self : SVDRecommendationModel.t)
  (user N : Z) (top_N : list (Z * Q)) :
  SVDRecommendationModel.init sgd train test = Ok self ->
  SVDRecommendationModel.recommend self user N = Ok top_N ->
  NoDup (map fst top_N).
Proof.
  intros Hinit Hrec.
  destruct (RankFacts.recommend_ok_row self user N top_N Hrec) as (row & Hloc).
  destruct (RankFacts.row_of_init sgd train test self user row Hinit Hloc)
    as (Hnd & Heq).
  rewrite (RankFacts.recommend_is_a_slice self user N row Hloc) in Hrec.
  injection Hrec as <-. unfold RankFacts.ranked. rewrite Heq.
  apply RecommendFacts.top_N_NoDup. now apply EvaluatorFacts.NoDup_candidate_set.
Qed.

Lemma recommend_lists_items_once_witness :
  SVDRecommendationModel.init sample_sgd sample_train sample_test = Ok sample_model /\
  SVDRecommendationModel.recommend (sorter := SortFacts.stable_sort) sample_model 1 10
  = Ok [(20, 216 # 320); (30, 216 # 320)]%Z /\
  NoDup (map fst [(20, 216 # 320); (30, 216 # 320)]%Z).
Proof.
  split; [reflexivity |]. split; [vm_compute; reflexivity |].
  apply (recommend_lists_items_once SortFacts.stable_sort sample_sgd
           sample_train sample_test sample_model 1 10);
    [reflexivity | vm_compute; reflexivity].
Defined.

(** ** More on precision, recall and [evaluate] *)
Module HitFacts.
Import Pandas SVDRecommendationModel ListFacts MetricFacts.

Lemma hits_count (t t' p p' : list Z) :
  (forall x, In x t <-> In x t') -> (forall x, In x p <-> In x p') ->
  length (hits t p) = length (hits t' p').
Proof.
  intros Ht Hp. apply Permutation_length, NoDup_Permutation; try apply NoDup_hits.
  intros x. rewrite !in_hits, Ht, Hp. tauto.
Qed.

(** [mapM] stops at the first element on which the function raises. *)
Lemma mapM_raises {A B} (f : A -> result B) (e : exn) (l : list A) :
  (forall x, In x l -> f x = Raise e \/ exists y, f x = Ok y) ->
  (exists x, In x l /\ f x = Raise e) ->
  mapM f l = Raise e.
Proof.
  induction l as [| a l IH]; intros Hall (x & Hx & Hfx); [contradiction |].
  cbn [mapM]. destruct (Hall a (or_introl eq_refl)) as [Ha | (y & Ha)]; rewrite Ha;
    cbn [bind]; [reflexivity |].
  rewrite IH; [reflexivity | |].
  - intros z Hz. apply Hall. now right.
  - destruct Hx as [-> | Hx]; [congruence |]. eauto.
Qed.

Lemma mapM_raise_inv {A B} (f : A -> result B) (e : exn) (l : list A) :
  mapM f l = Raise e -> exists x, In x l /\ f x = Raise e.
Proof.
  induction l as [| a l IH]; cbn [mapM]; [discriminate |].
  destruct (f a) as [y | e'] eqn:Ea; cbn [bind].
  - destruct (mapM f l) as [ys | e''] eqn:El; cbn [bind]; [discriminate |].
    intros [= ->]. destruct (IH eq_refl) as (x & Hx & Hfx).
    exists x. split; [now right | assumption].
  - intros [= ->]. exists a. split; [now left | assumption].
Qed.

Section Raising.
Context {sorter : SortValues}.

Lemma recommend_outcome (self : t) (user N : Z) :
  recommend self user N = Raise KeyError \/ exists top_N, recommend self user N = Ok top_N.
Proof.
  destruct (in_dec Z.eq_dec user (map fst (score_matrix self))) as [Hin | Hout].
  - right. destruct (RecommendFacts.loc_known _ _ Hin) as (row & Hloc & _).
    rewrite (RankFacts.recommend_is_a_slice self user N row Hloc). eauto.
  - left. now apply RecommendFacts.recommend_unknown.
Qed.

Lemma evaluate_user_outcome (self : t) (test : frame Q) (N user : Z) :
  evaluate_user self test N user = Raise KeyError
  \/ exists pr, evaluate_user self test N user = Ok pr.
Proof.
  unfold evaluate_user.
  destruct (recommend_outcome self user N) as [-> | (top_N & ->)]; cbn [bind]; eauto.
Qed.

Lemma evaluate_outcome (self : t) (test : frame Q) (N : Z) :
  evaluate self test N = Raise KeyError \/ exists pr, evaluate self test N = Ok pr.
Proof.
  unfold evaluate.
  destruct (mapM (evaluate_user self test N) _) as [prs | e] eqn:E; cbn [bind].
  - right. eauto.
  - left. apply mapM_raise_inv in E as (user & _ & Hu).
    destruct (evaluate_user_outcome self test N user) as [H | (pr & H)]; congruence.
Qed.
End Raising.
End HitFacts.

(** X17.  Swapping targets and predictions swaps precision and recall. *)
Theorem precision_recall_swap (target prediction : list Z) :
  fst (SVDRecommendationModel.precision_recall_at_k target prediction)
  = snd (SVDRecommendationModel.precision_recall_at_k prediction target) /\
  snd (SVDRecommendationModel.precision_recall_at_k target prediction)
  = fst (SVDRecommendationModel.precision_recall_at_k prediction target).
Proof.
  assert (H : length (SVDRecommendationModel.hits target prediction)
              = length (SVDRecommendationModel.hits prediction target)).
  { apply Permutation_length, NoDup_Permutation; try apply MetricFacts.NoDup_hits.
    intros x. rewrite !MetricFacts.in_hits. tauto. }
  unfold SVDRecommendationModel.precision_recall_at_k. cbn [fst snd].
  rewrite H. split; reflexivity.
Qed.

(** X18.  Precision and recall depend on neither the order of the targets
    nor the order of the predictions. *)
Theorem precision_recall_order_free (target target' prediction prediction' : list Z) :
  Permutation target target' -> Permutation prediction prediction' ->
  SVDRecommendationModel.precision_recall_at_k target prediction
  = SVDRecommendationModel.precision_recall_at_k target' prediction'.
Proof.
  intros Ht Hp. unfold SVDRecommendationModel.precision_recall_at_k.
  rewrite (HitFacts.hits_count target target' prediction prediction').
  - now rewrite (Permutation_length Ht), (Permutation_length Hp).
  - intros x. split; apply Permutation_in; [assumption | now symmetry].
  - intros x. split; apply Permutation_in; [assumption | now symmetry].
Qed.

Lemma precision_recall_order_free_witness :
  Permutation [10; 20; 30]%Z [30; 10; 20]%Z /\ Permutation [20; 40]%Z [40; 20]%Z /\
  SVDRecommendationModel.precision_recall_at_k [10; 20; 30]%Z [20; 40]%Z
  = SVDRecommendationModel.precision_recall_at_k [30; 10; 20]%Z [40; 20]%Z.
Proof.
  assert (H1 : Permutation [10; 20; 30]%Z [30; 10; 20]%Z).
  { change [30; 10; 20]%Z with ([30%Z] ++ 10%Z :: [20%Z]).
    apply Permutation_cons_app. apply perm_swap. }
  assert (H2 : Permutation [20; 40]%Z [40; 20]%Z) by apply perm_swap.
  split; [exact H1 |]. split; [exact H2 |].
  exact (precision_recall_order_free _ _ _ _ H1 H2).
Defined.

(** X19.  [evaluate] raises KeyError as soon as one subscriber of the frame
    it is given has no row in the rating matrix; it raises nothing else. *)
Theorem evaluate_unknown_subscriber
  (sorter : Pandas.SortValues) (self : SVDRecommendationModel.t)
  (test : Pandas.frame Q) (N : Z) :
  (exists lr, In lr test /\
              ~ In (subsr_id (snd lr)) (map fst (SVDRecommendationModel.score_matrix self))) ->
  SVDRecommendationModel.evaluate self test N = Raise KeyError.
Proof.
  intros (lr & Hlr & Hout). unfold SVDRecommendationModel.evaluate.
  rewrite (HitFacts.mapM_raises _ KeyError).
  - reflexivity.
  - intros user _. apply HitFacts.evaluate_user_outcome.
  - exists (subsr_id (snd lr)). split.
    + apply ListFacts.in_unique; [intros a b; apply Z.eqb_eq |].
      now apply (in_map (fun lr => subsr_id (snd lr))).
    + unfold SVDRecommendationModel.evaluate_user.
      now rewrite (RecommendFacts.recommend_unknown self _ N Hout).
Qed.

Lemma evaluate_unknown_subscriber_witness :
  (exists lr, In lr [(0%nat, mkInteraction 9 10 (Some 1))] /\
              ~ In (subsr_id (snd lr))
                   (map fst (SVDRecommendationModel.score_matrix sample_model))) /\
  SVDRecommendationModel.evaluate (sorter := SortFacts.stable_sort) sample_model
    [(0%nat, mkInteraction 9 10 (Some 1))] 10 = Raise KeyError.
Proof.
  assert (H : exists lr, In lr [(0%nat, mkInteraction 9 10 (Some 1))] /\
              ~ In (subsr_id (snd lr))
                   (map fst (SVDRecommendationModel.score_matrix sample_model))).
  { exists (0%nat, mkInteraction 9 10 (Some 1)). split; [now left |].
    cbn. intros [E | [E | []]]; discriminate. }
  split; [exact H |].
  exact (evaluate_unknown_subscriber SortFacts.stable_sort sample_model _ 10 H).
Defined.

(** ** The stage [model_running] *)
Module StageFacts.
Import Pandas NumPy Surprise SVDRecommendationModel ListFacts RecommendFacts.

Lemma pivot_raises_only_ValueError {R} (df : frame R) (e : exn) :
  pivot df = Raise e -> e = ValueError.
Proof.
  unfold pivot. destruct (duplicated _ _); [| discriminate]. now intros [= <-].
Qed.

Lemma pivot_of_distinct_pairs {R} (df : frame R) :
  NoDup (map (fun lr => pair_of (snd lr)) df) -> exists sm, pivot df = Ok sm.
Proof.
  intros Hnd. unfold pivot. rewrite map_map.
  replace (duplicated _ _) with false; [eauto |].
  symmetry. now apply (duplicated_false _ _ pair_eqb_spec).
Qed.

Lemma init_of_pivot (sgd : trainset -> svd_params) (train test : frame Q)
  (sm : pivoted Q) :
  pivot train = Ok sm ->
  exists self, init sgd train test = Ok self /\ score_matrix self = sm.
Proof.
  intros H. unfold init, dataset, make_score_matrix. rewrite H. cbn [bind]. eauto.
Qed.

Lemma init_raise (sgd : trainset -> svd_params) (train test : frame Q) (e : exn) :
  init sgd train test = Raise e -> e = ValueError.
Proof.
  unfold init, dataset, make_score_matrix.
  destruct (pivot train) as [sm |] eqn:E; cbn [bind]; [discriminate |].
  intros [= <-]. now apply (pivot_raises_only_ValueError train).
Qed.

Lemma evaluate_total {sorter : SortValues} (self : t) (test : frame Q) (N : Z) :
  (forall lr, In lr test -> In (subsr_id (snd lr)) (map fst (score_matrix self))) ->
  exists pr, evaluate self test N = Ok pr.
Proof.
  intros Hknown.
  destruct (HitFacts.evaluate_outcome self test N) as [Hraise | Hok]; [| exact Hok].
  exfalso. unfold evaluate in Hraise.
  destruct (mapM (evaluate_user self test N) _) as [prs | e] eqn:E; cbn [bind] in Hraise;
    [discriminate |].
  apply HitFacts.mapM_raise_inv in E as (user & Huser & Hu).
  apply (proj1 (in_unique _ Z.eqb Z.eqb_eq _ _)) in Huser.
  apply in_map_iff in Huser as (lr & <- & Hlr).
  destruct (loc_known _ _ (Hknown lr Hlr)) as (row & Hloc & _).
  unfold evaluate_user in Hu.
  rewrite (RankFacts.recommend_is_a_slice self _ N row Hloc) in Hu. discriminate.
Qed.
End StageFacts.

(** X20.  [model_running] recommends for the fixed subscriber 0: when
    subscriber 0 has no row in Train the stage raises (KeyError, or the
    ValueError of a pivot on repeated pairs) and pushes no recommendation. *)
Theorem model_running_needs_subscriber_0
  (sorter : Pandas.SortValues) (sgd : Surprise.trainset -> Surprise.svd_params)
  (train test : Pandas.frame Q) :
  ~ In 0%Z (users_of train) ->
  exists e, model_running sgd train test = Raise e /\ (e = KeyError \/ e = ValueError).
Proof.
  intros Hzero. unfold model_running.
  destruct (SVDRecommendationModel.init sgd train test) as [self | e] eqn:Einit;
    cbn [bind].
  - destruct (HitFacts.evaluate_outcome self test 10) as [-> | (pr & ->)]; cbn [bind];
      [eauto |].
    apply RecommendFacts.init_score_matrix in Einit as (Hpivot & _).
    rewrite RecommendFacts.recommend_unknown; [cbn [bind]; eauto |].
    intros Hin. apply Hzero. now apply (RecommendFacts.pivot_index _ _ _ Hpivot).
  - apply StageFacts.init_raise in Einit. eauto.
Qed.

Lemma model_running_needs_subscriber_0_witness :
  ~ In 0%Z (users_of sample_train) /\
  model_running (sorter := SortFacts.stable_sort) sample_sgd sample_train sample_test
  = Raise KeyError.
Proof.
  assert (H : ~ In 0%Z (users_of sample_train)).
  { cbn. intros [E | [E | [E | [E | []]]]]; discriminate. }
  split; [exact H |].
  destruct (model_running_needs_subscriber_0 SortFacts.stable_sort sample_sgd
              sample_train sample_test H) as (e & He & _).
  vm_compute. reflexivity.
Defined.

(** X21.  On the Train and Test frames of one split of an Interaction set
    with pairwise distinct pairs, in which subscriber 0 occurs,
    [model_running] raises nothing: it returns the list
    [recommend(0, 10)] of the fitted model, of at most 10 entries. *)
Theorem model_running_returns_top_ten
  (rng : Split.RandomState) (sorter : Pandas.SortValues)
  (sgd : Surprise.trainset -> Surprise.svd_params)
  (rating : list (interaction Q)) (train test : Pandas.frame Q) :
  Split.split rating = Ok (train, test) ->
  NoDup (map (@Pandas.pair_of Q) rating) ->
  In 0%Z (map (@subsr_id Q) rating) ->
  exists self recommendation,
    SVDRecommendationModel.init sgd train test = Ok self /\
    model_running sgd train test = Ok recommendation /\
    SVDRecommendationModel.recommend self 0 10 = Ok recommendation /\
    (length recommendation <= 10)%nat.
Proof.
  intros Hsplit Hpairs Hzero.
  pose proof (EvaluateFacts.split_ok_inv _ _ _ Hsplit) as (Htrain & Hincl).
  assert (Husers : users_of train = map (@subsr_id Q) rating).
  { rewrite Htrain, EvaluateFacts.masked_users. unfold users_of.
    rewrite <- (map_map snd (@subsr_id Q)). unfold Pandas.reset_index.
    now rewrite TrainFacts.rows_of_reset_index. }
  destruct (StageFacts.pivot_of_distinct_pairs train) as (sm & Hsm).
  { rewrite Htrain, TrainFacts.pairs_of_masked. exact Hpairs. }
  destruct (StageFacts.init_of_pivot sgd train test sm Hsm) as (self & Hinit & Hself).
  assert (Hindex : forall u, In u (users_of train) ->
                             In u (map fst (SVDRecommendationModel.score_matrix self))).
  { intros u Hu. rewrite Hself. now apply (RecommendFacts.pivot_index _ _ _ Hsm). }
  destruct (StageFacts.evaluate_total self test 10) as (pr & Hpr).
  { intros lr Hlr. apply Hindex. rewrite Husers.
    apply Hincl in Hlr. apply (in_map snd) in Hlr.
    unfold Pandas.reset_index in Hlr. rewrite TrainFacts.rows_of_reset_index in Hlr.
    now apply in_map. }
  destruct (RecommendFacts.loc_known _ _ (Hindex 0%Z ltac:(now rewrite Husers)))
    as (row & Hloc & _).
  pose proof (RankFacts.recommend_is_a_slice self 0 10 row Hloc) as Hrec.
  exists self. eexists. split; [exact Hinit |]. split; [| split; [exact Hrec |]].
  - unfold model_running. rewrite Hinit. cbn [bind]. rewrite Hpr. cbn [bind].
    rewrite Hrec. reflexivity.
  - unfold Pandas.slice_to. cbn [Z.leb Z.compare]. rewrite length_firstn. lia.
Qed.

(** An Interaction set in which subscriber 0 occurs. *)
Definition rating_with_0 : list (interaction Q) :=
  [mkInteraction 0 10 (Some (1 # 2)); mkInteraction 0 20 None;
   mkInteraction 2 10 (Some (3 # 4)); mkInteraction 2 30 (Some 1)].

Lemma model_running_returns_top_ten_witness :
  exists train test,
    Split.split (rng := reversing_state) rating_with_0 = Ok (train, test) /\
    NoDup (map (@Pandas.pair_of Q) rating_with_0) /\
    In 0%Z (map (@subsr_id Q) rating_with_0) /\
    exists self recommendation,
      SVDRecommendationModel.init sample_sgd train test = Ok self /\
      model_running (sorter := SortFacts.stable_sort) sample_sgd train test
      = Ok recommendation /\
      SVDRecommendationModel.recommend (sorter := SortFacts.stable_sort) self 0 10
      = Ok recommendation /\
      (length recommendation <= 10)%nat.
Proof.
  assert (Hpairs : NoDup (map (@Pandas.pair_of Q) rating_with_0)).
  { apply (ListFacts.duplicated_false _ _ ListFacts.pair_eqb_spec). reflexivity. }
  assert (Hzero : In 0%Z (map (@subsr_id Q) rating_with_0)) by (now left).
  eexists _, _. split; [reflexivity |]. split; [exact Hpairs |]. split; [exact Hzero |].
  exact (model_running_returns_top_ten reversing_state SortFacts.stable_sort sample_sgd
           rating_with_0 _ _ eq_refl Hpairs Hzero).
Defined.

(** X22.  Items with no rated row in Train cannot be told apart by the
    model: for any subscriber, [predict] gives two such items the same
    score. *)
Theorem unseen_items_tie
  (sgd : Surprise.trainset -> Surprise.svd_params)
  (train test : Pandas.frame Q) (self : SVDRecommendationModel.t) (user i j : Z) :
  SVDRecommendationModel.init sgd train test = Ok self ->
  (forall lr, In lr (Pandas.dropna train) -> program_id (snd lr) <> i) ->
  (forall lr, In lr (Pandas.dropna train) -> program_id (snd lr) <> j) ->
  SVDRecommendationModel.predict self user i = SVDRecommendationModel.predict self user j.
Proof.
  intros Hinit Hi Hj.
  pose proof (fitted_trainset sgd train test self Hinit) as Hperm.
  assert (Hunseen : forall item,
             (forall lr, In lr (Pandas.dropna train) -> program_id (snd lr) <> item) ->
             Surprise.knows_item
               (Surprise.svd_trainset (SVDRecommendationModel.model self)) item = false).
  { intros item Hitem.
    destruct (Surprise.knows_item _ item) eqn:E; [| reflexivity].
    apply SurpriseFacts.knows_item_spec in E as (r & Hr & Hri).
    apply (Permutation_in _ Hperm) in Hr.
    apply in_map_iff in Hr as (lr & <- & Hlr). now apply Hitem in Hlr. }
  unfold SVDRecommendationModel.predict, Surprise.predict, Surprise.estimate.
  rewrite (Hunseen i Hi), (Hunseen j Hj).
  now destruct (Surprise.knows_user _ user).
Qed.

Lemma unseen_items_tie_witness :
  SVDRecommendationModel.init sample_sgd sample_train sample_test = Ok sample_model /\
  SVDRecommendationModel.predict sample_model 1 20
  = SVDRecommendationModel.predict sample_model 1 30.
Proof.
  split; [reflexivity |].
  apply (unseen_items_tie sample_sgd sample_train sample_test sample_model 1 20 30
           eq_refl).
  - intros lr [<- | [<- | []]]; discriminate.
  - intros lr [<- | [<- | []]]; discriminate.
Defined.

(** X23.  Every entry of a list returned by [recommend] carries the model's
    prediction for its item, a score within the rating scale [0, 1]. *)
Theorem recommend_scores_in_scale
  (sorter : Pandas.SortValues) (self : SVDRecommendationModel.t)
  (user N : Z) (top_N : list (Z * Q)) :
  SVDRecommendationModel.recommend self user N = Ok top_N ->
  forall item score, In (item, score) top_N ->
  score = SVDRecommendationModel.predict self user item /\ 0 <= score <= 1.
Proof.
  intros Hrec item score Hin.
  destruct (RankFacts.recommend_ok_row self user N top_N Hrec) as (row & Hloc).
  rewrite (RankFacts.recommend_is_a_slice self user N row Hloc) in Hrec.
  injection Hrec as <-.
  destruct (RecommendFacts.slice_to_prefix N (RankFacts.ranked self user row)) as (k & Hk).
  rewrite Hk in Hin. apply SplitFacts.in_firstn in Hin.
  unfold RankFacts.ranked in Hin.
  apply (Permutation_in _ (Permutation_sym (Pandas.sort_values_perm _))) in Hin.
  apply RecommendFacts.scored_score in Hin. subst score.
  split; [reflexivity |]. apply SurpriseFacts.clip_bounds.
Qed.

Lemma recommend_scores_in_scale_witness :
  SVDRecommendationModel.recommend (sorter := SortFacts.stable_sort) sample_model 1 10
  = Ok [(20, 216 # 320); (30, 216 # 320)]%Z /\
  216 # 320 = SVDRecommendationModel.predict sample_model 1 30 /\
  0 <= 216 # 320 <= 1.
Proof.
  split; [vm_compute; reflexivity |].
  apply (recommend_scores_in_scale SortFacts.stable_sort sample_model 1 10
           [(20, 216 # 320); (30, 216 # 320)]%Z ltac:(vm_compute; reflexivity) 30%Z).
  right. now left.
Defined.

(** X24.  The call [evaluate(test)] of [model_running], on the Train and
    Test frames of one split, returns two numbers and no NaN: Test is not
    empty and each of its subscribers has a row in the rating matrix, so
    both averages are taken over at least one user and lie in [0,1]. *)
Theorem evaluate_on_split
  (rng : Split.RandomState) (sorter : Pandas.SortValues)
  (sgd : Surprise.trainset -> Surprise.svd_params)
  (rating : list (interaction Q)) (train test : Pandas.frame Q)
  (self : SVDRecommendationModel.t) (N : Z) :
  Split.split rating = Ok (train, test) ->
  SVDRecommendationModel.init sgd train test = Ok self ->
  test <> [] /\
  exists precision recall,
    SVDRecommendationModel.evaluate self test N = Ok (Some precision, Some recall) /\
    0 <= precision <= 1 /\ 0 <= recall <= 1.
Proof.
  intros Hsplit Hinit.
  assert (Hne : test <> []).
  { destruct (Nat.lt_ge_cases (length (filter (@Pandas.notna Q) rating)) 2) as [Hlt | Hge].
    - rewrite (split_raises_below_two rng Q rating Hlt) in Hsplit. discriminate.
    - destruct (split_unfold rng Q rating Hge) as (test' & Heq & _ & _ & Hsize).
      rewrite Heq in Hsplit. injection Hsplit as _ <-.
      intros E. rewrite E in Hsize. cbn [length] in Hsize.
      pose proof (Nat.div_mod_eq (length (filter (@Pandas.notna Q) rating) + 3) 4) as Hd.
      pose proof (Nat.mod_upper_bound
                    (length (filter (@Pandas.notna Q) rating) + 3) 4 ltac:(lia)) as Hm.
      lia. }
  split; [exact Hne |].
  assert (Hknown : forall lr, In lr test ->
            In (subsr_id (snd lr)) (map fst (SVDRecommendationModel.score_matrix self))).
  { intros lr Hlr.
    apply EvaluateFacts.split_ok_inv in Hsplit as (Htrain & Hincl).
    pose proof (RecommendFacts.init_score_matrix _ _ _ _ Hinit) as (Hpivot & _).
    apply (RecommendFacts.pivot_index _ _ _ Hpivot).
    rewrite Htrain, EvaluateFacts.masked_users.
    unfold users_of. apply in_map_iff. exists lr.
    split; [reflexivity | now apply Hincl]. }
  destruct (EvaluatorFacts.evaluate_returns sgd train test test self N Hinit Hknown)
    as (prs & Hmap & Heval).
  assert (Hprs : per_user self test N prs).
  { apply mapM_ok_inv in Hmap. eapply Forall2_impl; [| exact Hmap].
    intros user pr Hpr. now apply EvaluateFacts.evaluate_user_inv. }
  pose proof (EvaluatorFacts.per_user_nonempty self test N prs Hne Hprs) as Hprs_ne.
  destruct (EvaluatorFacts.per_user_averages sgd train test test self N prs
              Hinit Hne Hprs) as ((Hp & Hr) & _).
  exists (meanQ (map fst prs)), (meanQ (map snd prs)).
  split; [| split; assumption].
  rewrite Heval, !MetricFacts.mean_finite; [reflexivity | |];
    destruct prs; (congruence || discriminate).
Qed.

Lemma evaluate_on_split_witness :
  Split.split (rng := reversing_state) sample_rating = Ok (sample_train, sample_test) /\
  SVDRecommendationModel.init sample_sgd sample_train sample_test = Ok sample_model /\
  SVDRecommendationModel.evaluate (sorter := SortFacts.stable_sort)
    sample_model sample_test 10 = Ok (Some (1 # 2), Some 1) /\
  sample_test <> [] /\
  exists precision recall,
    SVDRecommendationModel.evaluate (sorter := SortFacts.stable_sort)
      sample_model sample_test 10 = Ok (Some precision, Some recall) /\
    0 <= precision <= 1 /\ 0 <= recall <= 1.
Proof.
  split; [reflexivity |]. split; [reflexivity |].
  split; [vm_compute; reflexivity |].
  apply (evaluate_on_split reversing_state SortFacts.stable_sort sample_sgd
           sample_rating sample_train sample_test sample_model 10);
    reflexivity.
Defined.

(** X25.  Along any list [recommend] returns, for any model, the predicted
    score never goes up: an entry at a later place has a score no higher than
    an entry at an earlier place. *)
Theorem recommend_scores_descend
  (sorter : Pandas.SortValues) (self : SVDRecommendationModel.t)
  (user N : Z) (top_N : list (Z * Q)) :
  SVDRecommendationModel.recommend self user N = Ok top_N ->
  forall k1 k2 earlier later,
    (k1 < k2)%nat ->
    nth_error top_N k1 = Some earlier -> nth_error top_N k2 = Some later ->
    snd later <= snd earlier.
Proof.
  intros Hrec k1 k2 earlier later Hlt H1 H2.
  destruct (RankFacts.recommend_ok_row self user N top_N Hrec) as (row & Hloc).
  rewrite (RankFacts.recommend_is_a_slice self user N row Hloc) in Hrec.
  injection Hrec as <-.
  destruct (RecommendFacts.slice_to_prefix N (RankFacts.ranked self user row)) as (k & Hk).
  rewrite Hk in H1, H2.
  pose proof (RecommendFacts.firstn_sorted _ k _
                (Pandas.sort_values_sorted
                   (scored self user (RankFacts.unrated_labels row)))) as Hsorted.
  exact (RankFacts.sorted_by_place (fun a b => snd b <= snd a) _ Hsorted
           k1 k2 earlier later Hlt H1 H2).
Qed.

(** An Interaction set in which subscriber 1 has a candidate seen in
    training (program 20) and two that are not (30 and 40). *)
Definition graded_rating : list (interaction Q) :=
  [mkInteraction 1 10 (Some (1 # 2)); mkInteraction 2 20 (Some (3 # 4));
   mkInteraction 1 30 None; mkInteraction 2 40 (Some 1)].

Definition graded_model : SVDRecommendationModel.t :=
  Eval vm_compute in
    match Split.split (rng := reversing_state) graded_rating with
    | Ok (train, test) =>
        match SVDRecommendationModel.init sample_sgd train test with
        | Ok self => self
        | Raise _ =>
            SVDRecommendationModel.mkModel [] [] [] (Surprise.mkSVD [] (sample_sgd []))
        end
    | Raise _ =>
        SVDRecommendationModel.mkModel [] [] [] (Surprise.mkSVD [] (sample_sgd []))
    end.

Lemma recommend_scores_descend_witness :
  (exists train test,
     Split.split (rng := reversing_state) graded_rating = Ok (train, test) /\
     SVDRecommendationModel.init sample_sgd train test = Ok graded_model) /\
  SVDRecommendationModel.recommend (sorter := SortFacts.stable_sort) graded_model 1 10
  = Ok [(20, 28000 # 32000); (30, 216 # 320); (40, 216 # 320)]%Z /\
  216 # 320 <= 28000 # 32000.
Proof.
  split; [eexists _, _; split; vm_compute; reflexivity |].
  split; [vm_compute; reflexivity |].
  exact (recommend_scores_descend SortFacts.stable_sort graded_model 1 10
           [(20, 28000 # 32000); (30, 216 # 320); (40, 216 # 320)]%Z
           ltac:(vm_compute; reflexivity)
           0%nat 1%nat (20%Z, 28000 # 32000) (30%Z, 216 # 320)
           ltac:(lia) eq_refl eq_refl).
Defined.
